(** * paraboard: the drawing canvas of [src/components/drawing-canvas.tsx]

    A shallow embedding of the editor core of the [DrawingCanvas] React
    component: the element store, the viewport, hit-testing, the pointer
    handlers, the history and the clipboard, with the properties of the
    specification stated over it, and of its rendering, [redrawCanvas]
    with [drawGrid], [drawSelectionBox] and [drawResizeHandles], as the
    list of calls it makes on the 2D context.

    Conventions of the embedding.

    - A JavaScript [number] is an exact rational ([Q]); [Math.round],
      [Math.min], [Math.max], [Math.abs] and [Math.pow (_, 2)] are exact.
      [Math.sqrt], [Math.cos], [Math.sin] and [Math.PI] have no rational
      value and are taken from a [JSMath] interface.  [NaN] and the
      infinities are not represented: the two places where a handler
      computes with [undefined] are reported as [None], and so are the
      line width [undefined / zoom] that the rendering assigns for a text
      and the rendering of a pen stroke with an empty path, which throws.
    - React state is one record, [State].  A handler is created by a render
      and reads the state of that render (its closure) while the setters it
      calls are queued and applied, in order, to the pending state.  A
      handler is therefore a function [closure -> pending -> pending]; the
      setter [setX (val v)] stores a value and [setX (fun prev => ...)] is
      the functional form.  A handler freshly created by the last render
      runs with [closure = pending] ([dispatch]).
    - [Date.now ()] and [Math.random ()], the canvas rectangle and the 2D
      context come from an environment record, [Env]. *)

From Stdlib Require Import QArith Qround Qminmax Qabs ZArith.
From Stdlib Require Import List String Bool Lia Lqa DecimalString.
Import ListNotations.

Local Open Scope Q_scope.

(** ** Numbers *)

Definition number : Type := Q.

(** [Math.round]: the nearest integer, ties towards plus infinity. *)
Definition Math_round (v : number) : number := inject_Z (Qfloor (v + (1 # 2))).

Definition Math_pow2 (v : number) : number := v * v.

(** The part of [Math] that has no exact rational value. *)
Class JSMath : Type := {
  Math_sqrt : number -> number;
  Math_cos : number -> number;
  Math_sin : number -> number;
  Math_PI : number
}.

(** [a >= b] and the like on numbers, as booleans. *)
Definition geb (a b : number) : bool := Qle_bool b a.
Definition leb (a b : number) : bool := Qle_bool a b.
Definition ltb (a b : number) : bool := negb (Qle_bool b a).
Definition gtb (a b : number) : bool := negb (Qle_bool a b).

(** ** Data model *)

Inductive Tool : Type :=
  | tool_pen | tool_line | tool_rectangle | tool_circle
  | tool_text | tool_move | tool_eraser | tool_select.

Inductive ShapeType : Type := pen | line | rectangle | circle.

Module Point.
Record t : Type := mk { x : number; y : number }.
End Point.

Module Shape.
Record t : Type := mk {
    id : string;
    type : ShapeType;
    startX : number;
    startY : number;
    endX : number;
    endY : number;
    lineWidth : number;
    points : option (list Point.t);
    rotation : option number;
    flipX : option bool;
    flipY : option bool
  }.

Definition with_id (v : string) (s : t) : t :=
    mk v (type s) (startX s) (startY s) (endX s) (endY s) (lineWidth s)
       (points s) (rotation s) (flipX s) (flipY s).
Definition with_coords (sx sy ex ey : number) (s : t) : t :=
    mk (id s) (type s) sx sy ex ey (lineWidth s)
       (points s) (rotation s) (flipX s) (flipY s).
Definition with_end (ex ey : number) (s : t) : t :=
    with_coords (startX s) (startY s) ex ey s.
Definition with_points (v : option (list Point.t)) (s : t) : t :=
    mk (id s) (type s) (startX s) (startY s) (endX s) (endY s) (lineWidth s)
       v (rotation s) (flipX s) (flipY s).
Definition with_rotation (v : option number) (s : t) : t :=
    mk (id s) (type s) (startX s) (startY s) (endX s) (endY s) (lineWidth s)
       (points s) v (flipX s) (flipY s).
Definition with_flipX (v : option bool) (s : t) : t :=
    mk (id s) (type s) (startX s) (startY s) (endX s) (endY s) (lineWidth s)
       (points s) (rotation s) v (flipY s).
Definition with_flipY (v : option bool) (s : t) : t :=
    mk (id s) (type s) (startX s) (startY s) (endX s) (endY s) (lineWidth s)
       (points s) (rotation s) (flipX s) v.
End Shape.

Module TextElement.
Record t : Type := mk {
    id : string;
    x : number;
    y : number;
    content : string;
    fontSize : number;
    rotation : option number;
    flipX : option bool;
    flipY : option bool
  }.

Definition with_id (v : string) (e : t) : t :=
    mk v (x e) (y e) (content e) (fontSize e) (rotation e) (flipX e) (flipY e).
Definition with_xy (vx vy : number) (e : t) : t :=
    mk (id e) vx vy (content e) (fontSize e) (rotation e) (flipX e) (flipY e).
Definition with_content (v : string) (e : t) : t :=
    mk (id e) (x e) (y e) v (fontSize e) (rotation e) (flipX e) (flipY e).
Definition with_rotation (v : option number) (e : t) : t :=
    mk (id e) (x e) (y e) (content e) (fontSize e) v (flipX e) (flipY e).
Definition with_flipX (v : option bool) (e : t) : t :=
    mk (id e) (x e) (y e) (content e) (fontSize e) (rotation e) v (flipY e).
Definition with_flipY (v : option bool) (e : t) : t :=
    mk (id e) (x e) (y e) (content e) (fontSize e) (rotation e) (flipX e) v.
End TextElement.

(** [type DrawingElement = Shape | TextElement], discriminated by [type]. *)
Inductive DrawingElement : Type :=
  | EShape (s : Shape.t)
  | EText (t : TextElement.t).

Definition element_id (el : DrawingElement) : string :=
  match el with
  | EShape s => Shape.id s
  | EText t => TextElement.id t
  end.

Definition element_rotation (el : DrawingElement) : option number :=
  match el with
  | EShape s => Shape.rotation s
  | EText t => TextElement.rotation t
  end.

Definition element_flipX (el : DrawingElement) : option bool :=
  match el with
  | EShape s => Shape.flipX s
  | EText t => TextElement.flipX t
  end.

Definition element_flipY (el : DrawingElement) : option bool :=
  match el with
  | EShape s => Shape.flipY s
  | EText t => TextElement.flipY t
  end.

Module HistoryState.
Record t : Type := mk {
    elements : list DrawingElement;
    selectedElements : list DrawingElement
  }.
End HistoryState.

Module Box.
Record t : Type := mk {
    startX : number;
    startY : number;
    endX : number;
    endY : number
  }.
End Box.

(** The handle names returned by [getResizeHandle]. *)
Inductive Handle : Type :=
  | h_n | h_ne | h_e | h_se | h_s | h_sw | h_w | h_nw.

(** ** Component state: one field per [useState] *)

Record State : Type := mkState {
  isDrawing : bool;
  tool : Tool;
  lineWidth : number;
  showGrid : bool;
  gridSnap : bool;
  textInput : string;
  textPosition : Point.t;
  isAddingText : bool;
  editingTextId : option string;
  elements : list DrawingElement;
  movingElement : option DrawingElement;
  moveOffset : Point.t;
  selectedElements : list DrawingElement;
  resizeHandle : option Handle;
  copiedElements : list DrawingElement;
  selectionBox : option Box.t;
  isSelecting : bool;
  zoom : number;
  panOffset : Point.t;
  isPanning : bool;
  panStart : Point.t;
  history : list HistoryState.t;
  historyIndex : nat
}.

(** The initial values given to [useState]. *)
Definition initialState : State :=
  mkState false tool_pen 2 false false EmptyString (Point.mk 0 0) false None
          [] None (Point.mk 0 0) [] None [] None false
          1 (Point.mk 0 0) false (Point.mk 0 0)
          [HistoryState.mk [] []] 0%nat.

Definition gridSize : number := 20.

(** A value passed to a setter, as opposed to an updater function. *)
Definition val {A : Type} (v : A) : A -> A := fun _ => v.
Arguments val {A} v _ /.

Definition setIsDrawing (f : bool -> bool) (p : State) : State :=
  mkState (f (isDrawing p)) (tool p) (lineWidth p) (showGrid p) (gridSnap p)
    (textInput p) (textPosition p) (isAddingText p) (editingTextId p)
    (elements p) (movingElement p) (moveOffset p) (selectedElements p)
    (resizeHandle p) (copiedElements p) (selectionBox p) (isSelecting p)
    (zoom p) (panOffset p) (isPanning p) (panStart p)
    (history p) (historyIndex p).

Definition setTool (f : Tool -> Tool) (p : State) : State :=
  mkState (isDrawing p) (f (tool p)) (lineWidth p) (showGrid p) (gridSnap p)
    (textInput p) (textPosition p) (isAddingText p) (editingTextId p)
    (elements p) (movingElement p) (moveOffset p) (selectedElements p)
    (resizeHandle p) (copiedElements p) (selectionBox p) (isSelecting p)
    (zoom p) (panOffset p) (isPanning p) (panStart p)
    (history p) (historyIndex p).

Definition setLineWidth (f : number -> number) (p : State) : State :=
  mkState (isDrawing p) (tool p) (f (lineWidth p)) (showGrid p) (gridSnap p)
    (textInput p) (textPosition p) (isAddingText p) (editingTextId p)
    (elements p) (movingElement p) (moveOffset p) (selectedElements p)
    (resizeHandle p) (copiedElements p) (selectionBox p) (isSelecting p)
    (zoom p) (panOffset p) (isPanning p) (panStart p)
    (history p) (historyIndex p).

Definition setShowGrid (f : bool -> bool) (p : State) : State :=
  mkState (isDrawing p) (tool p) (lineWidth p) (f (showGrid p)) (gridSnap p)
    (textInput p) (textPosition p) (isAddingText p) (editingTextId p)
    (elements p) (movingElement p) (moveOffset p) (selectedElements p)
    (resizeHandle p) (copiedElements p) (selectionBox p) (isSelecting p)
    (zoom p) (panOffset p) (isPanning p) (panStart p)
    (history p) (historyIndex p).

Definition setGridSnap (f : bool -> bool) (p : State) : State :=
  mkState (isDrawing p) (tool p) (lineWidth p) (showGrid p) (f (gridSnap p))
    (textInput p) (textPosition p) (isAddingText p) (editingTextId p)
    (elements p) (movingElement p) (moveOffset p) (selectedElements p)
    (resizeHandle p) (copiedElements p) (selectionBox p) (isSelecting p)
    (zoom p) (panOffset p) (isPanning p) (panStart p)
    (history p) (historyIndex p).

Definition setTextInput (f : string -> string) (p : State) : State :=
  mkState (isDrawing p) (tool p) (lineWidth p) (showGrid p) (gridSnap p)
    (f (textInput p)) (textPosition p) (isAddingText p) (editingTextId p)
    (elements p) (movingElement p) (moveOffset p) (selectedElements p)
    (resizeHandle p) (copiedElements p) (selectionBox p) (isSelecting p)
    (zoom p) (panOffset p) (isPanning p) (panStart p)
    (history p) (historyIndex p).

Definition setTextPosition (f : Point.t -> Point.t) (p : State) : State :=
  mkState (isDrawing p) (tool p) (lineWidth p) (showGrid p) (gridSnap p)
    (textInput p) (f (textPosition p)) (isAddingText p) (editingTextId p)
    (elements p) (movingElement p) (moveOffset p) (selectedElements p)
    (resizeHandle p) (copiedElements p) (selectionBox p) (isSelecting p)
    (zoom p) (panOffset p) (isPanning p) (panStart p)
    (history p) (historyIndex p).

Definition setIsAddingText (f : bool -> bool) (p : State) : State :=
  mkState (isDrawing p) (tool p) (lineWidth p) (showGrid p) (gridSnap p)
    (textInput p) (textPosition p) (f (isAddingText p)) (editingTextId p)
    (elements p) (movingElement p) (moveOffset p) (selectedElements p)
    (resizeHandle p) (copiedElements p) (selectionBox p) (isSelecting p)
    (zoom p) (panOffset p) (isPanning p) (panStart p)
    (history p) (historyIndex p).

Definition setEditingTextId (f : option string -> option string) (p : State)
  : State :=
  mkState (isDrawing p) (tool p) (lineWidth p) (showGrid p) (gridSnap p)
    (textInput p) (textPosition p) (isAddingText p) (f (editingTextId p))
    (elements p) (movingElement p) (moveOffset p) (selectedElements p)
    (resizeHandle p) (copiedElements p) (selectionBox p) (isSelecting p)
    (zoom p) (panOffset p) (isPanning p) (panStart p)
    (history p) (historyIndex p).

Definition setElements (f : list DrawingElement -> list DrawingElement)
  (p : State) : State :=
  mkState (isDrawing p) (tool p) (lineWidth p) (showGrid p) (gridSnap p)
    (textInput p) (textPosition p) (isAddingText p) (editingTextId p)
    (f (elements p)) (movingElement p) (moveOffset p) (selectedElements p)
    (resizeHandle p) (copiedElements p) (selectionBox p) (isSelecting p)
    (zoom p) (panOffset p) (isPanning p) (panStart p)
    (history p) (historyIndex p).

Definition setMovingElement
  (f : option DrawingElement -> option DrawingElement) (p : State) : State :=
  mkState (isDrawing p) (tool p) (lineWidth p) (showGrid p) (gridSnap p)
    (textInput p) (textPosition p) (isAddingText p) (editingTextId p)
    (elements p) (f (movingElement p)) (moveOffset p) (selectedElements p)
    (resizeHandle p) (copiedElements p) (selectionBox p) (isSelecting p)
    (zoom p) (panOffset p) (isPanning p) (panStart p)
    (history p) (historyIndex p).

Definition setMoveOffset (f : Point.t -> Point.t) (p : State) : State :=
  mkState (isDrawing p) (tool p) (lineWidth p) (showGrid p) (gridSnap p)
    (textInput p) (textPosition p) (isAddingText p) (editingTextId p)
    (elements p) (movingElement p) (f (moveOffset p)) (selectedElements p)
    (resizeHandle p) (copiedElements p) (selectionBox p) (isSelecting p)
    (zoom p) (panOffset p) (isPanning p) (panStart p)
    (history p) (historyIndex p).

Definition setSelectedElements
  (f : list DrawingElement -> list DrawingElement) (p : State) : State :=
  mkState (isDrawing p) (tool p) (lineWidth p) (showGrid p) (gridSnap p)
    (textInput p) (textPosition p) (isAddingText p) (editingTextId p)
    (elements p) (movingElement p) (moveOffset p) (f (selectedElements p))
    (resizeHandle p) (copiedElements p) (selectionBox p) (isSelecting p)
    (zoom p) (panOffset p) (isPanning p) (panStart p)
    (history p) (historyIndex p).

Definition setResizeHandle (f : option Handle -> option Handle) (p : State)
  : State :=
  mkState (isDrawing p) (tool p) (lineWidth p) (showGrid p) (gridSnap p)
    (textInput p) (textPosition p) (isAddingText p) (editingTextId p)
    (elements p) (movingElement p) (moveOffset p) (selectedElements p)
    (f (resizeHandle p)) (copiedElements p) (selectionBox p) (isSelecting p)
    (zoom p) (panOffset p) (isPanning p) (panStart p)
    (history p) (historyIndex p).

Definition setCopiedElements
  (f : list DrawingElement -> list DrawingElement) (p : State) : State :=
  mkState (isDrawing p) (tool p) (lineWidth p) (showGrid p) (gridSnap p)
    (textInput p) (textPosition p) (isAddingText p) (editingTextId p)
    (elements p) (movingElement p) (moveOffset p) (selectedElements p)
    (resizeHandle p) (f (copiedElements p)) (selectionBox p) (isSelecting p)
    (zoom p) (panOffset p) (isPanning p) (panStart p)
    (history p) (historyIndex p).

Definition setSelectionBox (f : option Box.t -> option Box.t) (p : State)
  : State :=
  mkState (isDrawing p) (tool p) (lineWidth p) (showGrid p) (gridSnap p)
    (textInput p) (textPosition p) (isAddingText p) (editingTextId p)
    (elements p) (movingElement p) (moveOffset p) (selectedElements p)
    (resizeHandle p) (copiedElements p) (f (selectionBox p)) (isSelecting p)
    (zoom p) (panOffset p) (isPanning p) (panStart p)
    (history p) (historyIndex p).

Definition setIsSelecting (f : bool -> bool) (p : State) : State :=
  mkState (isDrawing p) (tool p) (lineWidth p) (showGrid p) (gridSnap p)
    (textInput p) (textPosition p) (isAddingText p) (editingTextId p)
    (elements p) (movingElement p) (moveOffset p) (selectedElements p)
    (resizeHandle p) (copiedElements p) (selectionBox p) (f (isSelecting p))
    (zoom p) (panOffset p) (isPanning p) (panStart p)
    (history p) (historyIndex p).

Definition setZoom (f : number -> number) (p : State) : State :=
  mkState (isDrawing p) (tool p) (lineWidth p) (showGrid p) (gridSnap p)
    (textInput p) (textPosition p) (isAddingText p) (editingTextId p)
    (elements p) (movingElement p) (moveOffset p) (selectedElements p)
    (resizeHandle p) (copiedElements p) (selectionBox p) (isSelecting p)
    (f (zoom p)) (panOffset p) (isPanning p) (panStart p)
    (history p) (historyIndex p).

Definition setPanOffset (f : Point.t -> Point.t) (p : State) : State :=
  mkState (isDrawing p) (tool p) (lineWidth p) (showGrid p) (gridSnap p)
    (textInput p) (textPosition p) (isAddingText p) (editingTextId p)
    (elements p) (movingElement p) (moveOffset p) (selectedElements p)
    (resizeHandle p) (copiedElements p) (selectionBox p) (isSelecting p)
    (zoom p) (f (panOffset p)) (isPanning p) (panStart p)
    (history p) (historyIndex p).

Definition setIsPanning (f : bool -> bool) (p : State) : State :=
  mkState (isDrawing p) (tool p) (lineWidth p) (showGrid p) (gridSnap p)
    (textInput p) (textPosition p) (isAddingText p) (editingTextId p)
    (elements p) (movingElement p) (moveOffset p) (selectedElements p)
    (resizeHandle p) (copiedElements p) (selectionBox p) (isSelecting p)
    (zoom p) (panOffset p) (f (isPanning p)) (panStart p)
    (history p) (historyIndex p).

Definition setPanStart (f : Point.t -> Point.t) (p : State) : State :=
  mkState (isDrawing p) (tool p) (lineWidth p) (showGrid p) (gridSnap p)
    (textInput p) (textPosition p) (isAddingText p) (editingTextId p)
    (elements p) (movingElement p) (moveOffset p) (selectedElements p)
    (resizeHandle p) (copiedElements p) (selectionBox p) (isSelecting p)
    (zoom p) (panOffset p) (isPanning p) (f (panStart p))
    (history p) (historyIndex p).

Definition setHistory (f : list HistoryState.t -> list HistoryState.t)
  (p : State) : State :=
  mkState (isDrawing p) (tool p) (lineWidth p) (showGrid p) (gridSnap p)
    (textInput p) (textPosition p) (isAddingText p) (editingTextId p)
    (elements p) (movingElement p) (moveOffset p) (selectedElements p)
    (resizeHandle p) (copiedElements p) (selectionBox p) (isSelecting p)
    (zoom p) (panOffset p) (isPanning p) (panStart p)
    (f (history p)) (historyIndex p).

Definition setHistoryIndex (f : nat -> nat) (p : State) : State :=
  mkState (isDrawing p) (tool p) (lineWidth p) (showGrid p) (gridSnap p)
    (textInput p) (textPosition p) (isAddingText p) (editingTextId p)
    (elements p) (movingElement p) (moveOffset p) (selectedElements p)
    (resizeHandle p) (copiedElements p) (selectionBox p) (isSelecting p)
    (zoom p) (panOffset p) (isPanning p) (panStart p)
    (history p) (f (historyIndex p)).

(** A handler: the state of the render that created it, then the pending
    state its setter calls are applied to. *)
Definition Handler : Type := State -> State -> State.

(** Sequencing of queued setter calls, in program order. *)
Definition andThen (f g : State -> State) : State -> State :=
  fun p => g (f p).
Infix ";;" := andThen (at level 61, left associativity).

(** [return] without a state change. *)
Definition skip : State -> State := fun p => p.

(** A handler run from the render of the current state. *)
Definition dispatch (h : Handler) (s : State) : State := h s s.

(** ** The environment of a handler call *)

Module DOMRect.
Record t : Type := mk {
    left : number;
    top : number;
    width : number;
    height : number
  }.
End DOMRect.

Record Env : Type := mkEnv {
  (** [ctx] is set once the canvas is mounted *)
  ctx : bool;
  (** [canvasRef.current?.getBoundingClientRect ()] *)
  canvas : option DOMRect.t;
  (** the [k]-th [Date.now ().toString ()] of the call *)
  dateNow : nat -> string;
  (** the [k]-th [Math.random ()] of the call, as it is printed *)
  mathRandom : nat -> string;
  (** whether two element values are one and the same object, as
      [Array.prototype.includes] compares them: object identity is not
      part of the value model *)
  sameObject : DrawingElement -> DrawingElement -> bool
}.

(** The fields of the DOM events that the handlers read. *)
Module MouseEvent.
Record t : Type := mk {
  clientX : number;
  clientY : number;
  button : nat;
  ctrlKey : bool;
  metaKey : bool
}.
End MouseEvent.

Module WheelEvent.
Record t : Type := mk {
  ctrlKey : bool;
  deltaX : number;
  deltaY : number;
  clientX : number;
  clientY : number
}.
End WheelEvent.

Module KeyboardEvent.
Record t : Type := mk {
  key : string;
  ctrlKey : bool;
  metaKey : bool;
  shiftKey : bool
}.
End KeyboardEvent.

(** ** Handlers that may fail

    [None] stands for a call that throws ([undefined.elements]) or that
    computes with [undefined], which the rational model does not follow. *)
Definition Partial : Type := State -> State -> option State.

Definition total (h : Handler) : Partial := fun c p => Some (h c p).

Section Canvas.

Context {M : JSMath}.

(** ** Viewport: [handleZoom] *)

Definition handleZoom (env : Env) (delta : number)
  (clientX clientY : option number) : Handler := fun c =>
  match canvas env with
  | None => skip
  | Some rect =>
      let mouseX :=
        match clientX with Some v => v | None => DOMRect.width rect / 2 end in
      let mouseY :=
        match clientY with Some v => v | None => DOMRect.height rect / 2 end in
      (* Convert mouse position to world coordinates before zoom *)
      let worldX := (mouseX - Point.x (panOffset c)) / zoom c in
      let worldY := (mouseY - Point.y (panOffset c)) / zoom c in
      let newZoom := Qmax (1 # 10) (Qmin 10 (zoom c + delta)) in
      (* Calculate new pan offset to keep the mouse position fixed *)
      let newPanX := mouseX - worldX * newZoom in
      let newPanY := mouseY - worldY * newZoom in
      setZoom (val newZoom) ;; setPanOffset (val (Point.mk newPanX newPanY))
  end.

(** ** History: [saveToHistory], [undo], [redo] *)

Definition saveToHistory : Handler := fun c =>
  let newState := HistoryState.mk (elements c) (selectedElements c) in
  let newHistory := firstn (historyIndex c + 1) (history c) ++ [newState] in
  setHistory (val newHistory) ;;
  setHistoryIndex (val (List.length newHistory - 1)%nat).

Definition undo : Partial := fun c p =>
  if (0 <? historyIndex c)%nat then
    match nth_error (history c) (historyIndex c - 1) with
    | Some prevState =>
        Some ((setElements (val (HistoryState.elements prevState)) ;;
               setSelectedElements
                 (val (HistoryState.selectedElements prevState)) ;;
               setHistoryIndex (val (historyIndex c - 1)%nat)) p)
    | None => None
    end
  else Some p.

Definition redo : Partial := fun c p =>
  if (historyIndex c <? List.length (history c) - 1)%nat then
    match nth_error (history c) (historyIndex c + 1) with
    | Some nextState =>
        Some ((setElements (val (HistoryState.elements nextState)) ;;
               setSelectedElements
                 (val (HistoryState.selectedElements nextState)) ;;
               setHistoryIndex (val (historyIndex c + 1)%nat)) p)
    | None => None
    end
  else Some p.

(** ** Grid snapping: [snapToGrid], [snapElementToGrid] *)

(** [Math.round (v / cell) * cell], the expression [snapToGrid] applies to
    each coordinate with [cell = gridSize]. *)
Definition snapCoordinate (cell v : number) : number :=
  Math_round (v / cell) * cell.

Definition snapToGrid (c : State) (x y : number) : Point.t :=
  if negb (gridSnap c) then Point.mk x y
  else Point.mk (snapCoordinate gridSize x) (snapCoordinate gridSize y).

Definition snapElementToGrid (c : State) (element : DrawingElement)
  : DrawingElement :=
  if negb (gridSnap c) then element
  else
    match element with
    | EText t =>
        let snapped := snapToGrid c (TextElement.x t) (TextElement.y t) in
        EText (TextElement.with_xy (Point.x snapped) (Point.y snapped) t)
    | EShape s =>
        let snappedStart := snapToGrid c (Shape.startX s) (Shape.startY s) in
        let snappedEnd := snapToGrid c (Shape.endX s) (Shape.endY s) in
        let updatedElement :=
          Shape.with_coords (Point.x snappedStart) (Point.y snappedStart)
                            (Point.x snappedEnd) (Point.y snappedEnd) s in
        match Shape.points s with
        | Some pts =>
            EShape (Shape.with_points
                      (Some (map (fun point =>
                                    snapToGrid c (Point.x point)
                                                 (Point.y point)) pts))
                      updatedElement)
        | None => EShape updatedElement
        end
    end.

(** ** Screen to world: [transformCoordinates] *)

Definition transformCoordinates (env : Env) (c : State)
  (clientX clientY : number) : Point.t :=
  match canvas env with
  | None => Point.mk 0 0
  | Some rect =>
      let x := (clientX - DOMRect.left rect - Point.x (panOffset c)) / zoom c in
      let y := (clientY - DOMRect.top rect - Point.y (panOffset c)) / zoom c in
      snapToGrid c x y
  end.

(** ** Resize handles and hit-testing *)

Definition circleRadius (s : Shape.t) : number :=
  Math_sqrt (Math_pow2 (Shape.endX s - Shape.startX s)
             + Math_pow2 (Shape.endY s - Shape.startY s)).

Definition handleAt (x y tolerance : number) (h : Point.t * Handle) : bool :=
  ltb (Qabs (x - Point.x (fst h))) tolerance
  && ltb (Qabs (y - Point.y (fst h))) tolerance.

Definition getResizeHandle (c : State) (x y : number)
  (element : DrawingElement) : option Handle :=
  match element with
  | EText _ => None
  | EShape s =>
      match Shape.type s with
      | pen => None
      | circle =>
          let tolerance := Qmax (8 / zoom c) 4 in
          let centerX := Shape.startX s in
          let centerY := Shape.startY s in
          let radius := circleRadius s in
          let cos4 := Math_cos (Math_PI / 4) in
          let sin4 := Math_sin (Math_PI / 4) in
          let handles :=
            [ (Point.mk centerX (centerY - radius), h_n);
              (Point.mk (centerX + radius * cos4) (centerY - radius * sin4),
               h_ne);
              (Point.mk (centerX + radius) centerY, h_e);
              (Point.mk (centerX + radius * cos4) (centerY + radius * sin4),
               h_se);
              (Point.mk centerX (centerY + radius), h_s);
              (Point.mk (centerX - radius * cos4) (centerY + radius * sin4),
               h_sw);
              (Point.mk (centerX - radius) centerY, h_w);
              (Point.mk (centerX - radius * cos4) (centerY - radius * sin4),
               h_nw) ] in
          option_map snd (find (handleAt x y tolerance) handles)
      | _ =>
          let tolerance := Qmax (8 / zoom c) 4 in
          (* For rectangles and lines - use actual coordinates *)
          let startX := Shape.startX s in
          let startY := Shape.startY s in
          let endX := Shape.endX s in
          let endY := Shape.endY s in
          (* corners first, then edges *)
          let handles :=
            [ (Point.mk startX startY, h_nw);
              (Point.mk endX startY, h_ne);
              (Point.mk startX endY, h_sw);
              (Point.mk endX endY, h_se);
              (Point.mk startX ((startY + endY) / 2), h_w);
              (Point.mk endX ((startY + endY) / 2), h_e);
              (Point.mk ((startX + endX) / 2) startY, h_n);
              (Point.mk ((startX + endX) / 2) endY, h_s) ] in
          option_map snd (find (handleAt x y tolerance) handles)
      end
  end.

Definition inPaddedBox (c : State) (x y : number) (s : Shape.t) : bool :=
  let minX := Qmin (Shape.startX s) (Shape.endX s) in
  let maxX := Qmax (Shape.startX s) (Shape.endX s) in
  let minY := Qmin (Shape.startY s) (Shape.endY s) in
  let maxY := Qmax (Shape.startY s) (Shape.endY s) in
  let padding := 5 / zoom c in
  geb x (minX - padding) && leb x (maxX + padding)
  && geb y (minY - padding) && leb y (maxY + padding).

Definition isPointInElement (c : State) (x y : number)
  (element : DrawingElement) : bool :=
  match element with
  | EText t =>
      geb x (TextElement.x t) && leb x (TextElement.x t + 50)
      && geb y (TextElement.y t - TextElement.fontSize t)
      && leb y (TextElement.y t)
  | EShape s =>
      match Shape.type s, Shape.points s with
      | circle, _ =>
          let centerX := Shape.startX s in
          let centerY := Shape.startY s in
          let radius := circleRadius s in
          let distance :=
            Math_sqrt (Math_pow2 (x - centerX) + Math_pow2 (y - centerY)) in
          leb distance (radius + 5 / zoom c)
      | pen, Some pts =>
          existsb (fun point =>
                     let distance :=
                       Math_sqrt (Math_pow2 (Point.x point - x)
                                  + Math_pow2 (Point.y point - y)) in
                     ltb distance (10 / zoom c)) pts
      | _, _ => inPaddedBox c x y s
      end
  end.

(** ** Small array helpers *)

(** [l[l.length - 1]] *)
Definition lastOf {A : Type} (l : list A) : option A :=
  nth_error l (List.length l - 1).

(** [selection.some ((sel) => sel.id === el.id)] *)
Definition someId (selection : list DrawingElement) (el : DrawingElement)
  : bool :=
  existsb (fun sel => (element_id sel =? element_id el)%string) selection.

(** [l.filter ((el) => el.id !== id)] *)
Definition withoutId (id : string) (l : list DrawingElement)
  : list DrawingElement :=
  filter (fun el => negb (element_id el =? id)%string) l.

(** [selectedElements.includes (el)] *)
Definition includes (env : Env) (l : list DrawingElement)
  (el : DrawingElement) : bool :=
  existsb (fun e => sameObject env e el) l.

(** The [for] loop of [startDrawing] over the selection: the first handle
    that [getResizeHandle] reports. *)
Fixpoint firstResizeHandle (c : State) (x y : number)
  (selection : list DrawingElement) : option Handle :=
  match selection with
  | [] => None
  | element :: rest =>
      match getResizeHandle c x y element with
      | Some handle => Some handle
      | None => firstResizeHandle c x y rest
      end
  end.

(** ** The eraser: [eraseElements] *)

Definition eraseElements (x y : number) : Handler := fun c =>
  (* Find elements at the click position, in reverse order (topmost first) *)
  let elementsAtPoint := filter (isPointInElement c x y) (rev (elements c)) in
  match elementsAtPoint with
  | elementToErase :: _ =>
      (* Only erase the topmost element *)
      setElements (fun prev => withoutId (element_id elementToErase) prev) ;;
      setSelectedElements
        (fun prev => withoutId (element_id elementToErase) prev) ;;
      saveToHistory c
  | [] => skip
  end.

(** ** Pointer down: [startDrawing] *)

(** The element behind the pointer becomes the moving element; its
    [startX], [startY] are read through a cast to [Shape], which is
    [undefined] on a text element. *)
Definition grabElement (x y : number) (clickedElement : DrawingElement)
  (select : State -> State) (p : State) : option State :=
  match clickedElement with
  | EShape s =>
      Some ((select ;;
             setMovingElement (val (Some clickedElement)) ;;
             setMoveOffset
               (val (Point.mk (x - Shape.startX s) (y - Shape.startY s)))) p)
  | EText _ => None
  end.

Definition newShape (env : Env) (c : State) (type : ShapeType)
  (x y : number) : Shape.t :=
  Shape.mk (dateNow env 0%nat) type x y x y (lineWidth c)
           (match type with pen => Some [Point.mk x y] | _ => None end)
           (Some 0) (Some false) (Some false).

Definition beginShape (env : Env) (c : State) (type : ShapeType)
  (x y : number) : State -> State :=
  setSelectedElements (val []) ;;
  setIsDrawing (val true) ;;
  setElements (fun prev => prev ++ [EShape (newShape env c type x y)]).

Definition startDrawing (env : Env) (e : MouseEvent.t) : Partial := fun c p =>
  match ctx env, canvas env with
  | true, Some _ =>
      let pt :=
        transformCoordinates env c (MouseEvent.clientX e)
                             (MouseEvent.clientY e) in
      let x := Point.x pt in
      let y := Point.y pt in
      (* Handle middle mouse button for panning *)
      if (MouseEvent.button e =? 1)%nat then
        Some ((setIsPanning (val true) ;;
               setPanStart
                 (val (Point.mk
                         (MouseEvent.clientX e - Point.x (panOffset c))
                         (MouseEvent.clientY e - Point.y (panOffset c))))) p)
      else
        match tool c with
        | tool_select =>
            (* Check if clicking on a selected element's resize handle *)
            match firstResizeHandle c x y (selectedElements c) with
            | Some handle => Some (setResizeHandle (val (Some handle)) p)
            | None =>
                (* Check if clicking on an existing element *)
                match find (isPointInElement c x y) (elements c) with
                | Some clickedElement =>
                    let select :=
                      if MouseEvent.ctrlKey e || MouseEvent.metaKey e then
                        (* Multi-select with Ctrl/Cmd *)
                        if includes env (selectedElements c) clickedElement
                        then
                          setSelectedElements
                            (val (withoutId (element_id clickedElement)
                                            (selectedElements c)))
                        else
                          setSelectedElements
                            (val (selectedElements c ++ [clickedElement]))
                      else if
                        negb (includes env (selectedElements c) clickedElement)
                      then setSelectedElements (val [clickedElement])
                      else skip in
                    grabElement x y clickedElement select p
                | None =>
                    (* Start selection box *)
                    Some (((if negb (MouseEvent.ctrlKey e)
                               && negb (MouseEvent.metaKey e)
                            then setSelectedElements (val [])
                            else skip) ;;
                           setSelectionBox (val (Some (Box.mk x y x y))) ;;
                           setIsSelecting (val true)) p)
                end
            end
        | tool_move =>
            match firstResizeHandle c x y (selectedElements c) with
            | Some handle => Some (setResizeHandle (val (Some handle)) p)
            | None =>
                match find (isPointInElement c x y) (elements c) with
                | Some clickedElement =>
                    let select :=
                      if negb (includes env (selectedElements c)
                                        clickedElement)
                      then setSelectedElements (val [clickedElement])
                      else skip in
                    grabElement x y clickedElement select p
                | None => Some (setSelectedElements (val []) p)
                end
            end
        | tool_eraser => Some (eraseElements x y c p)
        | tool_text =>
            Some ((setSelectedElements (val []) ;;
                   setIsDrawing (val true) ;;
                   setTextPosition (val (Point.mk x y)) ;;
                   setIsAddingText (val true)) p)
        | tool_pen => Some (beginShape env c pen x y p)
        | tool_line => Some (beginShape env c line x y p)
        | tool_rectangle => Some (beginShape env c rectangle x y p)
        | tool_circle => Some (beginShape env c circle x y p)
        end
  | _, _ => Some p
  end.

(** ** Pointer move: [draw] *)

Definition resizeCircle (x y : number) (handle : Handle) (s : Shape.t)
  : Shape.t :=
  let centerX := Shape.startX s in
  let centerY := Shape.startY s in
  let fullRadius :=
    Math_sqrt (Math_pow2 (x - centerX) + Math_pow2 (y - centerY)) in
  match handle with
  | h_n =>
      Shape.with_end (Shape.startX s) (Shape.startY s - Qabs (y - centerY)) s
  | h_e =>
      Shape.with_end (Shape.startX s + Qabs (x - centerX)) (Shape.startY s) s
  | h_s =>
      Shape.with_end (Shape.startX s) (Shape.startY s + Qabs (y - centerY)) s
  | h_w =>
      Shape.with_end (Shape.startX s - Qabs (x - centerX)) (Shape.startY s) s
  | h_ne | h_se | h_sw | h_nw =>
      Shape.with_end (centerX + fullRadius) centerY s
  end.

(** Free-form reshaping of rectangles and lines. *)
Definition resizeBox (c : State) (x y : number) (handle : Handle)
  (s : Shape.t) : Shape.t :=
  let newStartX :=
    match handle with h_nw | h_sw | h_w => x | _ => Shape.startX s end in
  let newStartY :=
    match handle with h_nw | h_ne | h_n => y | _ => Shape.startY s end in
  let newEndX :=
    match handle with h_ne | h_se | h_e => x | _ => Shape.endX s end in
  let newEndY :=
    match handle with h_sw | h_se | h_s => y | _ => Shape.endY s end in
  (* Apply grid snapping if enabled *)
  if gridSnap c then
    let snappedStart := snapToGrid c newStartX newStartY in
    let snappedEnd := snapToGrid c newEndX newEndY in
    Shape.with_coords (Point.x snappedStart) (Point.y snappedStart)
                      (Point.x snappedEnd) (Point.y snappedEnd) s
  else Shape.with_coords newStartX newStartY newEndX newEndY s.

Definition resizeElement (c : State) (x y : number) (handle : Handle)
  (el : DrawingElement) : DrawingElement :=
  match el with
  | EText _ => el
  | EShape s =>
      if someId (selectedElements c) el then
        match Shape.type s with
        | pen => el
        | circle => EShape (resizeCircle x y handle s)
        | _ => EShape (resizeBox c x y handle s)
        end
      else el
  end.

Definition translatePoint (deltaX deltaY : number) (point : Point.t)
  : Point.t :=
  Point.mk (Point.x point + deltaX) (Point.y point + deltaY).

(** The element with every coordinate, and every path point, moved by the
    delta. *)
Definition translateElement (deltaX deltaY : number) (el : DrawingElement)
  : DrawingElement :=
  match el with
  | EText t =>
      EText (TextElement.with_xy (TextElement.x t + deltaX)
                                 (TextElement.y t + deltaY) t)
  | EShape s =>
      EShape (Shape.with_points
                (option_map (map (translatePoint deltaX deltaY))
                            (Shape.points s))
                (Shape.with_coords
                   (Shape.startX s + deltaX) (Shape.startY s + deltaY)
                   (Shape.endX s + deltaX) (Shape.endY s + deltaY) s))
  end.

Definition moveElement (c : State) (deltaX deltaY : number)
  (el : DrawingElement) : DrawingElement :=
  if someId (selectedElements c) el then
    let updatedElement := translateElement deltaX deltaY el in
    (* Apply grid snapping during movement if enabled *)
    if gridSnap c then snapElementToGrid c updatedElement else updatedElement
  else el.

Definition moveSelected (c : State) (deltaX deltaY : number)
  (sel : DrawingElement) : DrawingElement :=
  match find (fun el => (element_id el =? element_id sel)%string)
             (elements c) with
  | Some updated =>
      let newSel := translateElement deltaX deltaY updated in
      if gridSnap c then snapElementToGrid c newSel else newSel
  | None => sel
  end.

Definition draw (env : Env) (e : MouseEvent.t) : Partial := fun c p =>
  match ctx env, canvas env with
  | true, Some _ =>
      let pt :=
        transformCoordinates env c (MouseEvent.clientX e)
                             (MouseEvent.clientY e) in
      let x := Point.x pt in
      let y := Point.y pt in
      let moveOrSelect :=
        match tool c with tool_move | tool_select => true | _ => false end in
      if isPanning c then
        Some (setPanOffset
                (val (Point.mk (MouseEvent.clientX e - Point.x (panStart c))
                               (MouseEvent.clientY e - Point.y (panStart c))))
                p)
      else
        match tool c, isSelecting c, selectionBox c with
        | tool_select, true, Some box =>
            Some (setSelectionBox
                    (val (Some (Box.mk (Box.startX box) (Box.startY box) x y)))
                    p)
        | _, _, _ =>
            match moveOrSelect, resizeHandle c, movingElement c,
                  selectedElements c with
            | true, Some handle, _, _ :: _ =>
                Some ((setElements (map (resizeElement c x y handle)) ;;
                       (* Update selected elements to reflect changes *)
                       setSelectedElements
                         (map (fun sel =>
                                 match find (fun el =>
                                               (element_id el
                                                =? element_id sel)%string)
                                            (elements c) with
                                 | Some updated => updated
                                 | None => sel
                                 end))) p)
            | true, None, Some (EShape moving), _ :: _ =>
                let newX := x - Point.x (moveOffset c) in
                let newY := y - Point.y (moveOffset c) in
                (* the delta from the moving element's current position *)
                let deltaX := newX - Shape.startX moving in
                let deltaY := newY - Shape.startY moving in
                let newMovingElement :=
                  EShape (Shape.with_coords
                            (Shape.startX moving + deltaX)
                            (Shape.startY moving + deltaY)
                            (Shape.endX moving + deltaX)
                            (Shape.endY moving + deltaY) moving) in
                Some ((setElements (map (moveElement c deltaX deltaY)) ;;
                       setSelectedElements
                         (map (moveSelected c deltaX deltaY)) ;;
                       setMovingElement
                         (val (Some (if gridSnap c
                                     then snapElementToGrid c newMovingElement
                                     else newMovingElement)))) p)
            | true, None, Some (EText _), _ :: _ => None
            | _, _, _, _ =>
                if negb (isDrawing c) then Some p
                else
                  Some (setElements
                          (fun prev =>
                             match lastOf prev with
                             | Some (EShape lastElement) =>
                                 match Shape.type lastElement,
                                       Shape.points lastElement with
                                 | pen, Some pts =>
                                     removelast prev ++
                                     [EShape (Shape.with_points
                                                (Some (pts ++ [Point.mk x y]))
                                                lastElement)]
                                 | _, _ =>
                                     removelast prev ++
                                     [EShape (Shape.with_end x y lastElement)]
                                 end
                             | _ => prev
                             end) p)
            end
        end
  | _, _ => Some p
  end.

(** ** Pointer up: [finishDrawing] *)

(** The filter of the box selection: a text element by its anchor, any
    other element by the rectangle spanned by its start and end points. *)
Definition inSelectionBox (box : Box.t) (el : DrawingElement) : bool :=
  let minX := Qmin (Box.startX box) (Box.endX box) in
  let maxX := Qmax (Box.startX box) (Box.endX box) in
  let minY := Qmin (Box.startY box) (Box.endY box) in
  let maxY := Qmax (Box.startY box) (Box.endY box) in
  match el with
  | EText t =>
      geb (TextElement.x t) minX && leb (TextElement.x t) maxX
      && geb (TextElement.y t) minY && leb (TextElement.y t) maxY
  | EShape s =>
      let elMinX := Qmin (Shape.startX s) (Shape.endX s) in
      let elMaxX := Qmax (Shape.startX s) (Shape.endX s) in
      let elMinY := Qmin (Shape.startY s) (Shape.endY s) in
      let elMaxY := Qmax (Shape.startY s) (Shape.endY s) in
      geb elMinX minX && leb elMaxX maxX && geb elMinY minY && leb elMaxY maxY
  end.

Definition finishBoxSelect (env : Env) (e : MouseEvent.t) : Handler := fun c =>
  match tool c, isSelecting c, selectionBox c with
  | tool_select, true, Some box =>
      (* Select elements within selection box *)
      let elementsInBox := filter (inSelectionBox box) (elements c) in
      (if MouseEvent.ctrlKey e || MouseEvent.metaKey e then
         setSelectedElements
           (fun prev =>
              prev ++ filter (fun el => negb (includes env prev el))
                             elementsInBox)
       else setSelectedElements (val elementsInBox)) ;;
      setSelectionBox (val None) ;;
      setIsSelecting (val false)
  | _, _, _ => skip
  end.

Definition commitDrawing : Handler := fun c =>
  if isDrawing c then
    (* Apply grid snapping to the last drawn element *)
    (if gridSnap c then
       match lastOf (elements c) with
       | Some lastElement =>
           let snappedElement := snapElementToGrid c lastElement in
           setElements (fun prev => removelast prev ++ [snappedElement])
       | None => skip
       end
     else skip) ;;
    saveToHistory c
  else skip.

Definition finishDrawing (env : Env) (e : MouseEvent.t) : Handler := fun c =>
  if isPanning c then setIsPanning (val false)
  else
    finishBoxSelect env e c ;;
    commitDrawing c ;;
    setIsDrawing (val false) ;;
    setMovingElement (val None) ;;
    setResizeHandle (val None).

(** ** Text entry: [addTextToCanvas] *)

(** [{ ...el, content }]: on an element that is not a text the extra
    property is read by no code. *)
Definition withContent (content : string) (el : DrawingElement)
  : DrawingElement :=
  match el with
  | EText t => EText (TextElement.with_content content t)
  | EShape _ => el
  end.

(** Truthiness of a [string | null]. *)
Definition truthyId (v : option string) : option string :=
  match v with
  | Some EmptyString => None
  | _ => v
  end.

Definition addTextToCanvas (env : Env) : Handler := fun c =>
  match textInput c with
  | EmptyString => skip
  | _ =>
      match truthyId (editingTextId c) with
      | Some editing =>
          setElements
            (map (fun el =>
                    if (element_id el =? editing)%string
                    then withContent (textInput c) el else el)) ;;
          setEditingTextId (val None)
      | None =>
          let newElement :=
            TextElement.mk (dateNow env 0%nat)
                           (Point.x (textPosition c))
                           (Point.y (textPosition c))
                           (textInput c) (lineWidth c * 8)
                           (Some 0) (Some false) (Some false) in
          setElements (fun prev => prev ++ [EText newElement]) ;;
          saveToHistory c
      end ;;
      setTextInput (val EmptyString) ;;
      setIsAddingText (val false)
  end.

(** ** Toolbar commands *)

Definition clearCanvas : Handler := fun c =>
  setElements (val []) ;; setSelectedElements (val []) ;; saveToHistory c.

Definition handleToolChange (newTool : Tool) : Handler := fun c =>
  match tool c, isAddingText c with
  | tool_text, true =>
      setIsAddingText (val false) ;; setTextInput (val EmptyString)
  | _, _ => skip
  end ;;
  setTool (val newTool) ;;
  match newTool with
  | tool_select | tool_move => skip
  | _ => setSelectedElements (val [])
  end.

(** ** Clipboard: [copyElements], [pasteElements], [duplicateElements] *)

Definition copyElements : Handler := fun c =>
  match selectedElements c with
  | _ :: _ => setCopiedElements (val (selectedElements c))
  | [] => skip
  end.

Fixpoint mapi_from {A B : Type} (f : A -> nat -> B) (index : nat)
  (l : list A) : list B :=
  match l with
  | [] => []
  | a :: rest => f a index :: mapi_from f (S index) rest
  end.

(** [l.map ((element, index) => ...)] *)
Definition mapi {A B : Type} (f : A -> nat -> B) (l : list A) : list B :=
  mapi_from f 0%nat l.

Definition indexString (index : nat) : string :=
  NilZero.string_of_uint (Nat.to_uint index).

Definition set_element_id (id : string) (el : DrawingElement)
  : DrawingElement :=
  match el with
  | EShape s => EShape (Shape.with_id id s)
  | EText t => EText (TextElement.with_id id t)
  end.

Definition pastedElement (env : Env) (c : State) (pasteX pasteY : number)
  (element : DrawingElement) (index : nat) : DrawingElement :=
  let i := inject_Z (Z.of_nat index) in
  let id :=
    (dateNow env index ++ mathRandom env index ++ indexString index)%string in
  let newElement :=
    match set_element_id id element with
    | EText t =>
        EText (TextElement.with_xy (pasteX + i * 10) (pasteY + i * 10) t)
    | EShape s =>
        let width := Shape.endX s - Shape.startX s in
        let height := Shape.endY s - Shape.startY s in
        let placed :=
          Shape.with_coords (pasteX + i * 10) (pasteY + i * 10)
                            (pasteX + width + i * 10)
                            (pasteY + height + i * 10) s in
        match Shape.points s with
        | Some pts =>
            let offsetX := pasteX + i * 10 - Shape.startX s in
            let offsetY := pasteY + i * 10 - Shape.startY s in
            EShape (Shape.with_points
                      (Some (map (translatePoint offsetX offsetY) pts)) placed)
        | None => EShape placed
        end
    end in
  (* Apply grid snapping to pasted elements *)
  if gridSnap c then snapElementToGrid c newElement else newElement.

Definition pasteElements (env : Env) (x y : option number) : Handler :=
  fun c =>
  match copiedElements c with
  | [] => skip
  | _ :: _ =>
      let pasteX := match x with Some v => v | None => 50 end in
      let pasteY := match y with Some v => v | None => 50 end in
      let newElements :=
        mapi (pastedElement env c pasteX pasteY) (copiedElements c) in
      setElements (fun prev => prev ++ newElements) ;;
      setSelectedElements (val newElements) ;;
      saveToHistory c
  end.

Definition duplicatedElement (env : Env) (element : DrawingElement)
  (k : nat) : DrawingElement :=
  translateElement 20 20
    (set_element_id (dateNow env k ++ mathRandom env k)%string element).

Definition duplicateElements (env : Env) : Handler := fun c =>
  match selectedElements c with
  | [] => skip
  | _ :: _ =>
      let duplicated := mapi (duplicatedElement env) (selectedElements c) in
      setElements (fun prev => prev ++ duplicated) ;;
      setSelectedElements (val duplicated) ;;
      saveToHistory c
  end.

Definition deleteSelectedElements : Handler := fun c =>
  match selectedElements c with
  | [] => skip
  | _ :: _ =>
      setElements
        (filter (fun el => negb (someId (selectedElements c) el))) ;;
      setSelectedElements (val []) ;;
      saveToHistory c
  end.

Definition selectAll : Handler := fun c =>
  setSelectedElements (val (elements c)).

(** ** Rotation and flips *)

(** [{ ...el, rotation: (el.rotation || 0) + 90 }] *)
Definition rotated (el : DrawingElement) : DrawingElement :=
  let r :=
    Some (match element_rotation el with Some v => v | None => 0 end + 90) in
  match el with
  | EShape s => EShape (Shape.with_rotation r s)
  | EText t => EText (TextElement.with_rotation r t)
  end.

(** [!el.flipX] on a [boolean | undefined] *)
Definition notFlag (v : option bool) : option bool :=
  Some (match v with Some b => negb b | None => true end).

Definition flippedX (el : DrawingElement) : DrawingElement :=
  match el with
  | EShape s => EShape (Shape.with_flipX (notFlag (Shape.flipX s)) s)
  | EText t => EText (TextElement.with_flipX (notFlag (TextElement.flipX t)) t)
  end.

Definition flippedY (el : DrawingElement) : DrawingElement :=
  match el with
  | EShape s => EShape (Shape.with_flipY (notFlag (Shape.flipY s)) s)
  | EText t => EText (TextElement.with_flipY (notFlag (TextElement.flipY t)) t)
  end.

(** The common shape of the three commands: the selected elements of the
    store and every element of the selection are transformed. *)
Definition transformSelected (f : DrawingElement -> DrawingElement)
  : Handler := fun c =>
  match selectedElements c with
  | [] => skip
  | _ :: _ =>
      setElements
        (map (fun el => if someId (selectedElements c) el then f el else el)) ;;
      setSelectedElements (map f) ;;
      saveToHistory c
  end.

Definition rotateSelectedElements : Handler := transformSelected rotated.
Definition flipSelectedElementsHorizontal : Handler :=
  transformSelected flippedX.
Definition flipSelectedElementsVertical : Handler :=
  transformSelected flippedY.

(** ** Context menu, wheel and keyboard *)

Definition isText (el : DrawingElement) : bool :=
  match el with EText _ => true | EShape _ => false end.

Definition handleCanvasContextMenu (env : Env) (e : MouseEvent.t) : Handler :=
  fun c =>
  match canvas env with
  | None => skip
  | Some _ =>
      let pt :=
        transformCoordinates env c (MouseEvent.clientX e)
                             (MouseEvent.clientY e) in
      let x := Point.x pt in
      let y := Point.y pt in
      match find (fun el => isText el && isPointInElement c x y el)
                 (elements c) with
      | Some (EText clickedElement) =>
          setEditingTextId (val (Some (TextElement.id clickedElement))) ;;
          setTextInput (val (TextElement.content clickedElement)) ;;
          setTextPosition
            (val (Point.mk (TextElement.x clickedElement)
                           (TextElement.y clickedElement))) ;;
          setIsAddingText (val true)
      | _ =>
          match copiedElements c with
          | _ :: _ => pasteElements env (Some x) (Some y) c
          | [] => skip
          end
      end
  end.

Definition handleWheel (env : Env) (e : WheelEvent.t) : Handler := fun c =>
  if WheelEvent.ctrlKey e then
    let delta := if gtb (WheelEvent.deltaY e) 0 then - (1 # 10) else 1 # 10 in
    handleZoom env delta (Some (WheelEvent.clientX e))
               (Some (WheelEvent.clientY e)) c
  else
    (* Pan with mouse wheel when not holding Ctrl *)
    let panSpeed := 1 in
    setPanOffset
      (fun prev =>
         Point.mk (Point.x prev - WheelEvent.deltaX e * panSpeed)
                  (Point.y prev - WheelEvent.deltaY e * panSpeed)).

Definition resetView : State -> State :=
  setZoom (val 1) ;; setPanOffset (val (Point.mk 0 0)).

(** Sequencing of steps that may fail. *)
Definition andThenP (f g : State -> option State) : State -> option State :=
  fun p => match f p with Some q => g q | None => None end.

Definition keyIs (e : KeyboardEvent.t) (k : string) : bool :=
  (KeyboardEvent.key e =? k)%string.

Definition handleKeyDown (env : Env) (e : KeyboardEvent.t) : Partial :=
  fun c =>
  let lift (f : State -> State) : State -> option State :=
    fun p => Some (f p) in
  let shortcut : State -> option State :=
    if KeyboardEvent.ctrlKey e || KeyboardEvent.metaKey e then
      if keyIs e "c" then lift (copyElements c)
      else if keyIs e "v" then lift (pasteElements env None None c)
      else if keyIs e "z" then
        if KeyboardEvent.shiftKey e then redo c else undo c
      else if keyIs e "a" then lift (selectAll c)
      else if keyIs e "d" then lift (duplicateElements env c)
      else if keyIs e "0" then lift resetView
      else if keyIs e "=" || keyIs e "+" then
        lift (handleZoom env (1 # 5) None None c)
      else if keyIs e "-" then lift (handleZoom env (- (1 # 5)) None None c)
      else lift skip
    else lift skip in
  let deletion : State -> State :=
    if keyIs e "Delete" || keyIs e "Backspace"
    then deleteSelectedElements c else skip in
  let escape : State -> State :=
    if keyIs e "Escape"
    then setSelectedElements (val []) ;; setSelectionBox (val None)
    else skip in
  (* Arrow keys for panning *)
  let arrows : State -> State :=
    let panSpeed := if KeyboardEvent.shiftKey e then 100 else 20 in
    if keyIs e "ArrowUp" then
      setPanOffset
        (fun prev => Point.mk (Point.x prev) (Point.y prev + panSpeed))
    else if keyIs e "ArrowDown" then
      setPanOffset
        (fun prev => Point.mk (Point.x prev) (Point.y prev - panSpeed))
    else if keyIs e "ArrowLeft" then
      setPanOffset
        (fun prev => Point.mk (Point.x prev + panSpeed) (Point.y prev))
    else if keyIs e "ArrowRight" then
      setPanOffset
        (fun prev => Point.mk (Point.x prev - panSpeed) (Point.y prev))
    else skip in
  andThenP shortcut (lift (deletion ;; escape ;; arrows)).

(** ** The events of the component

    One constructor per handler bound in the JSX, with the [disabled]
    condition of the buttons that have one.  The [keydown] listener is
    installed by an effect whose dependencies are only [selectedElements],
    [copiedElements] and [elements]: it runs in the closure of the render
    that installed it, which the event carries. *)
Inductive Event : Type :=
  | MouseDown (e : MouseEvent.t)
  | MouseMove (e : MouseEvent.t)
  | MouseUp (e : MouseEvent.t)
  | MouseLeave (e : MouseEvent.t)
  | ContextMenu (e : MouseEvent.t)
  | Wheel (e : WheelEvent.t)
  | KeyDown (closure : State) (e : KeyboardEvent.t)
  | ClickTool (newTool : Tool)
  | ClickCopy
  | ClickRotate
  | ClickFlipHorizontal
  | ClickFlipVertical
  | SlideLineWidth (v : number)
  | ClickUndo
  | ClickRedo
  | ClickZoomOut
  | ClickZoomIn
  | ClickResetView
  | ToggleGrid (pressed : bool)
  | ToggleSnap (pressed : bool)
  | ClickClear
  | ClickDownload
  | TextChange (v : string)
  | TextKeyDown (key : string)
  | TextBlur.

Definition noSelection (s : State) : bool :=
  match selectedElements s with [] => true | _ :: _ => false end.

Definition step (env : Env) (ev : Event) (s : State) : option State :=
  match ev with
  | MouseDown e => startDrawing env e s s
  | MouseMove e => draw env e s s
  | MouseUp e | MouseLeave e => Some (finishDrawing env e s s)
  | ContextMenu e => Some (handleCanvasContextMenu env e s s)
  | Wheel e => Some (handleWheel env e s s)
  | KeyDown closure e => handleKeyDown env e closure s
  | ClickTool newTool => Some (handleToolChange newTool s s)
  | ClickCopy => Some (if noSelection s then s else copyElements s s)
  | ClickRotate =>
      Some (if noSelection s then s else rotateSelectedElements s s)
  | ClickFlipHorizontal =>
      Some (if noSelection s then s else flipSelectedElementsHorizontal s s)
  | ClickFlipVertical =>
      Some (if noSelection s then s else flipSelectedElementsVertical s s)
  | SlideLineWidth v => Some (setLineWidth (val v) s)
  | ClickUndo => if (historyIndex s <=? 0)%nat then Some s else undo s s
  | ClickRedo =>
      if (List.length (history s) - 1 <=? historyIndex s)%nat then Some s
      else redo s s
  | ClickZoomOut => Some (handleZoom env (- (1 # 5)) None None s s)
  | ClickZoomIn => Some (handleZoom env (1 # 5) None None s s)
  | ClickResetView => Some (resetView s)
  | ToggleGrid pressed => Some (setShowGrid (val pressed) s)
  | ToggleSnap pressed => Some (setGridSnap (val pressed) s)
  | ClickClear => Some (clearCanvas s s)
  | ClickDownload => Some s
  | TextChange v => Some (setTextInput (val v) s)
  | TextKeyDown key =>
      if (key =? "Enter")%string then Some (addTextToCanvas env s s)
      else if (key =? "Escape")%string then
        Some ((setIsAddingText (val false) ;;
               setTextInput (val EmptyString) ;;
               setEditingTextId (val None)) s)
      else Some s
  | TextBlur => Some (addTextToCanvas env s s)
  end.

(** A run: the events in arrival order, each with its environment. *)
Fixpoint run (trace : list (Env * Event)) (s : State) : option State :=
  match trace with
  | [] => Some s
  | (env, ev) :: rest =>
      match step env ev s with
      | Some s' => run rest s'
      | None => None
      end
  end.

(** The states of the component: the initial one, those reached by an
    event that the model follows, and those reached by a call of
    [handleZoom] with any delta and any anchor from any render. *)
Inductive reachable : State -> Prop :=
  | reachable_initial : reachable initialState
  | reachable_step env ev s s' :
      reachable s -> step env ev s = Some s' -> reachable s'
  | reachable_zoom env delta clientX clientY c s :
      reachable s -> reachable (handleZoom env delta clientX clientY c s).

End Canvas.

(** ** Rendering

    The calls on the 2D context, in the order [redrawCanvas] makes them.
    A property assignment is an operation as well; [LineWidth None] is the
    assignment of [undefined / zoom], which the context ignores; the font
    is kept as its size and family. *)
Inductive CanvasOp : Type :=
  | ClearRect (x y w h : number)
  | Save
  | Restore
  | Scale (sx sy : number)
  | Translate (tx ty : number)
  | Rotate (angle : number)
  | StrokeStyle (v : string)
  | FillStyle (v : string)
  | LineWidth (v : option number)
  | Font (size : number) (family : string)
  | SetLineDash (segments : list number)
  | BeginPath
  | MoveTo (x y : number)
  | LineTo (x y : number)
  | QuadraticCurveTo (cpx cpy x y : number)
  | ClosePath
  | Stroke
  | Fill
  | Arc (x y radius startAngle endAngle : number)
  | FillText (text : string) (x y : number)
  | FillRect (x y w h : number)
  | StrokeRect (x y w h : number).

(** [ctx.scale (zoom, zoom); ctx.translate (pan.x / zoom, pan.y / zoom)] *)
Definition worldTransform (c : State) : list CanvasOp :=
  [ Scale (zoom c) (zoom c);
    Translate (Point.x (panOffset c) / zoom c)
              (Point.y (panOffset c) / zoom c) ].

(** The body of a [for (v = start; v <= stop; v += gridSize)] loop, run at
    most [fuel] times. *)
Fixpoint forSteps (fuel : nat) (v stop : number) : list number :=
  match fuel with
  | O => []
  | S fuel' =>
      if leb v stop then v :: forSteps fuel' (v + gridSize) stop else []
  end.

(** A number of iterations that the loop from [start] does not exceed. *)
Definition stepFuel (start stop : number) : nat :=
  S (Z.to_nat (Qfloor ((stop - start) / gridSize))).

(** The first and last grid coordinate along one axis: the visible area
    with extra padding. *)
Definition gridStart (c : State) (pan : number) : number :=
  let padding := 1000 in
  inject_Z (Qfloor (((- pan) / zoom c - padding) / gridSize)) * gridSize.

Definition gridEnd (c : State) (size pan : number) : number :=
  let padding := 1000 in
  (inject_Z (Qceiling ((size - pan) / zoom c + padding)) / gridSize)
  * gridSize.

(** [width] and [height] are those of the canvas element. *)
Definition drawGrid (env : Env) (width height : number) (c : State)
  : list CanvasOp :=
  match ctx env, canvas env with
  | true, Some _ =>
      let startX := gridStart c (Point.x (panOffset c)) in
      let endX := gridEnd c width (Point.x (panOffset c)) in
      let startY := gridStart c (Point.y (panOffset c)) in
      let endY := gridEnd c height (Point.y (panOffset c)) in
      [Save] ++ worldTransform c
      ++ [StrokeStyle "#e0e0e0"; LineWidth (Some ((1 # 2) / zoom c))]
      (* Draw vertical lines *)
      ++ flat_map
           (fun x => [BeginPath; MoveTo x startY; LineTo x endY; Stroke])
           (forSteps (stepFuel startX endX) startX endX)
      (* Draw horizontal lines *)
      ++ flat_map
           (fun y => [BeginPath; MoveTo startX y; LineTo endX y; Stroke])
           (forSteps (stepFuel startY endY) startY endY)
      ++ [Restore]
  | _, _ => []
  end.

(** The eight handle positions of a circle, as [drawResizeHandles] lists
    them. *)
Definition circleHandles {M : JSMath} (s : Shape.t) : list Point.t :=
  let centerX := Shape.startX s in
  let centerY := Shape.startY s in
  let radius := circleRadius s in
  let cos4 := Math_cos (Math_PI / 4) in
  let sin4 := Math_sin (Math_PI / 4) in
  [ Point.mk centerX (centerY - radius);
    Point.mk (centerX + radius * cos4) (centerY - radius * sin4);
    Point.mk (centerX + radius) centerY;
    Point.mk (centerX + radius * cos4) (centerY + radius * sin4);
    Point.mk centerX (centerY + radius);
    Point.mk (centerX - radius * cos4) (centerY + radius * sin4);
    Point.mk (centerX - radius) centerY;
    Point.mk (centerX - radius * cos4) (centerY - radius * sin4) ].

(** The eight handle positions of a rectangle or line. *)
Definition boxHandles (s : Shape.t) : list Point.t :=
  let startX := Shape.startX s in
  let startY := Shape.startY s in
  let endX := Shape.endX s in
  let endY := Shape.endY s in
  [ Point.mk startX startY;
    Point.mk endX startY;
    Point.mk startX endY;
    Point.mk endX endY;
    Point.mk startX ((startY + endY) / 2);
    Point.mk endX ((startY + endY) / 2);
    Point.mk ((startX + endX) / 2) startY;
    Point.mk ((startX + endX) / 2) endY ].

Definition drawResizeHandles {M : JSMath} (env : Env)
  (selection : list DrawingElement) (c : State) : list CanvasOp :=
  match ctx env, selection with
  | true, _ :: _ =>
      let handleSize := 6 / zoom c in
      [Save] ++ worldTransform c
      ++ [FillStyle "#3b82f6"; StrokeStyle "#ffffff";
          LineWidth (Some (2 / zoom c))]
      ++ flat_map
           (fun element =>
              match element with
              | EText _ => []
              | EShape s =>
                  match Shape.type s with
                  | pen => []
                  | circle =>
                      flat_map
                        (fun handle =>
                           [ BeginPath;
                             Arc (Point.x handle) (Point.y handle)
                                 (handleSize / 2) 0 (2 * Math_PI);
                             Fill; Stroke ])
                        (circleHandles s)
                  | _ =>
                      flat_map
                        (fun handle =>
                           [ FillRect (Point.x handle - handleSize / 2)
                                      (Point.y handle - handleSize / 2)
                                      handleSize handleSize;
                             StrokeRect (Point.x handle - handleSize / 2)
                                        (Point.y handle - handleSize / 2)
                                        handleSize handleSize ])
                        (boxHandles s)
                  end
              end)
           selection
      ++ [Restore]
  | _, _ => []
  end.

Definition drawSelectionBox (env : Env) (c : State) : list CanvasOp :=
  match ctx env, selectionBox c with
  | true, Some box =>
      [Save] ++ worldTransform c
      ++ [ StrokeStyle "#3b82f6";
           SetLineDash [5 / zoom c; 5 / zoom c];
           LineWidth (Some (1 / zoom c));
           StrokeRect (Box.startX box) (Box.startY box)
                      (Box.endX box - Box.startX box)
                      (Box.endY box - Box.startY box);
           Restore ]
  | _, _ => []
  end.

(** Truthiness of a [number | undefined]. *)
Definition truthyNumber (v : option number) : bool :=
  match v with Some r => negb (Qeq_bool r 0) | None => false end.

(** Truthiness of a [boolean | undefined]. *)
Definition truthy (v : option bool) : bool :=
  match v with Some b => b | None => false end.

(** [el.rotation], when it is set. *)
Definition rotationOf (el : DrawingElement) : number :=
  match element_rotation el with Some v => v | None => 0 end.

(** The rotation and flips of an element about its centre. *)
Definition elementTransform {M : JSMath} (element : DrawingElement)
  : list CanvasOp :=
  if truthyNumber (element_rotation element)
     || truthy (element_flipX element)
     || truthy (element_flipY element)
  then
    let centerX :=
      match element with
      | EText t => TextElement.x t
      | EShape s => (Shape.startX s + Shape.endX s) / 2
      end in
    let centerY :=
      match element with
      | EText t => TextElement.y t
      | EShape s => (Shape.startY s + Shape.endY s) / 2
      end in
    [Translate centerX centerY]
    ++ (if truthyNumber (element_rotation element)
        then [Rotate (rotationOf element * Math_PI / 180)] else [])
    ++ (if truthy (element_flipX element) then [Scale (- (1)) 1] else [])
    ++ (if truthy (element_flipY element) then [Scale 1 (- (1))] else [])
    ++ [Translate (- centerX) (- centerY)]
  else [].

(** The corner radius of a rectangle. *)
Definition cornerRadius (c : State) (s : Shape.t) : number :=
  let w := Qabs (Shape.endX s - Shape.startX s) in
  let h := Qabs (Shape.endY s - Shape.startY s) in
  Qmin (Qmin (10 / zoom c) (w / 4)) (h / 4).

(** The rounded outline of a rectangle. *)
Definition rectanglePath (c : State) (s : Shape.t) : list CanvasOp :=
  let width := Shape.endX s - Shape.startX s in
  let height := Shape.endY s - Shape.startY s in
  let x := Qmin (Shape.startX s) (Shape.endX s) in
  let y := Qmin (Shape.startY s) (Shape.endY s) in
  let w := Qabs width in
  let h := Qabs height in
  let radius := cornerRadius c s in
  [ BeginPath;
    MoveTo (x + radius) y;
    LineTo (x + w - radius) y;
    QuadraticCurveTo (x + w) y (x + w) (y + radius);
    LineTo (x + w) (y + h - radius);
    QuadraticCurveTo (x + w) (y + h) (x + w - radius) (y + h);
    LineTo (x + radius) (y + h);
    QuadraticCurveTo x (y + h) x (y + h - radius);
    LineTo x (y + radius);
    QuadraticCurveTo x y (x + radius) y;
    ClosePath;
    Stroke ].

(** The drawing of one element; [None] when [points[0]] is read from an
    empty path, which throws. *)
Definition drawElement {M : JSMath} (c : State) (element : DrawingElement)
  : option (list CanvasOp) :=
  match element with
  | EText t =>
      Some [ Font (TextElement.fontSize t / zoom c) "Arial";
             FillText (TextElement.content t) (TextElement.x t)
                      (TextElement.y t) ]
  | EShape s =>
      match Shape.type s, Shape.points s with
      | pen, Some [] => None
      | pen, Some (first :: rest) =>
          Some ([BeginPath; MoveTo (Point.x first) (Point.y first)]
                ++ map (fun point => LineTo (Point.x point) (Point.y point))
                       (first :: rest)
                ++ [Stroke])
      | pen, None => Some []
      | line, _ =>
          Some [ BeginPath;
                 MoveTo (Shape.startX s) (Shape.startY s);
                 LineTo (Shape.endX s) (Shape.endY s);
                 Stroke ]
      | rectangle, _ => Some (rectanglePath c s)
      | circle, _ =>
          Some [ BeginPath;
                 Arc (Shape.startX s) (Shape.startY s) (circleRadius s)
                     0 (2 * Math_PI);
                 Stroke ]
      end
  end.

Definition renderElement {M : JSMath} (c : State) (element : DrawingElement)
  : option (list CanvasOp) :=
  match drawElement c element with
  | Some ops =>
      Some ([Save] ++ elementTransform element
            ++ [ StrokeStyle "black"; FillStyle "black";
                 LineWidth
                   (match element with
                    | EShape s => Some (Shape.lineWidth s / zoom c)
                    | EText _ => None
                    end) ]
            ++ ops ++ [Restore])
  | None => None
  end.

(** [elements.forEach], stopped by the first element that throws. *)
Fixpoint renderElements {M : JSMath} (c : State)
  (l : list DrawingElement) : option (list CanvasOp) :=
  match l with
  | [] => Some []
  | element :: rest =>
      match renderElement c element, renderElements c rest with
      | Some ops, Some more => Some (ops ++ more)
      | _, _ => None
      end
  end.

Definition redrawCanvas {M : JSMath} (env : Env) (width height : number)
  (c : State) : option (list CanvasOp) :=
  match ctx env, canvas env with
  | true, Some _ =>
      match renderElements c (elements c) with
      | Some ops =>
          Some ([ClearRect 0 0 width height]
                ++ (if showGrid c then drawGrid env width height c else [])
                ++ [Save] ++ worldTransform c
                ++ ops
                ++ [Restore]
                (* Draw selection box *)
                ++ drawSelectionBox env c
                (* Draw resize handles for selected elements *)
                ++ (match selectedElements c, tool c with
                    | _ :: _, (tool_move | tool_select) =>
                        drawResizeHandles env (selectedElements c) c
                    | _, _ => []
                    end))
      | None => None
      end
  | _, _ => Some []
  end.

(** ** The text input of the JSX *)

(** The position of the text input in the JSX,
    [left: textPosition.x * zoom + panOffset.x] and the same for [top],
    relative to the canvas. *)
Definition textInputPosition (s : State) : Point.t :=
  Point.mk (Point.x (textPosition s) * zoom s + Point.x (panOffset s))
           (Point.y (textPosition s) * zoom s + Point.y (panOffset s)).

(** ** A concrete [Math] and a concrete environment, for evaluation

    Rational approximations, to six decimals for the square root and by
    Taylor polynomials for the cosine and the sine.  The general theorems
    below hold for every [JSMath]. *)

Definition approxSqrt (v : number) : number :=
  Z.sqrt (Qnum v * 1000000000000 / Zpos (Qden v)) # 1000000.

Definition approxCos (v : number) : number :=
  1 - v * v / 2 + v * v * v * v / 24 - v * v * v * v * v * v / 720.

Definition approxSin (v : number) : number :=
  v - v * v * v / 6 + v * v * v * v * v / 120
  - v * v * v * v * v * v * v / 5040.

#[export] Instance approxMath : JSMath := {
  Math_sqrt := approxSqrt;
  Math_cos := approxCos;
  Math_sin := approxSin;
  Math_PI := 355 # 113
}.

(** A mounted canvas at the origin of the viewport. *)
Definition mountedEnv : Env :=
  mkEnv true (Some (DOMRect.mk 0 0 800 600))
        (fun _ => "1700000000000"%string) (fun _ => "0.5"%string)
        (fun _ _ => false).

Definition mouseAt (x y : number) : MouseEvent.t :=
  MouseEvent.mk x y 0%nat false false.

(** ** Definitions used by the statements *)

(** A rectangle drawn from (10, 10) to (50, 40), then the canvas cleared. *)
Definition drawThenClear : list (Env * Event) :=
  [ (mountedEnv, ClickTool tool_rectangle);
    (mountedEnv, MouseDown (mouseAt 10 10));
    (mountedEnv, MouseMove (mouseAt 50 40));
    (mountedEnv, MouseUp (mouseAt 50 40));
    (mountedEnv, ClickClear) ].

Definition drawnRectangle : DrawingElement :=
  EShape (Shape.mk "1700000000000" rectangle 10 10 50 40 2 None
                   (Some 0) (Some false) (Some false)).

(** The specification's end-to-end scenario: the rectangle is drawn, then
    selected with a click inside it; Ctrl+D duplicates it. *)
Definition drawThenSelect : list (Env * Event) :=
  [ (mountedEnv, ClickTool tool_rectangle);
    (mountedEnv, MouseDown (mouseAt 10 10));
    (mountedEnv, MouseMove (mouseAt 50 40));
    (mountedEnv, MouseUp (mouseAt 50 40));
    (mountedEnv, ClickTool tool_select);
    (mountedEnv, MouseDown (mouseAt 30 25));
    (mountedEnv, MouseUp (mouseAt 30 25)) ].

Definition ctrlD : KeyboardEvent.t := KeyboardEvent.mk "d" true false false.

Definition duplicateOfDrawn : DrawingElement :=
  EShape (Shape.mk "17000000000000.5" rectangle 30 30 70 60 2 None
                   (Some 0) (Some false) (Some false)).

(** Two overlapping rectangles, [rectA] drawn first and [rectB] on top. *)
Definition rectA : DrawingElement :=
  EShape (Shape.mk "a" rectangle 10 10 50 40 2 None
                   (Some 0) (Some false) (Some false)).

Definition rectB : DrawingElement :=
  EShape (Shape.mk "b" rectangle 20 20 60 60 2 None
                   (Some 0) (Some false) (Some false)).

Definition overlapState : State :=
  setTool (val tool_eraser)
    (setSelectedElements (val [rectB])
       (setElements (val [rectA; rectB]) initialState)).

(** The world point under a screen point, [(screen - pan) / zoom]: the
    conversion [handleZoom] applies to the mouse position before it
    changes the zoom, and [transformCoordinates] to the pointer position
    relative to the canvas. *)
Definition screenToWorld (s : State) (screenX screenY : number) : Point.t :=
  Point.mk ((screenX - Point.x (panOffset s)) / zoom s)
           ((screenY - Point.y (panOffset s)) / zoom s).

Definition zoomInRange (z : number) : Prop := 1 # 10 <= z /\ z <= 10.

(** The rectangle the pointer-up tests an element against, by the kind of
    the element: the rectangle spanned by the start and end points of a
    line, rectangle or circle, and the anchor point of a text. *)
Definition insideSelection (box : Box.t) (el : DrawingElement) : Prop :=
  let minX := Qmin (Box.startX box) (Box.endX box) in
  let maxX := Qmax (Box.startX box) (Box.endX box) in
  let minY := Qmin (Box.startY box) (Box.endY box) in
  let maxY := Qmax (Box.startY box) (Box.endY box) in
  match el with
  | EShape s =>
      minX <= Qmin (Shape.startX s) (Shape.endX s)
      /\ Qmax (Shape.startX s) (Shape.endX s) <= maxX
      /\ minY <= Qmin (Shape.startY s) (Shape.endY s)
      /\ Qmax (Shape.startY s) (Shape.endY s) <= maxY
  | EText t =>
      minX <= TextElement.x t /\ TextElement.x t <= maxX
      /\ minY <= TextElement.y t /\ TextElement.y t <= maxY
  end.

Definition isStroke (el : DrawingElement) : bool :=
  match el with
  | EShape s => match Shape.type s with pen => true | _ => false end
  | EText _ => false
  end.

(** The element of the specification's example: bounding box
    [10,10]-[20,20]. *)
Definition smallRect : DrawingElement :=
  EShape (Shape.mk "r" rectangle 10 10 20 20 2 None
                   (Some 0) (Some false) (Some false)).

Definition selectingState (box : Box.t) : State :=
  setSelectionBox (val (Some box))
    (setIsSelecting (val true)
       (setTool (val tool_select)
          (setElements (val [smallRect]) initialState))).

(** The bounding box of an element in the words of the specification: the
    normalized rectangle of the start and end points and, for a text, the
    nominal box [x, x + 50] by [y - fontSize, y], the one [isPointInElement]
    tests. *)
Definition boundingBox (el : DrawingElement) : Box.t :=
  match el with
  | EShape s =>
      Box.mk (Qmin (Shape.startX s) (Shape.endX s))
             (Qmin (Shape.startY s) (Shape.endY s))
             (Qmax (Shape.startX s) (Shape.endX s))
             (Qmax (Shape.startY s) (Shape.endY s))
  | EText t =>
      Box.mk (TextElement.x t) (TextElement.y t - TextElement.fontSize t)
             (TextElement.x t + 50) (TextElement.y t)
  end.

(** A normalized box lies inside the normalized selection rectangle. *)
Definition fullyContained (inner selection : Box.t) : Prop :=
  Qmin (Box.startX selection) (Box.endX selection) <= Box.startX inner
  /\ Box.endX inner <= Qmax (Box.startX selection) (Box.endX selection)
  /\ Qmin (Box.startY selection) (Box.endY selection) <= Box.startY inner
  /\ Box.endY inner <= Qmax (Box.startY selection) (Box.endY selection).

(** A text typed at (25, 25) and a selection rectangle dragged from (0, 0)
    to (30, 30). *)
Definition boxSelectLabel : list (Env * Event) :=
  [ (mountedEnv, ClickTool tool_text);
    (mountedEnv, MouseDown (mouseAt 25 25));
    (mountedEnv, MouseUp (mouseAt 25 25));
    (mountedEnv, TextChange "hi");
    (mountedEnv, TextKeyDown "Enter");
    (mountedEnv, ClickTool tool_select);
    (mountedEnv, MouseDown (mouseAt 0 0));
    (mountedEnv, MouseMove (mouseAt 30 30)) ].

Definition labelElement : DrawingElement :=
  EText (TextElement.mk "1700000000000" 25 25 "hi" 16
                        (Some 0) (Some false) (Some false)).

(** A multiple of the grid cell size. *)
Definition onGrid (v : number) : Prop :=
  exists n : Z, v = inject_Z n * gridSize.

Definition pointOnGrid (point : Point.t) : Prop :=
  onGrid (Point.x point) /\ onGrid (Point.y point).

(** Every coordinate of the element, and every point of its path, is on
    the grid. *)
Definition elementOnGrid (el : DrawingElement) : Prop :=
  match el with
  | EText t => onGrid (TextElement.x t) /\ onGrid (TextElement.y t)
  | EShape s =>
      onGrid (Shape.startX s) /\ onGrid (Shape.startY s)
      /\ onGrid (Shape.endX s) /\ onGrid (Shape.endY s)
      /\ match Shape.points s with
         | Some pts => Forall pointOnGrid pts
         | None => True
         end
  end.

Definition isBoxShape (el : DrawingElement) : bool :=
  match el with
  | EShape s =>
      match Shape.type s with line | rectangle => true | _ => false end
  | EText _ => false
  end.

Definition cornersOnGrid (el : DrawingElement) : Prop :=
  match el with
  | EShape s =>
      onGrid (Shape.startX s) /\ onGrid (Shape.startY s)
      /\ onGrid (Shape.endX s) /\ onGrid (Shape.endY s)
  | EText t => onGrid (TextElement.x t) /\ onGrid (TextElement.y t)
  end.

(** Grid snap on and [rectA] on the clipboard. *)
Definition snapState : State :=
  setCopiedElements (val [rectA]) (setGridSnap (val true) initialState).

(** ** Definitions used by the further properties *)

(** The cursor is the index of a snapshot. *)
Definition cursorInHistory (s : State) : Prop :=
  (historyIndex s < List.length (history s))%nat.

(** The closure of a keyboard event has the history and the cursor of the
    current state: no commit, undo or redo has happened since the render
    that installed the listener. *)
Definition historyCurrent (ev : Event) (s : State) : Prop :=
  match ev with
  | KeyDown closure _ =>
      history closure = history s /\ historyIndex closure = historyIndex s
  | _ => True
  end.

(** The states reached by events whose keyboard closures are current in
    that sense. *)
Inductive reachableCurrent {M : JSMath} : State -> Prop :=
  | reachableCurrent_initial : reachableCurrent initialState
  | reachableCurrent_step env ev s s' :
      reachableCurrent s -> historyCurrent ev s ->
      step env ev s = Some s' -> reachableCurrent s'.

(** A run without keyboard events. *)
Definition noKeyDown (trace : list (Env * Event)) : bool :=
  forallb (fun step =>
             match snd step with KeyDown _ _ => false | _ => true end) trace.

(** The elements and the selection are the snapshot at the cursor. *)
Definition synchronised (s : State) : Prop :=
  nth_error (history s) (historyIndex s)
  = Some (HistoryState.mk (elements s) (selectedElements s)).

(** [s] with the elements and the selection of a snapshot. *)
Definition restored (snapshot : HistoryState.t) (s : State) : State :=
  setSelectedElements (val (HistoryState.selectedElements snapshot))
    (setElements (val (HistoryState.elements snapshot)) s).

(** The commands that set the elements and then call [saveToHistory]. *)
Definition committingCommands {M : JSMath} (env : Env) (x y : number)
  (pasteX pasteY : option number) : list Handler :=
  [ clearCanvas; deleteSelectedElements; duplicateElements env;
    pasteElements env pasteX pasteY; rotateSelectedElements;
    flipSelectedElementsHorizontal; flipSelectedElementsVertical;
    eraseElements x y ].

(** The tool that draws a shape of the given type. *)
Definition drawingTool (type : ShapeType) : Tool :=
  match type with
  | pen => tool_pen
  | line => tool_line
  | rectangle => tool_rectangle
  | circle => tool_circle
  end.

(** A pointer-down followed by pointer-moves, all in one environment. *)
Definition gesture (env : Env) (down : MouseEvent.t)
  (moves : list MouseEvent.t) : list (Env * Event) :=
  (env, MouseDown down) :: map (fun m => (env, MouseMove m)) moves.

(** The world point [transformCoordinates] gives for a pointer event. *)
Definition worldOf (env : Env) (s : State) (e : MouseEvent.t) : Point.t :=
  transformCoordinates env s (MouseEvent.clientX e) (MouseEvent.clientY e).

(** What one pointer-move does to the element being drawn. *)
Definition extendLast (point : Point.t) (sh : Shape.t) : Shape.t :=
  match Shape.type sh, Shape.points sh with
  | pen, Some pts => Shape.with_points (Some (pts ++ [point])) sh
  | _, _ => Shape.with_end (Point.x point) (Point.y point) sh
  end.

(** The state while a draw gesture started in [s] is in progress. *)
Definition drawingFrom (s : State) (type : ShapeType) (q : State) : Prop :=
  tool q = drawingTool type /\ isPanning q = false /\ isDrawing q = true
  /\ zoom q = zoom s /\ panOffset q = panOffset s /\ gridSnap q = gridSnap s
  /\ selectedElements q = [] /\ history q = history s
  /\ historyIndex q = historyIndex s.

(** The shape with its start and end points exchanged. *)
Definition swapEnds (s : Shape.t) : Shape.t :=
  Shape.with_coords (Shape.endX s) (Shape.endY s)
                    (Shape.startX s) (Shape.startY s) s.

(** The selection box dragged from its other corner. *)
Definition swapCorners (box : Box.t) : Box.t :=
  Box.mk (Box.endX box) (Box.endY box) (Box.startX box) (Box.startY box).

(** The anchor of a paste: the point given, or (50, 50). *)
Definition pasteAnchor (v : option number) : number :=
  match v with Some a => a | None => 50 end.

(** A pasted element against the clipboard element it was made from: it
    starts at the stagger point and has the same kind, size, width of line
    and text. *)
Definition placedAt (px py : number) (original pasted : DrawingElement)
  : Prop :=
  match original, pasted with
  | EShape s, EShape s' =>
      Shape.startX s' = px /\ Shape.startY s' = py
      /\ Shape.endX s' - Shape.startX s' == Shape.endX s - Shape.startX s
      /\ Shape.endY s' - Shape.startY s' == Shape.endY s - Shape.startY s
      /\ Shape.type s' = Shape.type s
      /\ Shape.lineWidth s' = Shape.lineWidth s
      /\ option_map (@List.length Point.t) (Shape.points s')
         = option_map (@List.length Point.t) (Shape.points s)
  | EText t, EText t' =>
      TextElement.x t' = px /\ TextElement.y t' = py
      /\ TextElement.content t' = TextElement.content t
      /\ TextElement.fontSize t' = TextElement.fontSize t
  | _, _ => False
  end.

(** Ctrl+A, Delete and Escape. *)
Definition ctrlA : KeyboardEvent.t := KeyboardEvent.mk "a" true false false.
Definition deleteKey : KeyboardEvent.t :=
  KeyboardEvent.mk "Delete" false false false.
Definition escapeKey : KeyboardEvent.t :=
  KeyboardEvent.mk "Escape" false false false.

(** [n] calls of a handler, each from the render of the state before. *)
Definition repeated (h : Handler) (n : nat) (s : State) : State :=
  Nat.iter n (dispatch h) s.

(** The fields of an element other than its transform record. *)
Definition geometry (el : DrawingElement)
  : string * list number * option (list Point.t) * string :=
  match el with
  | EShape s =>
      (Shape.id s,
       [Shape.startX s; Shape.startY s; Shape.endX s; Shape.endY s;
        Shape.lineWidth s],
       Shape.points s, EmptyString)
  | EText t =>
      (TextElement.id t,
       [TextElement.x t; TextElement.y t; TextElement.fontSize t],
       None, TextElement.content t)
  end.

(** The handle positions drawn for an element; none for texts and pen
    strokes. *)
Definition drawnHandles {M : JSMath} (el : DrawingElement) : list Point.t :=
  match el with
  | EText _ => []
  | EShape s =>
      match Shape.type s with
      | pen => []
      | circle => circleHandles s
      | _ => boxHandles s
      end
  end.

(** The depth of the context's state stack after the operations, starting
    from [depth]; [None] when a [restore] has no matching [save]. *)
Fixpoint stackAfter (ops : list CanvasOp) (depth : nat) : option nat :=
  match ops with
  | [] => Some depth
  | Save :: rest => stackAfter rest (S depth)
  | Restore :: rest =>
      match depth with
      | O => None
      | S d => stackAfter rest d
      end
  | _ :: rest => stackAfter rest depth
  end.

(** The points a path is drawn through, control points included. *)
Definition pathPoints (ops : list CanvasOp) : list Point.t :=
  flat_map (fun op =>
              match op with
              | MoveTo x y | LineTo x y => [Point.mk x y]
              | QuadraticCurveTo cpx cpy x y =>
                  [Point.mk cpx cpy; Point.mk x y]
              | _ => []
              end) ops.

(** The segments a trace strokes with [beginPath; moveTo; lineTo; stroke]. *)
Fixpoint strokedSegments (ops : list CanvasOp) : list (Point.t * Point.t) :=
  match ops with
  | [] => []
  | BeginPath :: rest =>
      match rest with
      | MoveTo x0 y0 :: LineTo x1 y1 :: Stroke :: _ =>
          (Point.mk x0 y0, Point.mk x1 y1) :: strokedSegments rest
      | _ => strokedSegments rest
      end
  | _ :: rest => strokedSegments rest
  end.

(** A pen stroke whose path is the empty array: the element
    [redrawCanvas] cannot draw. *)
Definition emptyPath (element : DrawingElement) : bool :=
  match element with
  | EShape s =>
      match Shape.type s, Shape.points s with
      | pen, Some [] => true
      | _, _ => false
      end
  | EText _ => false
  end.

(** No element of the list is such a stroke. *)
Definition paths (l : list DrawingElement) : Prop :=
  Forall (fun element => emptyPath element = false) l.

(** The same of both lists of a snapshot. *)
Definition snapshotPaths (snapshot : HistoryState.t) : Prop :=
  paths (HistoryState.elements snapshot)
  /\ paths (HistoryState.selectedElements snapshot).

(** No list of elements that a handler can copy into the store holds a
    stroke with an empty path: the store itself, the selection, the
    clipboard and the snapshots of the history. *)
Definition pathsOk (s : State) : Prop :=
  paths (elements s) /\ paths (selectedElements s)
  /\ paths (copiedElements s) /\ Forall snapshotPaths (history s).

(** The states the component renders: each event runs from the last
    render, the keyboard handler in the closure of any render before. *)
Inductive rendered {M : JSMath} : State -> Prop :=
  | rendered_initial : rendered initialState
  | rendered_step env ev s s' :
      rendered s -> (forall closure e, ev <> KeyDown closure e) ->
      step env ev s = Some s' -> rendered s'
  | rendered_key env closure e s s' :
      rendered s -> rendered closure ->
      step env (KeyDown closure e) s = Some s' -> rendered s'.

(** ** Sample runs *)

(** The state a run from the initial state ends in. *)
Definition afterRun {M : JSMath} (trace : list (Env * Event)) : State :=
  match run trace initialState with
  | Some s => s
  | None => initialState
  end.

(** A rectangle from (10, 10) to (50, 40), then a pen stroke through
    (60, 60), (70, 65) and (80, 60). *)
Definition sketch : list (Env * Event) :=
  [ (mountedEnv, ClickTool tool_rectangle);
    (mountedEnv, MouseDown (mouseAt 10 10));
    (mountedEnv, MouseMove (mouseAt 50 40));
    (mountedEnv, MouseUp (mouseAt 50 40));
    (mountedEnv, ClickTool tool_pen);
    (mountedEnv, MouseDown (mouseAt 60 60));
    (mountedEnv, MouseMove (mouseAt 70 65));
    (mountedEnv, MouseMove (mouseAt 80 60));
    (mountedEnv, MouseUp (mouseAt 80 60)) ].

Definition sketched : State := afterRun sketch.

(** The two elements of the sketch; the sample environment gives every
    element the same time stamp. *)
Definition sketchedRectangle : Shape.t :=
  Shape.mk "1700000000000" rectangle 10 10 50 40 2 None
           (Some 0) (Some false) (Some false).

Definition sketchedStroke : Shape.t :=
  Shape.mk "1700000000000" pen 60 60 60 60 2
           (Some [Point.mk 60 60; Point.mk 70 65; Point.mk 80 60])
           (Some 0) (Some false) (Some false).

(** A text at (200, 100). *)
Definition sampleText : TextElement.t :=
  TextElement.mk "label" 200 100 "hi" 16 (Some 0) (Some false) (Some false).

(** The sketch with its rectangle selected. *)
Definition sketchSelected : State :=
  setSelectedElements (val [EShape sketchedRectangle]) sketched.

(** The sketch with the grid shown. *)
Definition sketchOnGrid : State :=
  setShowGrid (val true) (setTool (val tool_select) sketchSelected).

(** A pointer event of the middle button. *)
Definition middleButtonAt (x y : number) : MouseEvent.t :=
  MouseEvent.mk x y 1%nat false false.

(** The view zoomed in as far as it goes. *)
Definition zoomedIn : State :=
  dispatch (handleZoom mountedEnv 100 None None) initialState.

(** A box selection in progress over an empty canvas. *)
Definition boxSelecting : State :=
  afterRun [ (mountedEnv, ClickTool tool_select);
             (mountedEnv, MouseDown (mouseAt 100 100));
             (mountedEnv, MouseMove (mouseAt 200 200)) ].

(** The sketch with its last commit undone. *)
Definition sketchUndone : State :=
  afterRun (sketch ++ [(mountedEnv, ClickUndo)]).

(** The pen stroke of the sketch before its second point. *)
Definition strokeBegun : State :=
  afterRun [ (mountedEnv, ClickTool tool_pen);
             (mountedEnv, MouseDown (mouseAt 60 60)) ].

(** The same stroke with its second point. *)
Definition strokeExtended : State :=
  afterRun [ (mountedEnv, ClickTool tool_pen);
             (mountedEnv, MouseDown (mouseAt 60 60));
             (mountedEnv, MouseMove (mouseAt 70 65)) ].

(** A text on the canvas, not yet committed to the history. *)
Definition labelled : State :=
  setElements (val [EShape sketchedRectangle; EText sampleText]) initialState.

(** The rectangle and the text on the clipboard. *)
Definition clipboardFilled : State :=
  setCopiedElements (val [EShape sketchedRectangle; EText sampleText])
                    initialState.

(** The rectangle of the sketch under the move tool. *)
Definition readyToMove : State :=
  setTool (val tool_move)
          (setElements (val [EShape sketchedRectangle; EText sampleText])
                       initialState).

(** A line of length zero. *)
Definition sampleDot : Shape.t :=
  Shape.mk "dot" line 10 10 10 10 2 None (Some 0) (Some false) (Some false).

(** Case analysis on every [match] of the goal, or of a hypothesis. *)
Ltac break_goal :=
  repeat match goal with
    | |- context [match ?x with _ => _ end] => destruct x
    end.

Ltac break_hyp H :=
  repeat match type of H with
    | context [match ?x with _ => _ end] => destruct x
    end.

(** The cursor invariant of a state given by setters. *)
Ltac cursor_done Hinv :=
  first
    [ exact Hinv
    | unfold cursorInHistory; cbn;
      rewrite ?length_app, ?length_firstn; cbn; lia ].

(** The path invariant of a state given by setters, field by field. *)
Ltac paths_fields :=
  unfold pathsOk, andThen, skip in *;
  cbn [elements selectedElements copiedElements history
       setIsDrawing setTool setLineWidth setShowGrid setGridSnap
       setTextInput setTextPosition setIsAddingText setEditingTextId
       setElements setMovingElement setMoveOffset setSelectedElements
       setResizeHandle setCopiedElements setSelectionBox setIsSelecting
       setZoom setPanOffset setIsPanning setPanStart setHistory
       setHistoryIndex val HistoryState.elements
       HistoryState.selectedElements] in *.

(** The kinds of a shape and of its path. *)
Ltac shape_cases s :=
  destruct s as [? [ | | | ] ? ? ? ? ? [[ | ? ?] | ] ? ? ?].

Create HintDb paths.

Ltac paths_done :=
  paths_fields; repeat split; solve [eauto 8 with paths].

(** ** The embedding at work *)

(** With the approximate square root the radius of the circle of centre
    (0, 0) through (3, 4) is 5. *)
Example circle_radius_3_4 :
  circleRadius (Shape.mk "c" circle 0 0 3 4 2 None None None None) == 5.
Proof. vm_compute. reflexivity. Qed.

(** The hit box of a rectangle is padded by [5 / zoom]. *)
Example hit_rectangle_padding :
  isPointInElement initialState 54 20 rectA = true
  /\ isPointInElement initialState 56 20 rectA = false.
Proof. split; vm_compute; reflexivity. Qed.

(** Corner, edge midpoint and interior of [rectA]. *)
Example handle_of_rectangle :
  getResizeHandle initialState 50 40 rectA = Some h_se
  /\ getResizeHandle initialState 30 10 rectA = Some h_n
  /\ getResizeHandle initialState 30 25 rectA = None.
Proof. repeat split; vm_compute; reflexivity. Qed.

(** ** Properties of the history *)

Lemma saveToHistory_fields (c p : State) :
  let newHistory :=
    firstn (historyIndex c + 1) (history c)
    ++ [HistoryState.mk (elements c) (selectedElements c)] in
  saveToHistory c p =
  setHistoryIndex (val (List.length newHistory - 1)%nat)
                  (setHistory (val newHistory) p).
Proof. reflexivity. Qed.

Lemma length_commit {A : Type} (n : nat) (l : list A) (a : A) :
  (List.length (firstn (n + 1) l ++ [a]) - 1
   = Nat.min (n + 1) (List.length l))%nat.
Proof.
  rewrite length_app, length_firstn. simpl. lia.
Qed.

(** C2.  A commit keeps the snapshots up to and including the cursor,
    drops those after it, appends one snapshot of the current elements and
    selection, and moves the cursor to that snapshot, the last one.  With
    the cursor inside the history the new cursor is the old one plus one. *)
Theorem saveToHistory_commit (s : State) :
  let s' := dispatch saveToHistory s in
  let snapshot := HistoryState.mk (elements s) (selectedElements s) in
  history s' = firstn (historyIndex s + 1) (history s) ++ [snapshot]
  /\ historyIndex s' = Nat.min (historyIndex s + 1) (List.length (history s))
  /\ List.length (history s') = S (historyIndex s')
  /\ nth_error (history s') (historyIndex s') = Some snapshot
  /\ elements s' = elements s
  /\ selectedElements s' = selectedElements s.
Proof.
  cbv zeta. unfold dispatch. rewrite saveToHistory_fields. cbn.
  set (prefix := firstn (historyIndex s + 1) (history s)).
  assert (Hlen : List.length prefix
                 = Nat.min (historyIndex s + 1) (List.length (history s)))
    by apply length_firstn.
  rewrite length_app. cbn [List.length].
  repeat split; try lia.
  rewrite nth_error_app2 by lia.
  replace (List.length prefix + 1 - 1 - List.length prefix)%nat with 0%nat
    by lia.
  reflexivity.
Qed.

(** [undo] at the oldest snapshot changes nothing. *)
Lemma undo_at_oldest (c p : State) :
  historyIndex c = 0%nat -> undo c p = Some p.
Proof. intros H. unfold undo. rewrite H. reflexivity. Qed.

(** [redo] at the newest snapshot changes nothing. *)
Lemma redo_at_newest (c p : State) :
  S (historyIndex c) = List.length (history c) -> redo c p = Some p.
Proof.
  intros H. unfold redo.
  replace (historyIndex c <? List.length (history c) - 1)%nat with false;
    [ reflexivity | ].
  symmetry. apply Nat.ltb_ge. lia.
Qed.

(** The inverse law under the assumption that the live elements and
    selection are the snapshot at the cursor. *)
Lemma undo_redo_of_synchronised (s : State) :
  (0 < historyIndex s)%nat ->
  nth_error (history s) (historyIndex s)
  = Some (HistoryState.mk (elements s) (selectedElements s)) ->
  exists s1, undo s s = Some s1 /\ redo s1 s1 = Some s.
Proof.
  intros Hpos Hcur.
  assert (Hin : (historyIndex s < List.length (history s))%nat)
    by (apply nth_error_Some; congruence).
  destruct (nth_error (history s) (historyIndex s - 1)) as [prev | ] eqn:Hprev.
  2: { apply nth_error_None in Hprev. lia. }
  unfold undo.
  replace (0 <? historyIndex s)%nat with true
    by (symmetry; apply Nat.ltb_lt; exact Hpos).
  rewrite Hprev.
  eexists. split; [ reflexivity | ].
  match goal with |- redo ?t _ = _ => set (s1 := t) end.
  assert (Hidx : historyIndex s1 = (historyIndex s - 1)%nat) by reflexivity.
  assert (Hhist : history s1 = history s) by reflexivity.
  unfold redo. rewrite Hidx, Hhist.
  replace (historyIndex s - 1 <? List.length (history s) - 1)%nat with true
    by (symmetry; apply Nat.ltb_lt; lia).
  replace (historyIndex s - 1 + 1)%nat with (historyIndex s) by lia.
  rewrite Hcur. subst s1. destruct s. reflexivity.
Qed.

(** C1.  The inverse law of undo and redo does not hold on the code.
    [clearCanvas], like every command that edits the elements and commits
    in one call, queues [setElements] and then calls [saveToHistory], which
    reads [elements] from the render that created the handler: the snapshot
    it appends is the state before the edit.  After drawing a rectangle and
    clearing the canvas, both committing operations, the canvas is empty;
    [undo] then [redo] return to the same cursor but leave the rectangle on
    the canvas. *)
Theorem undo_redo_after_clear :
  exists s s1 s2 : State,
    run drawThenClear initialState = Some s
    /\ step mountedEnv ClickUndo s = Some s1
    /\ step mountedEnv ClickRedo s1 = Some s2
    /\ elements s = []
    /\ elements s2 = [drawnRectangle]
    /\ historyIndex s2 = historyIndex s.
Proof.
  do 3 eexists.
  split; [ vm_compute; reflexivity | ].
  split; [ vm_compute; reflexivity | ].
  split; [ vm_compute; reflexivity | ].
  repeat split; vm_compute; reflexivity.
Qed.

(** The snapshot that [clearCanvas] commits is the one already at the
    cursor, not the empty canvas. *)
Example clear_commits_stale_snapshot :
  option_map (fun s => (elements s, nth_error (history s) (historyIndex s)))
             (run drawThenClear initialState)
  = Some ([], Some (HistoryState.mk [drawnRectangle] [])).
Proof. vm_compute. reflexivity. Qed.

(** The end-to-end scenario of the specification: the duplicate is offset
    to (30,30)-(70,60) and [undo] removes it, but [redo] does not bring it
    back, for the same reason. *)
Example duplicate_undo_redo :
  exists s s1 s2 s3 : State,
    run drawThenSelect initialState = Some s
    /\ step mountedEnv (KeyDown s ctrlD) s = Some s1
    /\ step mountedEnv ClickUndo s1 = Some s2
    /\ step mountedEnv ClickRedo s2 = Some s3
    /\ elements s = [drawnRectangle]
    /\ elements s1 = [drawnRectangle; duplicateOfDrawn]
    /\ elements s2 = [drawnRectangle]
    /\ elements s3 = [drawnRectangle].
Proof.
  do 4 eexists.
  split; [ vm_compute; reflexivity | ].
  split; [ vm_compute; reflexivity | ].
  split; [ vm_compute; reflexivity | ].
  split; [ vm_compute; reflexivity | ].
  repeat split; vm_compute; reflexivity.
Qed.

(** ** No-ops on an empty selection and on an empty clipboard *)

(** C7.  With an empty selection [copyElements], [duplicateElements],
    [deleteSelectedElements], the rotation and the two flips return the
    pending state as it is, and so does [pasteElements] with an empty
    clipboard: elements, selection, clipboard, history and cursor are all
    unchanged. *)
Theorem empty_selection_noops {M : JSMath} (env : Env) (c c' p : State)
  (x y : option number) :
  selectedElements c = [] ->
  copiedElements c' = [] ->
  copyElements c p = p
  /\ duplicateElements env c p = p
  /\ deleteSelectedElements c p = p
  /\ rotateSelectedElements c p = p
  /\ flipSelectedElementsHorizontal c p = p
  /\ flipSelectedElementsVertical c p = p
  /\ pasteElements env x y c' p = p.
Proof.
  intros Hsel Hclip.
  unfold copyElements, duplicateElements, deleteSelectedElements,
    rotateSelectedElements, flipSelectedElementsHorizontal,
    flipSelectedElementsVertical, transformSelected, pasteElements.
  rewrite Hsel, Hclip. repeat split.
Qed.

Lemma empty_selection_noops_witness :
  copyElements initialState initialState = initialState
  /\ duplicateElements mountedEnv initialState initialState = initialState
  /\ deleteSelectedElements initialState initialState = initialState
  /\ rotateSelectedElements initialState initialState = initialState
  /\ flipSelectedElementsHorizontal initialState initialState = initialState
  /\ flipSelectedElementsVertical initialState initialState = initialState
  /\ pasteElements mountedEnv None None initialState initialState
     = initialState.
Proof.
  apply (empty_selection_noops mountedEnv initialState initialState
                               initialState None None);
    reflexivity.
Defined.

(** The same through the keyboard: Ctrl+D, Ctrl+V, Ctrl+C and Delete. *)
Lemma empty_selection_keys {M : JSMath} (env : Env) (c p : State) (k : string) :
  selectedElements c = [] ->
  copiedElements c = [] ->
  In k ["c"; "v"; "d"]%string ->
  handleKeyDown env (KeyboardEvent.mk k true false false) c p = Some p
  /\ handleKeyDown env (KeyboardEvent.mk "Delete" false false false) c p
     = Some p.
Proof.
  intros Hsel Hclip Hk.
  unfold handleKeyDown, andThenP, keyIs, copyElements, pasteElements,
    duplicateElements, deleteSelectedElements.
  rewrite Hsel, Hclip. cbn in Hk.
  destruct Hk as [<- | [<- | [<- | []]]]; split; reflexivity.
Qed.

(** ** The eraser *)

Lemma filter_none {A : Type} (f : A -> bool) (l : list A) :
  (forall a, In a l -> f a = false) -> filter f l = [].
Proof.
  induction l as [ | a l IH ]; intros H; [ reflexivity | ].
  simpl. rewrite (H a (or_introl eq_refl)).
  apply IH. intros b Hb. apply H. right. exact Hb.
Qed.

Lemma filter_every {A : Type} (f : A -> bool) (l : list A) :
  (forall a, In a l -> f a = true) -> filter f l = l.
Proof.
  induction l as [ | a l IH ]; intros H; [ reflexivity | ].
  simpl. rewrite (H a (or_introl eq_refl)). f_equal.
  apply IH. intros b Hb. apply H. right. exact Hb.
Qed.

(** The topmost hit: the elements after it in the store miss the point. *)
Lemma topmost_hit {A : Type} (f : A -> bool) (before after : list A) (b : A) :
  f b = true ->
  (forall a, In a after -> f a = false) ->
  filter f (rev (before ++ b :: after)) = b :: filter f (rev before).
Proof.
  intros Hb Hafter.
  rewrite rev_app_distr. simpl rev. rewrite !filter_app.
  rewrite (filter_none f (rev after)).
  - simpl. rewrite Hb. reflexivity.
  - intros a Ha. apply Hafter. apply in_rev. exact Ha.
Qed.

(** With unique identifiers, filtering on the identifier of one element
    removes that element and no other. *)
Lemma withoutId_unique (before after : list DrawingElement)
  (b : DrawingElement) :
  NoDup (map element_id (before ++ b :: after)) ->
  withoutId (element_id b) (before ++ b :: after) = before ++ after.
Proof.
  intros Hnodup.
  rewrite map_app in Hnodup. simpl in Hnodup.
  apply NoDup_remove_2 in Hnodup. rewrite <- map_app in Hnodup.
  assert (Hother : forall el, In el (before ++ after) ->
                     negb (element_id el =? element_id b)%string = true).
  { intros el Hel. apply negb_true_iff. apply String.eqb_neq.
    intros Heq. apply Hnodup. rewrite <- Heq. apply in_map. exact Hel. }
  unfold withoutId. rewrite filter_app. simpl.
  rewrite String.eqb_refl. simpl. rewrite <- filter_app.
  apply filter_every. exact Hother.
Qed.

Lemma withoutId_In (id : string) (l : list DrawingElement)
  (el : DrawingElement) :
  In el (withoutId id l) <-> In el l /\ element_id el <> id.
Proof.
  unfold withoutId. rewrite filter_In, negb_true_iff, String.eqb_neq.
  reflexivity.
Qed.

(** What an erase that hits does to the pending state. *)
Lemma eraseElements_hit {M : JSMath} (x y : number) (c p : State)
  (before after : list DrawingElement) (b : DrawingElement) :
  elements c = before ++ b :: after ->
  isPointInElement c x y b = true ->
  (forall el, In el after -> isPointInElement c x y el = false) ->
  eraseElements x y c p
  = saveToHistory c
      (setSelectedElements (withoutId (element_id b))
         (setElements (withoutId (element_id b)) p)).
Proof.
  intros Hel Hb Hafter. unfold eraseElements.
  rewrite Hel, (topmost_hit _ _ _ _ Hb Hafter). reflexivity.
Qed.

Lemma eraseElements_miss {M : JSMath} (x y : number) (c p : State) :
  (forall el, In el (elements c) -> isPointInElement c x y el = false) ->
  eraseElements x y c p = p.
Proof.
  intros Hmiss. unfold eraseElements.
  rewrite filter_none; [ reflexivity | ].
  intros el Hel. apply Hmiss. apply in_rev. exact Hel.
Qed.

(** [startDrawing] with the eraser and a button other than the middle one
    is [eraseElements] at the converted pointer position. *)
Lemma startDrawing_eraser {M : JSMath} (env : Env) (e : MouseEvent.t)
  (c p : State) (rect : DOMRect.t) :
  ctx env = true ->
  canvas env = Some rect ->
  tool c = tool_eraser ->
  MouseEvent.button e <> 1%nat ->
  startDrawing env e c p
  = Some (eraseElements
            (Point.x (transformCoordinates env c (MouseEvent.clientX e)
                                           (MouseEvent.clientY e)))
            (Point.y (transformCoordinates env c (MouseEvent.clientX e)
                                           (MouseEvent.clientY e)))
            c p).
Proof.
  intros Hctx Hcanvas Htool Hbutton. unfold startDrawing.
  rewrite Hctx, Hcanvas, Htool.
  apply Nat.eqb_neq in Hbutton. rewrite Hbutton. reflexivity.
Qed.

(** C5.  A pointer-down with the eraser removes the topmost element that
    the pointer hits, the last one in the store, and nothing else; the
    selection loses the entries with its identifier and keeps the others;
    one snapshot is appended to the history, after the cursor, and the
    cursor moves to it.  Identifiers are unique in the store, as the data
    model requires; the button is not the middle one, which pans.  The
    snapshot appended is the one [saveToHistory] takes in the render of the
    click. *)
Theorem erase_topmost {M : JSMath} (env : Env) (e : MouseEvent.t) (c : State)
  (rect : DOMRect.t) (before after : list DrawingElement)
  (B : DrawingElement) :
  let pt :=
    transformCoordinates env c (MouseEvent.clientX e) (MouseEvent.clientY e) in
  ctx env = true ->
  canvas env = Some rect ->
  tool c = tool_eraser ->
  MouseEvent.button e <> 1%nat ->
  NoDup (map element_id (elements c)) ->
  elements c = before ++ B :: after ->
  isPointInElement c (Point.x pt) (Point.y pt) B = true ->
  (forall el, In el after ->
              isPointInElement c (Point.x pt) (Point.y pt) el = false) ->
  exists s' : State,
    startDrawing env e c c = Some s'
    /\ elements s' = before ++ after
    /\ (forall el, In el (selectedElements s')
                   <-> In el (selectedElements c)
                       /\ element_id el <> element_id B)
    /\ history s'
       = firstn (historyIndex c + 1) (history c)
         ++ [HistoryState.mk (elements c) (selectedElements c)]
    /\ List.length (history s') = S (historyIndex s').
Proof.
  intros pt Hctx Hcanvas Htool Hbutton Hnodup Hel Hb Hafter.
  rewrite (startDrawing_eraser env e c c rect Hctx Hcanvas Htool Hbutton).
  fold pt. rewrite (eraseElements_hit _ _ c c before after B Hel Hb Hafter).
  eexists. split; [ reflexivity | ].
  rewrite saveToHistory_fields. cbn.
  split; [ | split; [ | split ] ].
  - rewrite Hel. apply withoutId_unique. rewrite <- Hel. exact Hnodup.
  - intros el. apply withoutId_In.
  - reflexivity.
  - rewrite length_commit, length_app, length_firstn. simpl. lia.
Qed.

(** An erase click at (30, 30), which is inside both rectangles, removes
    only [rectB]. *)
Lemma erase_topmost_witness :
  exists s' : State,
    startDrawing mountedEnv (mouseAt 30 30) overlapState overlapState = Some s'
    /\ elements s' = [rectA]
    /\ (forall el, In el (selectedElements s')
                   <-> In el [rectB] /\ element_id el <> "b"%string)
    /\ history s'
       = [HistoryState.mk [] []; HistoryState.mk [rectA; rectB] [rectB]]
    /\ List.length (history s') = S (historyIndex s').
Proof.
  apply (erase_topmost mountedEnv (mouseAt 30 30) overlapState
                       (DOMRect.mk 0 0 800 600) [rectA] [] rectB).
  - reflexivity.
  - reflexivity.
  - reflexivity.
  - simpl. lia.
  - simpl. repeat constructor; simpl; intuition discriminate.
  - reflexivity.
  - vm_compute. reflexivity.
  - simpl. intros el [].
Defined.

(** C10.  An eraser click that hits no element changes nothing: the
    pending state is returned as it is, so the elements, the selection, the
    history and its cursor are unchanged and no snapshot is committed. *)
Theorem erase_miss_noop {M : JSMath} (env : Env) (e : MouseEvent.t)
  (c p : State) :
  let pt :=
    transformCoordinates env c (MouseEvent.clientX e) (MouseEvent.clientY e) in
  tool c = tool_eraser ->
  MouseEvent.button e <> 1%nat ->
  (forall el, In el (elements c) ->
              isPointInElement c (Point.x pt) (Point.y pt) el = false) ->
  eraseElements (Point.x pt) (Point.y pt) c p = p
  /\ startDrawing env e c p = Some p.
Proof.
  intros pt Htool Hbutton Hmiss.
  assert (Herase : eraseElements (Point.x pt) (Point.y pt) c p = p)
    by (apply eraseElements_miss; exact Hmiss).
  split; [ exact Herase | ].
  destruct (ctx env) eqn:Hctx, (canvas env) as [rect | ] eqn:Hcanvas;
    try (unfold startDrawing; rewrite Hctx, ?Hcanvas; reflexivity).
  rewrite (startDrawing_eraser env e c p rect Hctx Hcanvas Htool Hbutton).
  fold pt. rewrite Herase. reflexivity.
Qed.

(** A click at (200, 200), away from both rectangles. *)
Lemma erase_miss_noop_witness :
  eraseElements 200 200 overlapState overlapState = overlapState
  /\ startDrawing mountedEnv (mouseAt 200 200) overlapState overlapState
     = Some overlapState.
Proof.
  apply (erase_miss_noop mountedEnv (mouseAt 200 200) overlapState
                         overlapState).
  - reflexivity.
  - simpl. lia.
  - intros el [<- | [<- | []]]; vm_compute; reflexivity.
Defined.

(** ** Grid snapping *)

Lemma Qfloor_half (n : Z) : Qfloor (inject_Z n + (1 # 2)) = n.
Proof.
  assert (Hlo := Qfloor_le (inject_Z n + (1 # 2))).
  assert (Hhi := Qlt_floor (inject_Z n + (1 # 2))).
  set (f := Qfloor (inject_Z n + (1 # 2))) in *. clearbody f.
  rewrite inject_Z_plus in Hhi. change (inject_Z 1) with 1 in Hhi.
  assert (H1 : (f < n + 1)%Z).
  { rewrite Zlt_Qlt, inject_Z_plus. change (inject_Z 1) with 1. lra. }
  assert (H2 : (n < f + 1)%Z).
  { rewrite Zlt_Qlt, inject_Z_plus. change (inject_Z 1) with 1. lra. }
  lia.
Qed.

Lemma Math_round_integer (n : Z) : Math_round (inject_Z n) = inject_Z n.
Proof. unfold Math_round. rewrite Qfloor_half. reflexivity. Qed.

Lemma Math_round_compat (v w : number) : v == w -> Math_round v = Math_round w.
Proof. intros H. unfold Math_round. rewrite H. reflexivity. Qed.

Lemma snapCoordinate_idempotent (cell v : number) :
  ~ cell == 0 ->
  snapCoordinate cell (snapCoordinate cell v) = snapCoordinate cell v.
Proof.
  intros Hcell. unfold snapCoordinate.
  set (n := Qfloor (v / cell + (1 # 2))).
  change (Math_round (v / cell)) with (inject_Z n).
  rewrite (Math_round_compat (inject_Z n * cell / cell) (inject_Z n))
    by (field; exact Hcell).
  rewrite Math_round_integer. reflexivity.
Qed.

Lemma gridSize_nonzero : ~ gridSize == 0.
Proof. unfold gridSize. intros H. discriminate H. Qed.

(** C9.  Snapping is idempotent: for every cell size other than zero and
    every coordinate, [Math.round (v / cell) * cell] applied twice is the
    same as applied once; [snapToGrid], which uses the cell size 20,
    returns its own result unchanged whether grid snap is on or off, and is
    the identity when it is off. *)
Theorem snap_idempotent (cell : number) (c : State) (x y : number) :
  ~ cell == 0 ->
  snapCoordinate cell (snapCoordinate cell x) = snapCoordinate cell x
  /\ snapToGrid c (Point.x (snapToGrid c x y)) (Point.y (snapToGrid c x y))
     = snapToGrid c x y
  /\ snapToGrid (setGridSnap (val false) c) x y = Point.mk x y.
Proof.
  intros Hcell. split; [ apply snapCoordinate_idempotent; exact Hcell | ].
  split; [ | reflexivity ].
  unfold snapToGrid. destruct (gridSnap c); simpl; [ | reflexivity ].
  rewrite !(snapCoordinate_idempotent gridSize) by exact gridSize_nonzero.
  reflexivity.
Qed.

(** Cell size 20, the point (7, 33). *)
Lemma snap_idempotent_witness :
  snapCoordinate 20 (snapCoordinate 20 7) = snapCoordinate 20 7
  /\ snapToGrid (setGridSnap (val true) initialState)
       (Point.x (snapToGrid (setGridSnap (val true) initialState) 7 33))
       (Point.y (snapToGrid (setGridSnap (val true) initialState) 7 33))
     = snapToGrid (setGridSnap (val true) initialState) 7 33
  /\ snapToGrid (setGridSnap (val false) (setGridSnap (val true) initialState))
                7 33
     = Point.mk 7 33.
Proof.
  apply (snap_idempotent 20 (setGridSnap (val true) initialState) 7 33).
  intros H. discriminate H.
Defined.
(** ** The viewport *)

Lemma transformCoordinates_screenToWorld (env : Env) (c : State)
  (rect : DOMRect.t) (clientX clientY : number) :
  canvas env = Some rect ->
  transformCoordinates env c clientX clientY
  = snapToGrid c
      (Point.x (screenToWorld c (clientX - DOMRect.left rect)
                              (clientY - DOMRect.top rect)))
      (Point.y (screenToWorld c (clientX - DOMRect.left rect)
                              (clientY - DOMRect.top rect))).
Proof. intros H. unfold transformCoordinates. rewrite H. reflexivity. Qed.

Lemma clamp_in_range (z : number) : zoomInRange (Qmax (1 # 10) (Qmin 10 z)).
Proof.
  split.
  - apply Q.le_max_l.
  - apply Q.max_lub.
    + discriminate.
    + apply Q.le_min_l.
Qed.

(** The state after [handleZoom] on a mounted canvas. *)
Lemma handleZoom_mounted (env : Env) (rect : DOMRect.t) (delta : number)
  (clientX clientY : option number) (c p : State) :
  canvas env = Some rect ->
  let mouseX :=
    match clientX with Some v => v | None => DOMRect.width rect / 2 end in
  let mouseY :=
    match clientY with Some v => v | None => DOMRect.height rect / 2 end in
  let newZoom := Qmax (1 # 10) (Qmin 10 (zoom c + delta)) in
  handleZoom env delta clientX clientY c p
  = setPanOffset
      (val (Point.mk
              (mouseX - Point.x (screenToWorld c mouseX mouseY) * newZoom)
              (mouseY - Point.y (screenToWorld c mouseX mouseY) * newZoom)))
      (setZoom (val newZoom) p).
Proof. intros H. unfold handleZoom. rewrite H. reflexivity. Qed.

Lemma handleZoom_unmounted (env : Env) (delta : number)
  (clientX clientY : option number) (c p : State) :
  canvas env = None -> handleZoom env delta clientX clientY c p = p.
Proof. intros H. unfold handleZoom. rewrite H. reflexivity. Qed.

Lemma anchor_arithmetic (mouse world newZoom : Q) :
  ~ newZoom == 0 -> (mouse - (mouse - world * newZoom)) / newZoom == world.
Proof. intros H. field. exact H. Qed.

(** C4.  Zooming about a screen point keeps the world point under it: for
    a zoom in [0.1, 10], any pan, any delta and any screen point, the
    world point under the point after [handleZoom] anchored there is the
    one before, exactly so in rational arithmetic. *)
Theorem zoom_anchoring (env : Env) (s : State) (delta mouseX mouseY : number) :
  1 # 10 <= zoom s ->
  zoom s <= 10 ->
  let s' := dispatch (handleZoom env delta (Some mouseX) (Some mouseY)) s in
  Point.x (screenToWorld s' mouseX mouseY)
  == Point.x (screenToWorld s mouseX mouseY)
  /\ Point.y (screenToWorld s' mouseX mouseY)
     == Point.y (screenToWorld s mouseX mouseY).
Proof.
  intros Hlo Hhi s'. subst s'. unfold dispatch.
  destruct (canvas env) as [rect | ] eqn:Hcanvas.
  - rewrite (handleZoom_mounted env rect delta _ _ s s Hcanvas).
    cbn -[Qmax Qmin screenToWorld].
    set (newZoom := Qmax (1 # 10) (Qmin 10 (zoom s + delta))).
    assert (Hnew : ~ newZoom == 0).
    { destruct (clamp_in_range (zoom s + delta)) as [H _].
      fold newZoom in H. lra. }
    split; apply anchor_arithmetic; exact Hnew.
  - rewrite (handleZoom_unmounted env delta _ _ s s Hcanvas).
    split; reflexivity.
Qed.

(** Zoom 1, pan (0, 0), zooming in by 0.2 about the screen point
    (300, 200). *)
Lemma zoom_anchoring_witness :
  Point.x (screenToWorld
             (dispatch (handleZoom mountedEnv (1 # 5) (Some 300) (Some 200))
                       initialState) 300 200)
  == Point.x (screenToWorld initialState 300 200)
  /\ Point.y (screenToWorld
                (dispatch (handleZoom mountedEnv (1 # 5) (Some 300) (Some 200))
                          initialState) 300 200)
     == Point.y (screenToWorld initialState 300 200).
Proof.
  apply (zoom_anchoring mountedEnv initialState (1 # 5) 300 200).
  - vm_compute. discriminate.
  - vm_compute. discriminate.
Defined.

Lemma snapCoordinate_compat (cell v w : number) :
  v == w -> snapCoordinate cell v = snapCoordinate cell w.
Proof.
  intros H. unfold snapCoordinate.
  rewrite (Math_round_compat (v / cell) (w / cell)); [ reflexivity | ].
  rewrite H. reflexivity.
Qed.

Lemma pointer_arithmetic (client origin pan oldZoom newZoom : Q) :
  origin == 0 ->
  ~ newZoom == 0 ->
  (client - origin - (client - (client - pan) / oldZoom * newZoom)) / newZoom
  == (client - origin - pan) / oldZoom.
Proof.
  intros Horigin Hnew. rewrite Horigin.
  setoid_replace (client - 0 - pan) with (client - pan) by ring.
  set (world := (client - pan) / oldZoom). field. exact Hnew.
Qed.

(** The same for the pointer conversion, [transformCoordinates], when the
    canvas sits at the origin of the viewport: [handleZoom] measures the
    anchor from the viewport, the pointer handlers from the canvas. *)
Lemma zoom_anchoring_pointer (env : Env) (rect : DOMRect.t) (s : State)
  (delta clientX clientY : number) :
  canvas env = Some rect ->
  DOMRect.left rect == 0 ->
  DOMRect.top rect == 0 ->
  let s' := dispatch (handleZoom env delta (Some clientX) (Some clientY)) s in
  Point.x (transformCoordinates env s' clientX clientY)
  == Point.x (transformCoordinates env s clientX clientY)
  /\ Point.y (transformCoordinates env s' clientX clientY)
     == Point.y (transformCoordinates env s clientX clientY).
Proof.
  intros Hcanvas Hleft Htop s'.
  rewrite !(transformCoordinates_screenToWorld env _ rect _ _ Hcanvas).
  set (newZoom := Qmax (1 # 10) (Qmin 10 (zoom s + delta))).
  assert (Hnew : ~ newZoom == 0).
  { destruct (clamp_in_range (zoom s + delta)) as [H _].
    fold newZoom in H. lra. }
  assert (Hs' : s' = setPanOffset
                  (val (Point.mk
                          (clientX - Point.x (screenToWorld s clientX clientY)
                                     * newZoom)
                          (clientY - Point.y (screenToWorld s clientX clientY)
                                     * newZoom)))
                  (setZoom (val newZoom) s))
    by (exact (handleZoom_mounted env rect delta (Some clientX) (Some clientY)
                                  s s Hcanvas)).
  assert (Hx : Point.x (screenToWorld s' (clientX - DOMRect.left rect)
                                      (clientY - DOMRect.top rect))
               == Point.x (screenToWorld s (clientX - DOMRect.left rect)
                                         (clientY - DOMRect.top rect))).
  { rewrite Hs'. apply pointer_arithmetic; assumption. }
  assert (Hy : Point.y (screenToWorld s' (clientX - DOMRect.left rect)
                                      (clientY - DOMRect.top rect))
               == Point.y (screenToWorld s (clientX - DOMRect.left rect)
                                         (clientY - DOMRect.top rect))).
  { rewrite Hs'. apply pointer_arithmetic; assumption. }
  assert (Hsnap : gridSnap s' = gridSnap s) by (rewrite Hs'; reflexivity).
  unfold snapToGrid. rewrite Hsnap.
  destruct (gridSnap s); cbn [negb Point.x Point.y].
  - rewrite (snapCoordinate_compat gridSize _ _ Hx),
            (snapCoordinate_compat gridSize _ _ Hy).
    split; reflexivity.
  - split; assumption.
Qed.

(** ** The zoom invariant *)

Lemma handleZoom_zoom (env : Env) (delta : number)
  (clientX clientY : option number) (c p : State) :
  zoomInRange (zoom p) ->
  zoomInRange (zoom (handleZoom env delta clientX clientY c p)).
Proof.
  intros Hp. unfold handleZoom. destruct (canvas env); [ | exact Hp ].
  apply clamp_in_range.
Qed.

Lemma resetView_zoom (p : State) : zoomInRange (zoom (resetView p)).
Proof. split; discriminate. Qed.

Section ZoomInvariant.
Context {M : JSMath}.

Lemma startDrawing_zoom (env : Env) (e : MouseEvent.t) (c p s' : State) :
  startDrawing env e c p = Some s' -> zoom s' = zoom p.
Proof.
  unfold startDrawing, grabElement, eraseElements, beginShape.
  intros H. break_hyp H; inversion H; subst; reflexivity.
Qed.

Lemma draw_zoom (env : Env) (e : MouseEvent.t) (c p s' : State) :
  draw env e c p = Some s' -> zoom s' = zoom p.
Proof.
  unfold draw.
  intros H. break_hyp H; inversion H; subst; reflexivity.
Qed.

Lemma finishDrawing_zoom (env : Env) (e : MouseEvent.t) (c p : State) :
  zoom (finishDrawing env e c p) = zoom p.
Proof.
  unfold finishDrawing, finishBoxSelect, commitDrawing, andThen.
  break_goal; reflexivity.
Qed.

Lemma pasteElements_zoom (env : Env) (x y : option number) (c p : State) :
  zoom (pasteElements env x y c p) = zoom p.
Proof. unfold pasteElements. break_goal; reflexivity. Qed.

Lemma handleCanvasContextMenu_zoom (env : Env) (e : MouseEvent.t)
  (c p : State) :
  zoom (handleCanvasContextMenu env e c p) = zoom p.
Proof.
  unfold handleCanvasContextMenu, pasteElements. break_goal; reflexivity.
Qed.

Lemma addTextToCanvas_zoom (env : Env) (c p : State) :
  zoom (addTextToCanvas env c p) = zoom p.
Proof. unfold addTextToCanvas, andThen. break_goal; reflexivity. Qed.

Lemma handleToolChange_zoom (newTool : Tool) (c p : State) :
  zoom (handleToolChange newTool c p) = zoom p.
Proof. unfold handleToolChange, andThen. break_goal; reflexivity. Qed.

Lemma transformSelected_zoom (f : DrawingElement -> DrawingElement)
  (c p : State) :
  zoom (transformSelected f c p) = zoom p.
Proof. unfold transformSelected. break_goal; reflexivity. Qed.

Lemma undo_zoom (c p s' : State) : undo c p = Some s' -> zoom s' = zoom p.
Proof. unfold undo. intros H. break_hyp H; inversion H; subst; reflexivity. Qed.

Lemma redo_zoom (c p s' : State) : redo c p = Some s' -> zoom s' = zoom p.
Proof. unfold redo. intros H. break_hyp H; inversion H; subst; reflexivity. Qed.

Lemma handleWheel_zoom (env : Env) (e : WheelEvent.t) (c p : State) :
  zoomInRange (zoom p) -> zoomInRange (zoom (handleWheel env e c p)).
Proof.
  intros Hp. unfold handleWheel. destruct (WheelEvent.ctrlKey e).
  - apply handleZoom_zoom. exact Hp.
  - exact Hp.
Qed.

Lemma handleKeyDown_zoom (env : Env) (e : KeyboardEvent.t) (c p s' : State) :
  zoomInRange (zoom p) ->
  handleKeyDown env e c p = Some s' ->
  zoomInRange (zoom s').
Proof.
  intros Hp H.
  unfold handleKeyDown, andThenP in H. cbv zeta in H.
  match type of H with
  | match ?shortcut with _ => _ end = _ =>
      destruct shortcut as [q | ] eqn:Hshortcut; [ | discriminate H ]
  end.
  assert (Hq : zoomInRange (zoom q)).
  { unfold copyElements, pasteElements, selectAll, duplicateElements,
      undo, redo in Hshortcut.
    break_hyp Hshortcut; inversion Hshortcut; subst;
      try exact Hp;
      try (exact (handleZoom_zoom env _ None None c p Hp));
      exact (resetView_zoom p). }
  inversion H. subst s'. clear H Hshortcut.
  unfold deleteSelectedElements, andThen.
  break_goal; exact Hq.
Qed.

Lemma step_zoom (env : Env) (ev : Event) (s s' : State) :
  zoomInRange (zoom s) -> step env ev s = Some s' -> zoomInRange (zoom s').
Proof.
  intros Hs H. destruct ev; simpl in H.
  - rewrite (startDrawing_zoom _ _ _ _ _ H). exact Hs.
  - rewrite (draw_zoom _ _ _ _ _ H). exact Hs.
  - inversion H. rewrite finishDrawing_zoom. exact Hs.
  - inversion H. rewrite finishDrawing_zoom. exact Hs.
  - inversion H. rewrite handleCanvasContextMenu_zoom. exact Hs.
  - inversion H. apply handleWheel_zoom. exact Hs.
  - exact (handleKeyDown_zoom _ _ _ _ _ Hs H).
  - inversion H. rewrite handleToolChange_zoom. exact Hs.
  - inversion H. unfold copyElements. break_goal; exact Hs.
  - inversion H. destruct (noSelection s); [ exact Hs | ].
    unfold rotateSelectedElements. rewrite transformSelected_zoom. exact Hs.
  - inversion H. destruct (noSelection s); [ exact Hs | ].
    unfold flipSelectedElementsHorizontal. rewrite transformSelected_zoom.
    exact Hs.
  - inversion H. destruct (noSelection s); [ exact Hs | ].
    unfold flipSelectedElementsVertical. rewrite transformSelected_zoom.
    exact Hs.
  - inversion H. exact Hs.
  - destruct (historyIndex s <=? 0)%nat.
    + inversion H. subst. exact Hs.
    + rewrite (undo_zoom _ _ _ H). exact Hs.
  - destruct (List.length (history s) - 1 <=? historyIndex s)%nat.
    + inversion H. subst. exact Hs.
    + rewrite (redo_zoom _ _ _ H). exact Hs.
  - inversion H. apply handleZoom_zoom. exact Hs.
  - inversion H. apply handleZoom_zoom. exact Hs.
  - inversion H. apply resetView_zoom.
  - inversion H. exact Hs.
  - inversion H. exact Hs.
  - inversion H. exact Hs.
  - inversion H. subst. exact Hs.
  - inversion H. exact Hs.
  - break_hyp H; inversion H; subst; try exact Hs.
    rewrite addTextToCanvas_zoom. exact Hs.
  - inversion H. rewrite addTextToCanvas_zoom. exact Hs.
Qed.

(** C8.  The zoom stays in [0.1, 10], and so is never zero, in every state
    of the component: after any sequence of events, among them the zoom
    buttons, the wheel, the keyboard shortcuts (run from any render) and
    the view resets, and of calls of [handleZoom] with any delta. *)
Theorem zoom_invariant (s : State) :
  reachable s -> 1 # 10 <= zoom s /\ zoom s <= 10 /\ 0 < zoom s.
Proof.
  intros Hreach.
  assert (Hrange : zoomInRange (zoom s)).
  { induction Hreach as [ | env ev s s' _ IH Hstep
                          | env delta clientX clientY c s _ IH ].
    - split; discriminate.
    - exact (step_zoom env ev s s' IH Hstep).
    - apply handleZoom_zoom. exact IH. }
  destruct Hrange as [Hlo Hhi]. repeat split; [ exact Hlo | exact Hhi | lra ].
Qed.
End ZoomInvariant.

(** Zooming in by 100 from the initial state, after a click on the zoom-out
    button. *)
Lemma zoom_invariant_witness :
  let s :=
    handleZoom mountedEnv 100 None None initialState
      (handleZoom mountedEnv (- (1 # 5)) None None initialState initialState) in
  zoom s == 10 /\ 1 # 10 <= zoom s /\ zoom s <= 10 /\ 0 < zoom s.
Proof.
  split; [ vm_compute; reflexivity | ].
  apply zoom_invariant.
  apply reachable_zoom.
  apply (reachable_step mountedEnv ClickZoomOut initialState).
  - apply reachable_initial.
  - reflexivity.
Defined.

(** ** Box selection *)

Lemma geb_iff (a b : number) : geb a b = true <-> b <= a.
Proof. unfold geb. apply Qle_bool_iff. Qed.

Lemma leb_iff (a b : number) : leb a b = true <-> a <= b.
Proof. unfold leb. apply Qle_bool_iff. Qed.

Lemma inSelectionBox_shape (box : Box.t) (s : Shape.t) :
  inSelectionBox box (EShape s) = true
  <-> Qmin (Box.startX box) (Box.endX box)
      <= Qmin (Shape.startX s) (Shape.endX s)
      /\ Qmax (Shape.startX s) (Shape.endX s)
         <= Qmax (Box.startX box) (Box.endX box)
      /\ Qmin (Box.startY box) (Box.endY box)
         <= Qmin (Shape.startY s) (Shape.endY s)
      /\ Qmax (Shape.startY s) (Shape.endY s)
         <= Qmax (Box.startY box) (Box.endY box).
Proof.
  unfold inSelectionBox.
  rewrite !andb_true_iff, !geb_iff, !leb_iff. tauto.
Qed.

Lemma inSelectionBox_text (box : Box.t) (t : TextElement.t) :
  inSelectionBox box (EText t) = true
  <-> Qmin (Box.startX box) (Box.endX box) <= TextElement.x t
      /\ TextElement.x t <= Qmax (Box.startX box) (Box.endX box)
      /\ Qmin (Box.startY box) (Box.endY box) <= TextElement.y t
      /\ TextElement.y t <= Qmax (Box.startY box) (Box.endY box).
Proof.
  unfold inSelectionBox.
  rewrite !andb_true_iff, !geb_iff, !leb_iff. tauto.
Qed.

(** The selection after a pointer-up that ends a box selection without the
    multi-select modifier. *)
Lemma finishDrawing_box_select (env : Env) (e : MouseEvent.t) (c p : State)
  (box : Box.t) :
  isPanning c = false ->
  tool c = tool_select ->
  isSelecting c = true ->
  selectionBox c = Some box ->
  MouseEvent.ctrlKey e = false ->
  MouseEvent.metaKey e = false ->
  selectedElements (finishDrawing env e c p)
  = filter (inSelectionBox box) (elements c).
Proof.
  intros Hpan Htool Hsel Hbox Hctrl Hmeta.
  unfold finishDrawing, finishBoxSelect, commitDrawing, andThen.
  rewrite Hpan, Htool, Hsel, Hbox, Hctrl, Hmeta. cbn [orb].
  break_goal; reflexivity.
Qed.

(** C6, as amended.  At the pointer-up of a box selection made without the
    multi-select modifier, a line, rectangle or circle of the store is
    selected exactly when the rectangle spanned by its start and end points
    lies inside the normalized selection rectangle, and a text exactly when
    its anchor point does.  Pen strokes are left out of the statement. *)
Theorem box_select_containment (env : Env) (e : MouseEvent.t) (c : State)
  (box : Box.t) (el : DrawingElement) :
  isPanning c = false ->
  tool c = tool_select ->
  isSelecting c = true ->
  selectionBox c = Some box ->
  MouseEvent.ctrlKey e = false ->
  MouseEvent.metaKey e = false ->
  isStroke el = false ->
  In el (selectedElements (dispatch (finishDrawing env e) c))
  <-> In el (elements c) /\ insideSelection box el.
Proof.
  intros Hpan Htool Hsel Hbox Hctrl Hmeta _. unfold dispatch.
  rewrite (finishDrawing_box_select env e c c box Hpan Htool Hsel Hbox
                                    Hctrl Hmeta).
  rewrite filter_In. destruct el as [s | t].
  - rewrite inSelectionBox_shape. reflexivity.
  - rewrite inSelectionBox_text. reflexivity.
Qed.

(** [smallRect] is selected by the rectangle [0,0]-[30,30] and not by
    [15,15]-[30,30]. *)
Lemma box_select_containment_witness :
  In smallRect
     (selectedElements
        (dispatch (finishDrawing mountedEnv (mouseAt 30 30))
                  (selectingState (Box.mk 0 0 30 30))))
  /\ ~ In smallRect
       (selectedElements
          (dispatch (finishDrawing mountedEnv (mouseAt 30 30))
                    (selectingState (Box.mk 15 15 30 30)))).
Proof.
  split.
  - apply (box_select_containment mountedEnv (mouseAt 30 30)
             (selectingState (Box.mk 0 0 30 30)) (Box.mk 0 0 30 30) smallRect);
      try reflexivity.
    split; [ left; reflexivity | ].
    vm_compute. repeat split; discriminate.
  - intros H.
    apply (box_select_containment mountedEnv (mouseAt 30 30)
             (selectingState (Box.mk 15 15 30 30)) (Box.mk 15 15 30 30)
             smallRect) in H;
      try reflexivity.
    destruct H as [_ [H _]]. vm_compute in H. apply H. reflexivity.
Defined.

(** Counterexample to C6 as stated.  The text is selected at the
    pointer-up although its nominal box, [25,75] by [9,25], is not inside
    the selection rectangle: the code tests the anchor of a text, not its
    box. *)
Lemma box_select_text_by_anchor :
  exists s : State,
    run boxSelectLabel initialState = Some s
    /\ elements s = [labelElement]
    /\ selectionBox s = Some (Box.mk 0 0 30 30)
    /\ In labelElement
          (selectedElements
             (dispatch (finishDrawing mountedEnv (mouseAt 30 30)) s))
    /\ ~ fullyContained (boundingBox labelElement) (Box.mk 0 0 30 30).
Proof.
  eexists. split; [ vm_compute; reflexivity | ].
  split; [ reflexivity | ].
  split; [ reflexivity | ].
  split; [ left; reflexivity | ].
  intros [_ [H _]]. vm_compute in H. apply H. reflexivity.
Qed.

(** ** Where grid snapping is applied *)

Lemma snapCoordinate_onGrid (v : number) : onGrid (snapCoordinate gridSize v).
Proof. exists (Qfloor (v / gridSize + (1 # 2))). reflexivity. Qed.

Lemma snapToGrid_enabled (c : State) (x y : number) :
  gridSnap c = true ->
  snapToGrid c x y
  = Point.mk (snapCoordinate gridSize x) (snapCoordinate gridSize y).
Proof. intros H. unfold snapToGrid. rewrite H. reflexivity. Qed.

Lemma snapToGrid_disabled (c : State) (x y : number) :
  gridSnap c = false -> snapToGrid c x y = Point.mk x y.
Proof. intros H. unfold snapToGrid. rewrite H. reflexivity. Qed.

Lemma snapToGrid_onGrid (c : State) (x y : number) :
  gridSnap c = true -> pointOnGrid (snapToGrid c x y).
Proof.
  intros H. rewrite (snapToGrid_enabled c x y H).
  split; apply snapCoordinate_onGrid.
Qed.

Lemma snapElementToGrid_onGrid (c : State) (el : DrawingElement) :
  gridSnap c = true -> elementOnGrid (snapElementToGrid c el).
Proof.
  intros H. unfold snapElementToGrid. rewrite H. simpl negb. cbv iota.
  destruct el as [s | t].
  - destruct (Shape.points s) as [pts | ] eqn:Hpts; simpl.
    + repeat split; try apply (snapToGrid_onGrid c _ _ H).
      apply Forall_map, Forall_forall. intros point _.
      apply (snapToGrid_onGrid c _ _ H).
    + rewrite Hpts.
      repeat split; apply (snapToGrid_onGrid c _ _ H).
  - simpl. split; apply (snapToGrid_onGrid c _ _ H).
Qed.

Lemma snapElementToGrid_id (c : State) (el : DrawingElement) :
  element_id (snapElementToGrid c el) = element_id el.
Proof.
  unfold snapElementToGrid.
  destruct (gridSnap c), el as [s | t]; simpl; try reflexivity.
  destruct (Shape.points s); reflexivity.
Qed.

Lemma translateElement_id (deltaX deltaY : number) (el : DrawingElement) :
  element_id (translateElement deltaX deltaY el) = element_id el.
Proof. destruct el; reflexivity. Qed.

Lemma moveElement_id (c : State) (deltaX deltaY : number)
  (el : DrawingElement) :
  element_id (moveElement c deltaX deltaY el) = element_id el.
Proof.
  unfold moveElement.
  destruct (someId (selectedElements c) el), (gridSnap c);
    rewrite ?snapElementToGrid_id, ?translateElement_id; reflexivity.
Qed.

Lemma someId_by_id (selection : list DrawingElement)
  (el el' : DrawingElement) :
  element_id el = element_id el' -> someId selection el = someId selection el'.
Proof. intros H. unfold someId. rewrite H. reflexivity. Qed.

(** A selected element after one step of a move with grid snap on. *)
Lemma moveElement_onGrid (c : State) (deltaX deltaY : number)
  (el : DrawingElement) :
  gridSnap c = true ->
  someId (selectedElements c) (moveElement c deltaX deltaY el) = true ->
  elementOnGrid (moveElement c deltaX deltaY el).
Proof.
  intros Hsnap Hsel.
  rewrite (someId_by_id _ _ el (moveElement_id c deltaX deltaY el)) in Hsel.
  unfold moveElement. rewrite Hsel, Hsnap.
  apply snapElementToGrid_onGrid. exact Hsnap.
Qed.

Section Resize.
Context {M : JSMath}.

Lemma resizeElement_id (c : State) (x y : number) (handle : Handle)
  (el : DrawingElement) :
  element_id (resizeElement c x y handle el) = element_id el.
Proof.
  unfold resizeElement, resizeBox, resizeCircle.
  destruct el as [s | t]; [ | reflexivity ].
  destruct (someId (selectedElements c) (EShape s)); [ | reflexivity ].
  destruct (Shape.type s), (gridSnap c), handle; reflexivity.
Qed.

(** A selected line or rectangle after one step of a resize with grid snap
    on. *)
Lemma resizeElement_onGrid (c : State) (x y : number) (handle : Handle)
  (el : DrawingElement) :
  gridSnap c = true ->
  someId (selectedElements c) (resizeElement c x y handle el) = true ->
  isBoxShape (resizeElement c x y handle el) = true ->
  cornersOnGrid (resizeElement c x y handle el).
Proof.
  intros Hsnap Hsel Hbox.
  rewrite (someId_by_id _ _ el (resizeElement_id c x y handle el)) in Hsel.
  unfold resizeElement in *.
  destruct el as [s | t]; [ | discriminate Hbox ].
  rewrite Hsel in *.
  destruct (Shape.type s) eqn:Htype.
  - simpl in Hbox. rewrite Htype in Hbox. discriminate Hbox.
  - unfold resizeBox. rewrite Hsnap. simpl.
    repeat split; apply (snapToGrid_onGrid c _ _ Hsnap).
  - unfold resizeBox. rewrite Hsnap. simpl.
    repeat split; apply (snapToGrid_onGrid c _ _ Hsnap).
  - unfold resizeCircle in Hbox. destruct handle; simpl in Hbox;
      rewrite Htype in Hbox; discriminate Hbox.
Qed.
End Resize.
Lemma lastOf_snoc {A : Type} (l : list A) (a : A) : lastOf (l ++ [a]) = Some a.
Proof.
  unfold lastOf. rewrite length_app. simpl.
  rewrite nth_error_app2 by lia.
  replace (List.length l + 1 - 1 - List.length l)%nat with 0%nat by lia.
  reflexivity.
Qed.

Lemma mapi_from_length {A B : Type} (f : A -> nat -> B) (l : list A) :
  forall index, List.length (mapi_from f index l) = List.length l.
Proof.
  induction l as [ | a l IH ]; intros index; simpl; [ | rewrite IH ];
    reflexivity.
Qed.

Lemma mapi_from_Forall {A B : Type} (f : A -> nat -> B) (P : B -> Prop)
  (l : list A) :
  (forall a index, P (f a index)) ->
  forall index, Forall P (mapi_from f index l).
Proof.
  intros H. induction l as [ | a l IH ]; intros index; simpl; constructor.
  - apply H.
  - apply IH.
Qed.

Section SnappingSites.
Context {M : JSMath}.

(** The draw commit of [finishDrawing] with grid snap on: the last element
    is replaced by its snapped version. *)
Lemma finishDrawing_snaps_last (env : Env) (e : MouseEvent.t) (c p : State)
  (last : DrawingElement) :
  gridSnap c = true ->
  isPanning c = false ->
  isDrawing c = true ->
  lastOf (elements c) = Some last ->
  elements (finishDrawing env e c p)
  = removelast (elements p) ++ [snapElementToGrid c last].
Proof.
  intros Hsnap Hpan Hdraw Hlast.
  unfold finishDrawing, finishBoxSelect, commitDrawing, andThen.
  rewrite Hpan, Hdraw, Hsnap, Hlast.
  break_goal; reflexivity.
Qed.

(** One step of a move drag. *)
Lemma draw_move (env : Env) (rect : DOMRect.t) (e : MouseEvent.t)
  (c p : State) (moving : Shape.t) :
  ctx env = true ->
  canvas env = Some rect ->
  isPanning c = false ->
  isSelecting c = false ->
  tool c = tool_move \/ tool c = tool_select ->
  resizeHandle c = None ->
  movingElement c = Some (EShape moving) ->
  selectedElements c <> [] ->
  exists (deltaX deltaY : number) (s' : State),
    draw env e c p = Some s'
    /\ elements s' = map (moveElement c deltaX deltaY) (elements p).
Proof.
  intros Hctx Hcanvas Hpan Hselecting Htool Hhandle Hmoving Hsel.
  unfold draw. rewrite Hctx, Hcanvas, Hpan, Hselecting, Hhandle, Hmoving.
  destruct (selectedElements c) as [ | sel rest ]; [ contradiction | ].
  destruct Htool as [Htool | Htool]; rewrite Htool;
    do 3 eexists; split; reflexivity.
Qed.

(** One step of a resize drag. *)
Lemma draw_resize (env : Env) (rect : DOMRect.t) (e : MouseEvent.t)
  (c p : State) (handle : Handle) :
  ctx env = true ->
  canvas env = Some rect ->
  isPanning c = false ->
  isSelecting c = false ->
  tool c = tool_move \/ tool c = tool_select ->
  resizeHandle c = Some handle ->
  selectedElements c <> [] ->
  exists (x y : number) (s' : State),
    draw env e c p = Some s'
    /\ elements s' = map (resizeElement c x y handle) (elements p).
Proof.
  intros Hctx Hcanvas Hpan Hselecting Htool Hhandle Hsel.
  unfold draw. rewrite Hctx, Hcanvas, Hpan, Hselecting, Hhandle.
  destruct (selectedElements c) as [ | sel rest ]; [ contradiction | ].
  destruct Htool as [Htool | Htool]; rewrite Htool;
    do 3 eexists; split; reflexivity.
Qed.

Lemma pastedElement_onGrid (env : Env) (c : State) (pasteX pasteY : number)
  (element : DrawingElement) (index : nat) :
  gridSnap c = true ->
  elementOnGrid (pastedElement env c pasteX pasteY element index).
Proof.
  intros Hsnap. unfold pastedElement. rewrite Hsnap.
  apply snapElementToGrid_onGrid. exact Hsnap.
Qed.

Lemma pasteElements_fields (env : Env) (x y : option number) (c p : State) :
  copiedElements c <> [] ->
  exists pasteX pasteY : number,
    let pasted :=
      mapi (pastedElement env c pasteX pasteY) (copiedElements c) in
    elements (pasteElements env x y c p) = elements p ++ pasted
    /\ selectedElements (pasteElements env x y c p) = pasted.
Proof.
  intros Hclip. unfold pasteElements.
  destruct (copiedElements c) as [ | el rest ]; [ contradiction | ].
  do 2 eexists. split; reflexivity.
Qed.

(** C3, as amended.  On a mounted canvas the conversion of a pointer
    position, [transformCoordinates], returns the world point under the
    pointer when grid snap is off and that point quantized to the grid,
    each coordinate [Math.round (v / 20) * 20], when it is on: every
    pointer handler, hit-testing included, works on the quantized point.
    With grid snap on, snapping is also applied at the commit of a draw
    gesture (the last element is replaced by its snapped version), at every
    step of a move drag (each selected element is on the grid), at every
    step of a resize drag of a line or rectangle (its corners are on the
    grid) and at paste (every pasted element is on the grid). *)
Theorem snapping_sites (env : Env) (rect : DOMRect.t) (c : State) :
  ctx env = true ->
  canvas env = Some rect ->
  (forall clientX clientY : number,
     let world :=
       screenToWorld c (clientX - DOMRect.left rect)
                     (clientY - DOMRect.top rect) in
     (gridSnap c = false ->
      transformCoordinates env c clientX clientY = world)
     /\ (gridSnap c = true ->
         transformCoordinates env c clientX clientY
         = Point.mk (snapCoordinate gridSize (Point.x world))
                    (snapCoordinate gridSize (Point.y world))
         /\ pointOnGrid (transformCoordinates env c clientX clientY)))
  /\ (gridSnap c = true ->
      (forall (e : MouseEvent.t) (last : DrawingElement),
         isPanning c = false ->
         isDrawing c = true ->
         lastOf (elements c) = Some last ->
         lastOf (elements (dispatch (finishDrawing env e) c))
         = Some (snapElementToGrid c last)
         /\ elementOnGrid (snapElementToGrid c last))
      /\ (forall (e : MouseEvent.t) (moving : Shape.t),
            isPanning c = false ->
            isSelecting c = false ->
            tool c = tool_move \/ tool c = tool_select ->
            resizeHandle c = None ->
            movingElement c = Some (EShape moving) ->
            selectedElements c <> [] ->
            exists s' : State,
              draw env e c c = Some s'
              /\ forall el, In el (elements s') ->
                            someId (selectedElements c) el = true ->
                            elementOnGrid el)
      /\ (forall (e : MouseEvent.t) (handle : Handle),
            isPanning c = false ->
            isSelecting c = false ->
            tool c = tool_move \/ tool c = tool_select ->
            resizeHandle c = Some handle ->
            selectedElements c <> [] ->
            exists s' : State,
              draw env e c c = Some s'
              /\ forall el, In el (elements s') ->
                            someId (selectedElements c) el = true ->
                            isBoxShape el = true ->
                            cornersOnGrid el)
      /\ (forall x y : option number,
            copiedElements c <> [] ->
            exists pasted : list DrawingElement,
              elements (dispatch (pasteElements env x y) c)
              = elements c ++ pasted
              /\ selectedElements (dispatch (pasteElements env x y) c) = pasted
              /\ List.length pasted = List.length (copiedElements c)
              /\ Forall elementOnGrid pasted)).
Proof.
  intros Hctx Hcanvas. split.
  - intros clientX clientY world.
    rewrite (transformCoordinates_screenToWorld env c rect _ _ Hcanvas).
    fold world. split.
    + intros Hoff. rewrite (snapToGrid_disabled c _ _ Hoff). reflexivity.
    + intros Hon. split.
      * apply snapToGrid_enabled. exact Hon.
      * apply snapToGrid_onGrid. exact Hon.
  - intros Hsnap. split; [ | split; [ | split ] ].
    + intros e last Hpan Hdraw Hlast. unfold dispatch.
      rewrite (finishDrawing_snaps_last env e c c last Hsnap Hpan Hdraw Hlast).
      split; [ apply lastOf_snoc | ].
      apply snapElementToGrid_onGrid. exact Hsnap.
    + intros e moving Hpan Hselecting Htool Hhandle Hmoving Hsel.
      destruct (draw_move env rect e c c moving Hctx Hcanvas Hpan Hselecting
                          Htool Hhandle Hmoving Hsel)
        as (deltaX & deltaY & s' & Hdraw & Hel).
      exists s'. split; [ exact Hdraw | ].
      intros el Hin Hselected. rewrite Hel in Hin.
      apply in_map_iff in Hin. destruct Hin as (el0 & <- & _).
      apply moveElement_onGrid; assumption.
    + intros e handle Hpan Hselecting Htool Hhandle Hsel.
      destruct (draw_resize env rect e c c handle Hctx Hcanvas Hpan Hselecting
                            Htool Hhandle Hsel)
        as (x & y & s' & Hdraw & Hel).
      exists s'. split; [ exact Hdraw | ].
      intros el Hin Hselected Hbox. rewrite Hel in Hin.
      apply in_map_iff in Hin. destruct Hin as (el0 & <- & _).
      apply resizeElement_onGrid; assumption.
    + intros x y Hclip. unfold dispatch.
      destruct (pasteElements_fields env x y c c Hclip)
        as (pasteX & pasteY & Hel & Hsel).
      eexists. split; [ exact Hel | ]. split; [ exact Hsel | ]. split.
      * apply mapi_from_length.
      * apply mapi_from_Forall. intros a index.
        apply pastedElement_onGrid. exact Hsnap.
Qed.
End SnappingSites.

(** The pointer at (7, 33) is converted to (0, 40), and a paste at (7, 33)
    puts its copy on the grid. *)
Lemma snapping_sites_witness :
  transformCoordinates mountedEnv snapState 7 33 = Point.mk 0 40
  /\ exists pasted : list DrawingElement,
       elements (dispatch (pasteElements mountedEnv (Some 7) (Some 33))
                          snapState)
       = elements snapState ++ pasted
       /\ selectedElements
            (dispatch (pasteElements mountedEnv (Some 7) (Some 33)) snapState)
          = pasted
       /\ List.length pasted = List.length (copiedElements snapState)
       /\ Forall elementOnGrid pasted.
Proof.
  destruct (snapping_sites mountedEnv (DOMRect.mk 0 0 800 600) snapState
                           eq_refl eq_refl) as [Hconversion Hsites].
  split.
  - destruct (Hconversion 7 33) as [_ Hon].
    destruct (Hon eq_refl) as [Heq _]. rewrite Heq. vm_compute. reflexivity.
  - destruct (Hsites eq_refl) as (_ & _ & _ & Hpaste).
    apply Hpaste. discriminate.
Defined.

(** Counterexample to C3 as stated.  With grid snap switched on, the
    conversion of the pointer position (7, 33) is (0, 40), not the world
    point (7, 33) under the pointer. *)
Lemma transformCoordinates_quantizes :
  exists s : State,
    run [(mountedEnv, ToggleSnap true)] initialState = Some s
    /\ transformCoordinates mountedEnv s 7 33 = Point.mk 0 40
    /\ screenToWorld s 7 33 = Point.mk 7 33
    /\ ~ Point.x (transformCoordinates mountedEnv s 7 33)
         == Point.x (screenToWorld s 7 33).
Proof.
  eexists. split; [ reflexivity | ].
  split; [ vm_compute; reflexivity | ].
  split; [ vm_compute; reflexivity | ].
  vm_compute. discriminate.
Qed.

(** ** The history cursor *)

Section Cursor.
Context {M : JSMath}.

Lemma saveToHistory_cursor (c p : State) :
  cursorInHistory (saveToHistory c p).
Proof. cursor_done I. Qed.

Lemma undo_cursor (c p q : State) :
  history c = history p -> historyIndex c = historyIndex p ->
  cursorInHistory p -> undo c p = Some q -> cursorInHistory q.
Proof.
  unfold undo, cursorInHistory. intros Hh Hi Hp H.
  destruct (0 <? historyIndex c)%nat; [ | inversion H; subst; exact Hp ].
  destruct (nth_error (history c) (historyIndex c - 1)); inversion H.
  cbn. lia.
Qed.

Lemma redo_cursor (c p q : State) :
  history c = history p -> historyIndex c = historyIndex p ->
  cursorInHistory p -> redo c p = Some q -> cursorInHistory q.
Proof.
  unfold redo, cursorInHistory. intros Hh Hi Hp H.
  destruct (Nat.ltb_spec (historyIndex c) (List.length (history c) - 1));
    [ | inversion H; subst; exact Hp ].
  destruct (nth_error (history c) (historyIndex c + 1)); inversion H.
  cbn. rewrite <- Hh. lia.
Qed.

Lemma startDrawing_cursor (env : Env) (e : MouseEvent.t) (c p q : State) :
  cursorInHistory p -> startDrawing env e c p = Some q -> cursorInHistory q.
Proof.
  unfold startDrawing, grabElement, eraseElements, beginShape.
  intros Hp H. break_hyp H; inversion H; subst; cursor_done Hp.
Qed.

Lemma draw_history (env : Env) (e : MouseEvent.t) (c p q : State) :
  draw env e c p = Some q ->
  history q = history p /\ historyIndex q = historyIndex p.
Proof.
  unfold draw. intros H. break_hyp H; inversion H; subst; split; reflexivity.
Qed.

Lemma finishDrawing_cursor (env : Env) (e : MouseEvent.t) (c p : State) :
  cursorInHistory p -> cursorInHistory (finishDrawing env e c p).
Proof.
  intros Hp. unfold finishDrawing, finishBoxSelect, commitDrawing, andThen.
  break_goal; cursor_done Hp.
Qed.

Lemma handleCanvasContextMenu_cursor (env : Env) (e : MouseEvent.t)
  (c p : State) :
  cursorInHistory p -> cursorInHistory (handleCanvasContextMenu env e c p).
Proof.
  intros Hp. unfold handleCanvasContextMenu, pasteElements.
  break_goal; cursor_done Hp.
Qed.

Lemma addTextToCanvas_cursor (env : Env) (c p : State) :
  cursorInHistory p -> cursorInHistory (addTextToCanvas env c p).
Proof.
  intros Hp. unfold addTextToCanvas, andThen. break_goal; cursor_done Hp.
Qed.

Lemma transformSelected_cursor (f : DrawingElement -> DrawingElement)
  (c p : State) :
  cursorInHistory p -> cursorInHistory (transformSelected f c p).
Proof.
  intros Hp. unfold transformSelected. break_goal; cursor_done Hp.
Qed.

Lemma handleZoom_history (env : Env) (delta : number)
  (clientX clientY : option number) (c p : State) :
  history (handleZoom env delta clientX clientY c p) = history p
  /\ historyIndex (handleZoom env delta clientX clientY c p) = historyIndex p.
Proof. unfold handleZoom. destruct (canvas env); split; reflexivity. Qed.

Lemma handleZoom_cursor (env : Env) (delta : number)
  (clientX clientY : option number) (c p : State) :
  cursorInHistory p ->
  cursorInHistory (handleZoom env delta clientX clientY c p).
Proof.
  intros Hp. unfold cursorInHistory.
  destruct (handleZoom_history env delta clientX clientY c p) as [-> ->].
  exact Hp.
Qed.

Lemma handleKeyDown_cursor (env : Env) (e : KeyboardEvent.t) (c p q : State) :
  history c = history p -> historyIndex c = historyIndex p ->
  cursorInHistory p -> handleKeyDown env e c p = Some q -> cursorInHistory q.
Proof.
  intros Hh Hi Hp H.
  unfold handleKeyDown, andThenP in H. cbv zeta in H.
  match type of H with
  | match ?shortcut with _ => _ end = _ =>
      destruct shortcut as [r | ] eqn:Hshortcut; [ | discriminate H ]
  end.
  assert (Hr : cursorInHistory r).
  { destruct (KeyboardEvent.ctrlKey e || KeyboardEvent.metaKey e);
      [ | inversion Hshortcut; subst; exact Hp ].
    destruct (keyIs e "c");
      [ inversion Hshortcut; unfold copyElements; break_goal; exact Hp | ].
    destruct (keyIs e "v");
      [ inversion Hshortcut; unfold pasteElements; break_goal;
        cursor_done Hp | ].
    destruct (keyIs e "z").
    { destruct (KeyboardEvent.shiftKey e).
      - exact (redo_cursor c p r Hh Hi Hp Hshortcut).
      - exact (undo_cursor c p r Hh Hi Hp Hshortcut). }
    destruct (keyIs e "a"); [ inversion Hshortcut; exact Hp | ].
    destruct (keyIs e "d");
      [ inversion Hshortcut; unfold duplicateElements; break_goal;
        cursor_done Hp | ].
    destruct (keyIs e "0"); [ inversion Hshortcut; exact Hp | ].
    destruct (keyIs e "=" || keyIs e "+");
      [ inversion Hshortcut; apply handleZoom_cursor; exact Hp | ].
    destruct (keyIs e "-");
      [ inversion Hshortcut; apply handleZoom_cursor; exact Hp | ].
    inversion Hshortcut; subst; exact Hp. }
  inversion H. subst q. clear H Hshortcut.
  unfold deleteSelectedElements, andThen.
  break_goal; cursor_done Hr.
Qed.

Lemma step_cursor (env : Env) (ev : Event) (s s' : State) :
  historyCurrent ev s -> cursorInHistory s -> step env ev s = Some s' ->
  cursorInHistory s'.
Proof.
  intros Hev Hs H. destruct ev; simpl in H, Hev;
    try (inversion H; subst; exact Hs).
  - exact (startDrawing_cursor _ _ _ _ _ Hs H).
  - unfold cursorInHistory.
    destruct (draw_history _ _ _ _ _ H) as [-> ->]. exact Hs.
  - inversion H. apply finishDrawing_cursor. exact Hs.
  - inversion H. apply finishDrawing_cursor. exact Hs.
  - inversion H. apply handleCanvasContextMenu_cursor. exact Hs.
  - inversion H. unfold handleWheel.
    destruct (WheelEvent.ctrlKey e); [ apply handleZoom_cursor | ]; exact Hs.
  - destruct Hev as [Hh Hi]. exact (handleKeyDown_cursor _ _ _ _ _ Hh Hi Hs H).
  - inversion H. unfold handleToolChange, andThen. break_goal; exact Hs.
  - inversion H. unfold copyElements. break_goal; exact Hs.
  - inversion H. destruct (noSelection s); [ exact Hs | ].
    apply transformSelected_cursor. exact Hs.
  - inversion H. destruct (noSelection s); [ exact Hs | ].
    apply transformSelected_cursor. exact Hs.
  - inversion H. destruct (noSelection s); [ exact Hs | ].
    apply transformSelected_cursor. exact Hs.
  - destruct (historyIndex s <=? 0)%nat.
    + inversion H. subst. exact Hs.
    + exact (undo_cursor s s s' eq_refl eq_refl Hs H).
  - destruct (List.length (history s) - 1 <=? historyIndex s)%nat.
    + inversion H. subst. exact Hs.
    + exact (redo_cursor s s s' eq_refl eq_refl Hs H).
  - inversion H. apply handleZoom_cursor. exact Hs.
  - inversion H. apply handleZoom_cursor. exact Hs.
  - inversion H. cursor_done Hs.
  - break_hyp H; inversion H; subst; try exact Hs.
    apply addTextToCanvas_cursor. exact Hs.
  - inversion H. apply addTextToCanvas_cursor. exact Hs.
Qed.

Lemma undo_defined (s : State) :
  cursorInHistory s -> exists s1, undo s s = Some s1.
Proof.
  unfold cursorInHistory, undo. intros Hs.
  destruct (Nat.ltb_spec 0 (historyIndex s)); [ | eexists; reflexivity ].
  destruct (nth_error (history s) (historyIndex s - 1)) eqn:Hn;
    [ eexists; reflexivity | ].
  apply nth_error_None in Hn. lia.
Qed.

Lemma redo_defined (s : State) :
  cursorInHistory s -> exists s1, redo s s = Some s1.
Proof.
  unfold cursorInHistory, redo. intros Hs.
  destruct (Nat.ltb_spec (historyIndex s) (List.length (history s) - 1));
    [ | eexists; reflexivity ].
  destruct (nth_error (history s) (historyIndex s + 1)) eqn:Hn;
    [ eexists; reflexivity | ].
  apply nth_error_None in Hn. lia.
Qed.

End Cursor.

(** ** Undo and redo as inverses *)

Lemma run_reachableCurrent {M : JSMath} (trace : list (Env * Event)) :
  noKeyDown trace = true ->
  forall s s', reachableCurrent s -> run trace s = Some s' ->
               reachableCurrent s'.
Proof.
  induction trace as [ | [env ev] rest IH ]; intros Hkeys s s' Hs Hrun.
  - inversion Hrun. subst. exact Hs.
  - simpl in Hkeys, Hrun. apply andb_true_iff in Hkeys.
    destruct Hkeys as [Hev Hrest].
    destruct (step env ev s) as [s1 | ] eqn:Hstep; [ | discriminate Hrun ].
    apply (IH Hrest s1 s'); [ | exact Hrun ].
    apply (reachableCurrent_step env ev s s1 Hs); [ | exact Hstep ].
    destruct ev; try exact I. discriminate Hev.
Qed.

Lemma setHistoryIndex_same (s : State) :
  setHistoryIndex (val (historyIndex s)) s = s.
Proof. destruct s. reflexivity. Qed.

(** X2.  When the cursor is above the oldest snapshot, undo moves it one
    back, and redo called from the render that follows puts back the
    elements and the selection of the snapshot the cursor was at, with the
    cursor where it was and every other field as before the undo. *)
Theorem undo_then_redo (s : State) (snapshot : HistoryState.t) :
  (0 < historyIndex s)%nat ->
  nth_error (history s) (historyIndex s) = Some snapshot ->
  exists s1 : State,
    undo s s = Some s1
    /\ historyIndex s1 = (historyIndex s - 1)%nat
    /\ redo s1 s1 = Some (restored snapshot s).
Proof.
  intros Hpos Hcur.
  assert (Hin : (historyIndex s < List.length (history s))%nat)
    by (apply nth_error_Some; congruence).
  destruct (nth_error (history s) (historyIndex s - 1)) as [prev | ] eqn:Hprev.
  2: { apply nth_error_None in Hprev. lia. }
  unfold undo.
  replace (0 <? historyIndex s)%nat with true
    by (symmetry; apply Nat.ltb_lt; exact Hpos).
  rewrite Hprev.
  eexists. split; [ reflexivity | ]. split; [ reflexivity | ].
  match goal with |- redo ?t _ = _ => set (s1 := t) end.
  assert (Hidx : historyIndex s1 = (historyIndex s - 1)%nat) by reflexivity.
  assert (Hhist : history s1 = history s) by reflexivity.
  unfold redo. rewrite Hidx, Hhist.
  replace (historyIndex s - 1 <? List.length (history s) - 1)%nat with true
    by (symmetry; apply Nat.ltb_lt; lia).
  replace (historyIndex s - 1 + 1)%nat with (historyIndex s) by lia.
  rewrite Hcur. subst s1. destruct s. reflexivity.
Qed.

(** X3.  When there is a snapshot after the cursor, redo moves the cursor
    one forward, and undo called from the render that follows puts back
    the elements and the selection of the snapshot the cursor was at, with
    the cursor where it was and every other field as before the redo. *)
Theorem redo_then_undo (s : State) (snapshot : HistoryState.t) :
  (historyIndex s + 1 < List.length (history s))%nat ->
  nth_error (history s) (historyIndex s) = Some snapshot ->
  exists s1 : State,
    redo s s = Some s1
    /\ historyIndex s1 = (historyIndex s + 1)%nat
    /\ undo s1 s1 = Some (restored snapshot s).
Proof.
  intros Hnext Hcur.
  destruct (nth_error (history s) (historyIndex s + 1)) as [next | ] eqn:Hn.
  2: { apply nth_error_None in Hn. lia. }
  unfold redo.
  replace (historyIndex s <? List.length (history s) - 1)%nat with true
    by (symmetry; apply Nat.ltb_lt; lia).
  rewrite Hn.
  eexists. split; [ reflexivity | ]. split; [ reflexivity | ].
  match goal with |- undo ?t _ = _ => set (s1 := t) end.
  assert (Hidx : historyIndex s1 = (historyIndex s + 1)%nat) by reflexivity.
  assert (Hhist : history s1 = history s) by reflexivity.
  unfold undo. rewrite Hidx, Hhist.
  replace (0 <? historyIndex s + 1)%nat with true
    by (symmetry; apply Nat.ltb_lt; lia).
  replace (historyIndex s + 1 - 1)%nat with (historyIndex s) by lia.
  rewrite Hcur. subst s1. destruct s. reflexivity.
Qed.

(** [undo] in the render after a commit made from a synchronised state. *)
Lemma undo_after_commit (c p : State) :
  synchronised c ->
  exists s2 : State,
    undo (saveToHistory c p) (saveToHistory c p) = Some s2
    /\ elements s2 = elements c
    /\ selectedElements s2 = selectedElements c
    /\ historyIndex s2 = historyIndex c.
Proof.
  unfold synchronised. intros Hsync.
  assert (Hin : (historyIndex c < List.length (history c))%nat)
    by (apply nth_error_Some; congruence).
  set (q := saveToHistory c p).
  assert (Hq : historyIndex q = (historyIndex c + 1)%nat).
  { subst q. rewrite saveToHistory_fields. cbn.
    rewrite length_app, length_firstn. simpl. lia. }
  assert (Hh : history q
               = firstn (historyIndex c + 1) (history c)
                 ++ [HistoryState.mk (elements c) (selectedElements c)])
    by reflexivity.
  unfold undo. rewrite Hq, Hh.
  replace (0 <? historyIndex c + 1)%nat with true
    by (symmetry; apply Nat.ltb_lt; lia).
  replace (historyIndex c + 1 - 1)%nat with (historyIndex c) by lia.
  rewrite nth_error_app1 by (rewrite length_firstn; lia).
  rewrite nth_error_firstn.
  replace (historyIndex c <? historyIndex c + 1)%nat with true
    by (symmetry; apply Nat.ltb_lt; lia).
  rewrite Hsync. eexists. split; [ reflexivity | ].
  repeat split.
Qed.

(** X4.  From a state whose elements and selection are the snapshot at the
    cursor, each committing command (clear, delete selection, duplicate,
    paste, rotate, flip horizontally, flip vertically, erase at a point)
    either leaves the state as it is or is taken back by one undo: the
    elements, the selection and the cursor are those before the command. *)
Theorem undo_after_command {M : JSMath} (env : Env) (x y : number)
  (pasteX pasteY : option number) (h : Handler) (s : State) :
  synchronised s ->
  In h (committingCommands env x y pasteX pasteY) ->
  h s s = s
  \/ exists s2 : State,
       undo (h s s) (h s s) = Some s2
       /\ elements s2 = elements s
       /\ selectedElements s2 = selectedElements s
       /\ historyIndex s2 = historyIndex s.
Proof.
  intros Hsync Hin. simpl in Hin.
  assert (Hcommit : forall f : State -> State,
            exists s2 : State,
              undo ((f ;; saveToHistory s) s) ((f ;; saveToHistory s) s)
              = Some s2
              /\ elements s2 = elements s
              /\ selectedElements s2 = selectedElements s
              /\ historyIndex s2 = historyIndex s).
  { intros f. unfold andThen. apply undo_after_commit. exact Hsync. }
  destruct Hin as [<- | [<- | [<- | [<- | [<- | [<- | [<- | [<- | []]]]]]]]];
    unfold clearCanvas, deleteSelectedElements, duplicateElements,
      pasteElements, rotateSelectedElements, flipSelectedElementsHorizontal,
      flipSelectedElementsVertical, transformSelected, eraseElements.
  - right. apply Hcommit.
  - destruct (selectedElements s) eqn:E; [ left; reflexivity | right ].
    apply Hcommit.
  - destruct (selectedElements s) eqn:E; [ left; reflexivity | right ].
    apply Hcommit.
  - destruct (copiedElements s) eqn:E; [ left; reflexivity | right ].
    apply Hcommit.
  - destruct (selectedElements s) eqn:E; [ left; reflexivity | right ].
    apply Hcommit.
  - destruct (selectedElements s) eqn:E; [ left; reflexivity | right ].
    apply Hcommit.
  - destruct (selectedElements s) eqn:E; [ left; reflexivity | right ].
    apply Hcommit.
  - destruct (filter (isPointInElement s x y) (rev (elements s)));
      [ left; reflexivity | right ].
    apply Hcommit.
Qed.

(** ** What pointer-up commits and what a pointer move keeps *)

(** X5.  finishDrawing, the handler of pointer-up, commits a snapshot
    exactly when its render was not panning and had isDrawing set: the
    history becomes the snapshots up to the cursor followed by that
    render's elements and selection, and the cursor moves to the new
    snapshot; in every other case the history and the cursor are left as
    they are. *)
Theorem finishDrawing_commit (env : Env) (e : MouseEvent.t) (c p : State) :
  history (finishDrawing env e c p)
  = (if negb (isPanning c) && isDrawing c
     then firstn (historyIndex c + 1) (history c)
          ++ [HistoryState.mk (elements c) (selectedElements c)]
     else history p)
  /\ historyIndex (finishDrawing env e c p)
     = (if negb (isPanning c) && isDrawing c
        then Nat.min (historyIndex c + 1) (List.length (history c))
        else historyIndex p).
Proof.
  unfold finishDrawing, finishBoxSelect, commitDrawing, andThen.
  destruct (isPanning c), (isDrawing c); cbn [negb andb];
    try (break_goal; split; reflexivity).
  break_goal; (split; [ reflexivity | ]); rewrite saveToHistory_fields; cbn;
    apply length_commit.
Qed.

Lemma removelast_lastOf {A : Type} (l : list A) (a : A) :
  lastOf l = Some a -> removelast l ++ [a] = l.
Proof.
  unfold lastOf. intros H.
  destruct l as [ | b l ] using rev_ind; [ discriminate H | ].
  rewrite removelast_last. rewrite length_app in H. simpl in H.
  rewrite nth_error_app2 in H by lia.
  replace (List.length l + 1 - 1 - List.length l)%nat with 0%nat in H by lia.
  simpl in H. inversion H. reflexivity.
Qed.

Lemma map_id_replace_last (l : list DrawingElement) (a a' : DrawingElement) :
  lastOf l = Some a -> element_id a' = element_id a ->
  map element_id (removelast l ++ [a']) = map element_id l.
Proof.
  intros Hlast Hid.
  rewrite <- (removelast_lastOf l a Hlast) at 2.
  rewrite !map_app. simpl. rewrite Hid. reflexivity.
Qed.

Lemma map_id_preserved (f : DrawingElement -> DrawingElement)
  (l : list DrawingElement) :
  (forall el, element_id (f el) = element_id el) ->
  map element_id (map f l) = map element_id l.
Proof.
  intros H. rewrite map_map. apply map_ext. exact H.
Qed.


(** ** Panning, the text input and the zoom bounds *)

(** X7.  A middle-button drag on a mounted canvas (press, one move,
    release) changes the pan offset by exactly the displacement of the
    pointer between press and move, leaves elements, selection, zoom,
    history and cursor unchanged, and ends with panning switched off. *)
Theorem pan_gesture {M : JSMath} (env : Env) (rect : DOMRect.t)
  (down move up : MouseEvent.t) (s : State) :
  ctx env = true ->
  canvas env = Some rect ->
  MouseEvent.button down = 1%nat ->
  exists s1 s2 : State,
    startDrawing env down s s = Some s1
    /\ draw env move s1 s1 = Some s2
    /\ Point.x (panOffset (finishDrawing env up s2 s2))
       == Point.x (panOffset s)
          + (MouseEvent.clientX move - MouseEvent.clientX down)
    /\ Point.y (panOffset (finishDrawing env up s2 s2))
       == Point.y (panOffset s)
          + (MouseEvent.clientY move - MouseEvent.clientY down)
    /\ isPanning (finishDrawing env up s2 s2) = false
    /\ elements (finishDrawing env up s2 s2) = elements s
    /\ selectedElements (finishDrawing env up s2 s2) = selectedElements s
    /\ zoom (finishDrawing env up s2 s2) = zoom s
    /\ history (finishDrawing env up s2 s2) = history s
    /\ historyIndex (finishDrawing env up s2 s2) = historyIndex s.
Proof.
  intros Hctx Hcanvas Hbutton.
  unfold startDrawing. rewrite Hctx, Hcanvas, Hbutton. simpl Nat.eqb. cbv iota.
  eexists. eexists. split; [ reflexivity | ].
  unfold draw. rewrite Hctx, Hcanvas. cbn [isPanning setIsPanning setPanStart
    andThen val]. split; [ reflexivity | ].
  unfold finishDrawing. cbn.
  repeat split; ring.
Qed.

(** X8.  With the text tool, grid snap off and a zoom other than zero, a
    click (not the middle button) opens the text input under the pointer:
    the position the JSX gives the input, textPosition * zoom + panOffset,
    is the click position relative to the canvas, at every zoom and pan;
    no element is added yet. *)
Theorem text_input_under_pointer {M : JSMath} (env : Env) (rect : DOMRect.t)
  (e : MouseEvent.t) (s : State) :
  ctx env = true ->
  canvas env = Some rect ->
  tool s = tool_text ->
  MouseEvent.button e <> 1%nat ->
  gridSnap s = false ->
  ~ zoom s == 0 ->
  exists s1 : State,
    startDrawing env e s s = Some s1
    /\ isAddingText s1 = true
    /\ Point.x (textInputPosition s1)
       == MouseEvent.clientX e - DOMRect.left rect
    /\ Point.y (textInputPosition s1)
       == MouseEvent.clientY e - DOMRect.top rect
    /\ elements s1 = elements s.
Proof.
  intros Hctx Hcanvas Htool Hbutton Hsnap Hzoom.
  unfold startDrawing. rewrite Hctx, Hcanvas, Htool.
  apply Nat.eqb_neq in Hbutton. rewrite Hbutton.
  eexists. split; [ reflexivity | ].
  unfold textInputPosition, transformCoordinates, snapToGrid.
  rewrite Hcanvas, Hsnap. cbn.
  repeat split; field; exact Hzoom.
Qed.

Lemma saturated_arithmetic (mouse pan oldZoom newZoom : Q) :
  ~ oldZoom == 0 -> newZoom == oldZoom ->
  mouse - (mouse - pan) / oldZoom * newZoom == pan.
Proof. intros Hz Heq. rewrite Heq. field. exact Hz. Qed.

(** X9.  At the upper zoom bound 10 a zoom step that is not negative, and
    at the lower bound 0.1 a step that is not positive, changes neither
    the zoom nor the pan offset, whatever the anchor. *)
Theorem zoom_saturates (env : Env) (s : State) (delta : number)
  (clientX clientY : option number) :
  (zoom s == 10 /\ 0 <= delta) \/ (zoom s == 1 # 10 /\ delta <= 0) ->
  let s' := dispatch (handleZoom env delta clientX clientY) s in
  zoom s' == zoom s
  /\ Point.x (panOffset s') == Point.x (panOffset s)
  /\ Point.y (panOffset s') == Point.y (panOffset s).
Proof.
  intros Hlimit s'. subst s'. unfold dispatch.
  destruct (canvas env) as [rect | ] eqn:Hcanvas.
  2: { rewrite (handleZoom_unmounted env delta _ _ s s Hcanvas).
       repeat split; reflexivity. }
  rewrite (handleZoom_mounted env rect delta _ _ s s Hcanvas).
  cbn -[Qmax Qmin].
  set (newZoom := Qmax (1 # 10) (Qmin 10 (zoom s + delta))).
  assert (Hnew : newZoom == zoom s).
  { subst newZoom. destruct Hlimit as [[Hz Hd] | [Hz Hd]].
    - rewrite (Q.min_l 10 (zoom s + delta)) by lra.
      rewrite Q.max_r by lra. symmetry. exact Hz.
    - rewrite (Q.min_r 10 (zoom s + delta)) by lra.
      rewrite Q.max_l by lra. symmetry. exact Hz. }
  assert (Hzoom : ~ zoom s == 0) by (destruct Hlimit as [[Hz _] | [Hz _]]; lra).
  split; [ exact Hnew | ].
  split; apply saturated_arithmetic; assumption.
Qed.

(** ** Draw gestures *)

Section Gesture.
Context {M : JSMath}.
Variables (env : Env) (rect : DOMRect.t).
Hypothesis Hctx : ctx env = true.
Hypothesis Hcanvas : canvas env = Some rect.

Lemma worldOf_drawingFrom (s : State) (type : ShapeType) (q : State)
  (e : MouseEvent.t) :
  drawingFrom s type q -> worldOf env q e = worldOf env s e.
Proof.
  intros (_ & _ & _ & Hz & Hp & Hg & _).
  unfold worldOf, transformCoordinates, snapToGrid.
  rewrite Hz, Hp, Hg. reflexivity.
Qed.

Lemma draw_extends_last (s : State) (type : ShapeType) (q : State)
  (m : MouseEvent.t)
  (base : list DrawingElement) (sh : Shape.t) :
  drawingFrom s type q ->
  elements q = base ++ [EShape sh] ->
  exists q' : State,
    draw env m q q = Some q'
    /\ drawingFrom s type q'
    /\ elements q' = base ++ [EShape (extendLast (worldOf env s m) sh)].
Proof.
  intros Hq Hel.
  assert (Hw := worldOf_drawingFrom s type q m Hq).
  destruct Hq as (Htool & Hpan & Hdraw & Hrest).
  unfold draw. rewrite Hctx, Hcanvas, Hpan, Htool, Hdraw.
  fold (worldOf env q m). rewrite Hw.
  eexists. split.
  - destruct type; reflexivity.
  - split.
    + destruct type; (split; [ exact Htool | ]);
        (split; [ exact Hpan | ]); (split; [ exact Hdraw | ]); exact Hrest.
    + assert (Hgoal :
        (match lastOf (elements q) with
         | Some (EShape lastElement) =>
             match Shape.type lastElement, Shape.points lastElement with
             | pen, Some pts =>
                 removelast (elements q) ++
                 [EShape (Shape.with_points
                            (Some (pts ++ [Point.mk
                                             (Point.x (worldOf env s m))
                                             (Point.y (worldOf env s m))]))
                            lastElement)]
             | _, _ =>
                 removelast (elements q) ++
                 [EShape (Shape.with_end (Point.x (worldOf env s m))
                                         (Point.y (worldOf env s m))
                                         lastElement)]
             end
         | _ => elements q
         end) = base ++ [EShape (extendLast (worldOf env s m) sh)]).
      { rewrite Hel, lastOf_snoc, removelast_last. unfold extendLast.
        destruct (worldOf env s m) as [wx wy]. cbn [Point.x Point.y].
        destruct (Shape.type sh), (Shape.points sh); reflexivity. }
      destruct type; exact Hgoal.
Qed.

Lemma moves_extend_last (s : State) (type : ShapeType)
  (moves : list MouseEvent.t) :
  forall (q : State) (base : list DrawingElement) (sh : Shape.t),
    drawingFrom s type q ->
    elements q = base ++ [EShape sh] ->
    exists q' : State,
      run (map (fun m => (env, MouseMove m)) moves) q = Some q'
      /\ drawingFrom s type q'
      /\ elements q'
         = base ++ [EShape (fold_left (fun acc m =>
                                         extendLast (worldOf env s m) acc)
                                      moves sh)].
Proof.
  induction moves as [ | m rest IH ]; intros q base sh Hq Hel.
  - exists q. repeat split; try apply Hq. exact Hel.
  - destruct (draw_extends_last s type q m base sh Hq Hel)
      as (q1 & Hdraw & Hq1 & Hel1).
    destruct (IH q1 base _ Hq1 Hel1) as (q' & Hrun & Hq' & Hel').
    exists q'. split; [ | split; assumption ].
    simpl. rewrite Hdraw. exact Hrun.
Qed.

Lemma startDrawing_begins (s : State) (type : ShapeType)
  (down : MouseEvent.t) :
  tool s = drawingTool type ->
  MouseEvent.button down <> 1%nat ->
  isPanning s = false ->
  exists q : State,
    startDrawing env down s s = Some q
    /\ drawingFrom s type q
    /\ elements q
       = elements s
         ++ [EShape (newShape env s type (Point.x (worldOf env s down))
                              (Point.y (worldOf env s down)))].
Proof.
  intros Htool Hbutton Hpan.
  unfold startDrawing. rewrite Hctx, Hcanvas, Htool.
  apply Nat.eqb_neq in Hbutton. rewrite Hbutton.
  fold (worldOf env s down).
  destruct type; (eexists; split; [ reflexivity | ]);
    (split; [ repeat split; assumption | reflexivity ]).
Qed.

Lemma fold_with_end (s : State) (moves : list MouseEvent.t) :
  forall sh : Shape.t,
    Shape.points sh = None ->
    fold_left (fun acc m => extendLast (worldOf env s m) acc) moves sh
    = match moves with
      | [] => sh
      | _ :: _ =>
          Shape.with_end
            (Point.x (worldOf env s (last moves (mouseAt 0 0))))
            (Point.y (worldOf env s (last moves (mouseAt 0 0)))) sh
      end.
Proof.
  induction moves as [ | m rest IH ]; intros sh Hpts; [ reflexivity | ].
  simpl fold_left.
  assert (Hstep : extendLast (worldOf env s m) sh
                  = Shape.with_end (Point.x (worldOf env s m))
                                   (Point.y (worldOf env s m)) sh).
  { unfold extendLast. rewrite Hpts. destruct (Shape.type sh); reflexivity. }
  rewrite Hstep, IH by exact Hpts.
  destruct rest as [ | m' rest' ]; reflexivity.
Qed.

Lemma fold_with_points (s : State) (moves : list MouseEvent.t) :
  forall (sh : Shape.t) (pts : list Point.t),
    Shape.type sh = pen ->
    Shape.points sh = Some pts ->
    fold_left (fun acc m => extendLast (worldOf env s m) acc) moves sh
    = Shape.with_points (Some (pts ++ map (worldOf env s) moves)) sh.
Proof.
  induction moves as [ | m rest IH ]; intros sh pts Htype Hpts.
  - simpl. rewrite app_nil_r, <- Hpts. destruct sh. reflexivity.
  - simpl fold_left.
    assert (Hstep : extendLast (worldOf env s m) sh
                    = Shape.with_points (Some (pts ++ [worldOf env s m])) sh).
    { unfold extendLast. rewrite Htype, Hpts. reflexivity. }
    rewrite Hstep,
      (IH (Shape.with_points (Some (pts ++ [worldOf env s m])) sh)
          (pts ++ [worldOf env s m]) Htype eq_refl).
    simpl map. rewrite <- app_assoc. reflexivity.
Qed.

(** X10.  On a mounted canvas, with the line, rectangle or circle tool and
    not panning, a press (not the middle button) followed by any number of
    pointer moves appends exactly one shape to the store: it starts at the
    world point of the press and ends at the world point of the last move
    (of the press when there is no move), has the current line width and
    no path; the selection is cleared, isDrawing is set and nothing is
    committed to the history before the release. *)
Theorem shape_gesture (s : State) (type : ShapeType) (down : MouseEvent.t)
  (moves : list MouseEvent.t) :
  type <> pen ->
  tool s = drawingTool type ->
  MouseEvent.button down <> 1%nat ->
  isPanning s = false ->
  exists s' : State,
    run (gesture env down moves) s = Some s'
    /\ elements s'
       = elements s
         ++ [EShape
               (Shape.mk (dateNow env 0%nat) type
                  (Point.x (worldOf env s down)) (Point.y (worldOf env s down))
                  (Point.x (worldOf env s (last moves down)))
                  (Point.y (worldOf env s (last moves down)))
                  (lineWidth s) None (Some 0) (Some false) (Some false))]
    /\ isDrawing s' = true
    /\ selectedElements s' = []
    /\ history s' = history s
    /\ historyIndex s' = historyIndex s.
Proof.
  intros Htype Htool Hbutton Hpan.
  destruct (startDrawing_begins s type down Htool Hbutton Hpan)
    as (q & Hstart & Hq & Hel).
  destruct (moves_extend_last s _ moves q _ _ Hq Hel)
    as (s' & Hrun & Hs' & Hel').
  exists s'. split; [ unfold gesture; simpl; rewrite Hstart; exact Hrun | ].
  destruct Hs' as (_ & _ & Hdraw & _ & _ & _ & Hsel & Hh & Hi).
  split; [ | repeat split; assumption ].
  rewrite Hel'. f_equal. f_equal. f_equal.
  rewrite (fold_with_end s) by (unfold newShape; destruct type;
                                try reflexivity; contradiction).
  assert (Hlast : forall (m : MouseEvent.t) (rest : list MouseEvent.t),
            last (m :: rest) (mouseAt 0 0) = last (m :: rest) down).
  { intros m rest. revert m.
    induction rest as [ | m' rest IH ]; intros m; [ reflexivity | ].
    exact (IH m'). }
  unfold newShape.
  destruct type; [ contradiction | | | ];
    (destruct moves as [ | m rest ]; [ reflexivity | rewrite Hlast;
                                                      reflexivity ]).
Qed.

(** X11.  On a mounted canvas, with the pen tool and not panning, a press
    (not the middle button) followed by any number of pointer moves
    appends exactly one stroke whose path is the world points of the press
    and of every move, in order; its start and end fields both stay at the
    press point, and nothing is committed to the history before the
    release. *)
Theorem pen_gesture (s : State) (down : MouseEvent.t)
  (moves : list MouseEvent.t) :
  tool s = tool_pen ->
  MouseEvent.button down <> 1%nat ->
  isPanning s = false ->
  exists s' : State,
    run (gesture env down moves) s = Some s'
    /\ elements s'
       = elements s
         ++ [EShape
               (Shape.mk (dateNow env 0%nat) pen
                  (Point.x (worldOf env s down)) (Point.y (worldOf env s down))
                  (Point.x (worldOf env s down)) (Point.y (worldOf env s down))
                  (lineWidth s)
                  (Some (map (worldOf env s) (down :: moves)))
                  (Some 0) (Some false) (Some false))]
    /\ isDrawing s' = true
    /\ history s' = history s
    /\ historyIndex s' = historyIndex s.
Proof.
  intros Htool Hbutton Hpan.
  destruct (startDrawing_begins s pen down Htool Hbutton Hpan)
    as (q & Hstart & Hq & Hel).
  destruct (moves_extend_last s _ moves q _ _ Hq Hel)
    as (s' & Hrun & Hs' & Hel').
  exists s'. split; [ unfold gesture; simpl; rewrite Hstart; exact Hrun | ].
  destruct Hs' as (_ & _ & Hdraw & _ & _ & _ & Hsel & Hh & Hi).
  split; [ | repeat split; assumption ].
  rewrite Hel'. f_equal. f_equal. f_equal.
  rewrite (fold_with_points s moves _ [worldOf env s down]);
    try reflexivity.
  unfold newShape. destruct (worldOf env s down) as [wx wy]. reflexivity.
Qed.
End Gesture.

(** ** Orientation of shapes and priority of handles *)

Lemma geb_compat (a a' b b' : number) :
  a == a' -> b == b' -> geb a b = geb a' b'.
Proof. intros Ha Hb. unfold geb. rewrite Ha, Hb. reflexivity. Qed.

Lemma leb_compat (a a' b b' : number) :
  a == a' -> b == b' -> leb a b = leb a' b'.
Proof. intros Ha Hb. unfold leb. rewrite Ha, Hb. reflexivity. Qed.

Lemma ltb_compat (a a' b b' : number) :
  a == a' -> b == b' -> ltb a b = ltb a' b'.
Proof. intros Ha Hb. unfold ltb. rewrite Ha, Hb. reflexivity. Qed.

(** X12.  Hit-testing and box selection of a line or rectangle do not
    depend on the direction it was drawn in (start and end exchanged), and
    box selection does not depend on the direction the selection box was
    dragged in. *)
Theorem orientation_independent {M : JSMath} (c : State) (x y : number)
  (box : Box.t) (s : Shape.t) :
  Shape.type s = line \/ Shape.type s = rectangle ->
  isPointInElement c x y (EShape (swapEnds s))
  = isPointInElement c x y (EShape s)
  /\ inSelectionBox box (EShape (swapEnds s)) = inSelectionBox box (EShape s)
  /\ inSelectionBox (swapCorners box) (EShape s)
     = inSelectionBox box (EShape s).
Proof.
  intros Htype.
  assert (Hhit : inPaddedBox c x y (swapEnds s) = inPaddedBox c x y s).
  { unfold inPaddedBox, swapEnds. cbn [Shape.startX Shape.startY Shape.endX
      Shape.endY Shape.with_coords].
    rewrite (geb_compat x x (Qmin (Shape.endX s) (Shape.startX s) - 5 / zoom c)
               (Qmin (Shape.startX s) (Shape.endX s) - 5 / zoom c))
      by (try reflexivity; rewrite Q.min_comm; reflexivity).
    rewrite (leb_compat x x (Qmax (Shape.endX s) (Shape.startX s) + 5 / zoom c)
               (Qmax (Shape.startX s) (Shape.endX s) + 5 / zoom c))
      by (try reflexivity; rewrite Q.max_comm; reflexivity).
    rewrite (geb_compat y y (Qmin (Shape.endY s) (Shape.startY s) - 5 / zoom c)
               (Qmin (Shape.startY s) (Shape.endY s) - 5 / zoom c))
      by (try reflexivity; rewrite Q.min_comm; reflexivity).
    rewrite (leb_compat y y (Qmax (Shape.endY s) (Shape.startY s) + 5 / zoom c)
               (Qmax (Shape.startY s) (Shape.endY s) + 5 / zoom c))
      by (try reflexivity; rewrite Q.max_comm; reflexivity).
    reflexivity. }
  split; [ | split ].
  - unfold isPointInElement.
    replace (Shape.type (swapEnds s)) with (Shape.type s) by reflexivity.
    replace (Shape.points (swapEnds s)) with (Shape.points s) by reflexivity.
    destruct Htype as [-> | ->]; exact Hhit.
  - unfold inSelectionBox, swapEnds. cbn [Shape.startX Shape.startY Shape.endX
      Shape.endY Shape.with_coords].
    rewrite (geb_compat (Qmin (Shape.endX s) (Shape.startX s))
               (Qmin (Shape.startX s) (Shape.endX s)) _ _
               (Q.min_comm _ _) (Qeq_refl _)).
    rewrite (leb_compat (Qmax (Shape.endX s) (Shape.startX s))
               (Qmax (Shape.startX s) (Shape.endX s)) _ _
               (Q.max_comm _ _) (Qeq_refl _)).
    rewrite (geb_compat (Qmin (Shape.endY s) (Shape.startY s))
               (Qmin (Shape.startY s) (Shape.endY s)) _ _
               (Q.min_comm _ _) (Qeq_refl _)).
    rewrite (leb_compat (Qmax (Shape.endY s) (Shape.startY s))
               (Qmax (Shape.startY s) (Shape.endY s)) _ _
               (Q.max_comm _ _) (Qeq_refl _)).
    reflexivity.
  - unfold inSelectionBox, swapCorners. cbn [Box.startX Box.startY Box.endX
      Box.endY].
    rewrite (geb_compat _ _ (Qmin (Box.endX box) (Box.startX box))
               (Qmin (Box.startX box) (Box.endX box))
               (Qeq_refl _) (Q.min_comm _ _)).
    rewrite (leb_compat _ _ (Qmax (Box.endX box) (Box.startX box))
               (Qmax (Box.startX box) (Box.endX box))
               (Qeq_refl _) (Q.max_comm _ _)).
    rewrite (geb_compat _ _ (Qmin (Box.endY box) (Box.startY box))
               (Qmin (Box.startY box) (Box.endY box))
               (Qeq_refl _) (Q.min_comm _ _)).
    rewrite (leb_compat _ _ (Qmax (Box.endY box) (Box.startY box))
               (Qmax (Box.startY box) (Box.endY box))
               (Qeq_refl _) (Q.max_comm _ _)).
    reflexivity.
Qed.

Lemma handleAt_compat (x y tolerance : number) (a a' : Point.t)
  (h h' : Handle) :
  Point.x a == Point.x a' -> Point.y a == Point.y a' ->
  handleAt x y tolerance (a, h) = handleAt x y tolerance (a', h').
Proof.
  intros Hx Hy. unfold handleAt. cbn [fst].
  rewrite (ltb_compat (Qabs (x - Point.x a)) (Qabs (x - Point.x a'))
             tolerance tolerance) by (rewrite ?Hx; reflexivity).
  rewrite (ltb_compat (Qabs (y - Point.y a)) (Qabs (y - Point.y a'))
             tolerance tolerance) by (rewrite ?Hy; reflexivity).
  reflexivity.
Qed.

Lemma tolerance_positive (z : number) : 0 < Qmax (8 / z) 4.
Proof.
  apply Qlt_le_trans with 4; [ reflexivity | apply Q.le_max_r ].
Qed.

Lemma handleAt_anchor (x y tolerance : number) (h : Handle) :
  0 < tolerance -> handleAt x y tolerance (Point.mk x y, h) = true.
Proof.
  intros Htol. unfold handleAt, ltb. cbn [fst Point.x Point.y].
  assert (Hzero : forall v : Q, Qle_bool tolerance (Qabs (v - v)) = false).
  { intros v. destruct (Qle_bool tolerance (Qabs (v - v))) eqn:Hle;
      [ | reflexivity ].
    apply Qle_bool_iff in Hle.
    assert (Habs : Qabs (v - v) == 0).
    { setoid_replace (v - v) with 0 by ring. reflexivity. }
    rewrite Habs in Hle. lra. }
  rewrite !Hzero. reflexivity.
Qed.

(** X13.  On a line or rectangle the pointer at the start point always
    gets the handle nw; on a degenerate one (end equal to start)
    getResizeHandle returns nw or nothing at every pointer position. *)
Theorem handle_priority {M : JSMath} (c : State) (x y : number) (s : Shape.t) :
  Shape.type s = line \/ Shape.type s = rectangle ->
  getResizeHandle c (Shape.startX s) (Shape.startY s) (EShape s) = Some h_nw
  /\ (Shape.endX s == Shape.startX s ->
      Shape.endY s == Shape.startY s ->
      getResizeHandle c x y (EShape s) = None
      \/ getResizeHandle c x y (EShape s) = Some h_nw).
Proof.
  intros Htype. split.
  - unfold getResizeHandle.
    destruct Htype as [-> | ->]; cbn [find];
      rewrite (handleAt_anchor _ _ _ h_nw (tolerance_positive (zoom c)));
      reflexivity.
  - intros Hx Hy.
    set (tolerance := Qmax (8 / zoom c) 4).
    set (nw := Point.mk (Shape.startX s) (Shape.startY s)).
    assert (Hsame : forall (a : Point.t) (h : Handle),
              Point.x a == Shape.startX s -> Point.y a == Shape.startY s ->
              handleAt x y tolerance (a, h) = handleAt x y tolerance (nw, h_nw))
      by (intros a h Ha Hb; apply handleAt_compat; assumption).
    assert (Hmidx : (Shape.startX s + Shape.endX s) / 2 == Shape.startX s)
      by (rewrite Hx; field).
    assert (Hmidy : (Shape.startY s + Shape.endY s) / 2 == Shape.startY s)
      by (rewrite Hy; field).
    assert (Hfind :
              option_map snd
                (find (handleAt x y tolerance)
                   [ (nw, h_nw);
                     (Point.mk (Shape.endX s) (Shape.startY s), h_ne);
                     (Point.mk (Shape.startX s) (Shape.endY s), h_sw);
                     (Point.mk (Shape.endX s) (Shape.endY s), h_se);
                     (Point.mk (Shape.startX s)
                               ((Shape.startY s + Shape.endY s) / 2), h_w);
                     (Point.mk (Shape.endX s)
                               ((Shape.startY s + Shape.endY s) / 2), h_e);
                     (Point.mk ((Shape.startX s + Shape.endX s) / 2)
                               (Shape.startY s), h_n);
                     (Point.mk ((Shape.startX s + Shape.endX s) / 2)
                               (Shape.endY s), h_s) ])
              = (if handleAt x y tolerance (nw, h_nw) then Some h_nw
                 else None)).
    { cbn [find].
      rewrite (Hsame (Point.mk (Shape.endX s) (Shape.startY s)) h_ne),
        (Hsame (Point.mk (Shape.startX s) (Shape.endY s)) h_sw),
        (Hsame (Point.mk (Shape.endX s) (Shape.endY s)) h_se),
        (Hsame (Point.mk (Shape.startX s)
                         ((Shape.startY s + Shape.endY s) / 2)) h_w),
        (Hsame (Point.mk (Shape.endX s)
                         ((Shape.startY s + Shape.endY s) / 2)) h_e),
        (Hsame (Point.mk ((Shape.startX s + Shape.endX s) / 2)
                         (Shape.startY s)) h_n),
        (Hsame (Point.mk ((Shape.startX s + Shape.endX s) / 2)
                         (Shape.endY s)) h_s)
        by (cbn [Point.x Point.y]; first [ reflexivity | assumption ]).
      destruct (handleAt x y tolerance (nw, h_nw)); reflexivity. }
    unfold getResizeHandle. fold tolerance. fold nw.
    destruct Htype as [-> | ->]; rewrite Hfind;
      destruct (handleAt x y tolerance (nw, h_nw)); auto.
Qed.

(** ** Paste, text editing and keyboard commands *)

Lemma nth_error_mapi_from {A B : Type} (f : A -> nat -> B) (l : list A) :
  forall index k,
    nth_error (mapi_from f index l) k
    = option_map (fun a => f a (index + k)%nat) (nth_error l k).
Proof.
  induction l as [ | a l IH ]; intros index k.
  - destruct k; reflexivity.
  - destruct k; simpl.
    + rewrite Nat.add_0_r. reflexivity.
    + rewrite IH. replace (S index + k)%nat with (index + S k)%nat by lia.
      reflexivity.
Qed.

(** X14.  With grid snap off, paste appends one new element per clipboard
    entry and selects exactly the pasted ones; the k-th pasted element
    starts at the anchor (the point given, else (50, 50)) plus 10k in both
    axes and keeps the kind, width and height, line width, number of path
    points, content and font size of the k-th clipboard entry. *)
Theorem paste_placement {M : JSMath} (env : Env) (c : State)
  (x y : option number) (k : nat) (original : DrawingElement) :
  gridSnap c = false ->
  nth_error (copiedElements c) k = Some original ->
  let s' := dispatch (pasteElements env x y) c in
  elements s' = elements c ++ selectedElements s'
  /\ List.length (selectedElements s') = List.length (copiedElements c)
  /\ exists pasted : DrawingElement,
       nth_error (selectedElements s') k = Some pasted
       /\ placedAt (pasteAnchor x + inject_Z (Z.of_nat k) * 10)
                   (pasteAnchor y + inject_Z (Z.of_nat k) * 10)
                   original pasted.
Proof.
  intros Hsnap Hk s'. subst s'. unfold dispatch, pasteElements.
  destruct (copiedElements c) as [ | first rest ] eqn:Hclip.
  { destruct k; discriminate Hk. }
  rewrite <- Hclip in *. cbn [elements selectedElements setElements
    setSelectedElements saveToHistory setHistory setHistoryIndex andThen val].
  split; [ reflexivity | ].
  split; [ apply mapi_from_length | ].
  unfold mapi. rewrite nth_error_mapi_from, Hk. cbn [option_map Nat.add].
  eexists. split; [ reflexivity | ].
  unfold pastedElement, placedAt, pasteAnchor. rewrite Hsnap.
  destruct original as [s | t]; cbn.
  - destruct (Shape.points s) eqn:Hpts; cbn; rewrite ?Hpts;
      repeat split; try ring.
    cbn. rewrite length_map. reflexivity.
  - repeat split.
Qed.

Lemma withContent_id (v : string) (el : DrawingElement) :
  element_id (withContent v el) = element_id el.
Proof. destruct el; reflexivity. Qed.

(** X15.  A context-menu click on a text element loads its content into
    the text input; typing a non-empty value and confirming replaces the
    content of the elements with that id and nothing else: ids and order
    of the elements are unchanged, the history and the cursor are
    untouched (an edit commits no snapshot), the input is closed and the
    edited id forgotten. *)
Theorem text_edit {M : JSMath} (env : Env) (rect : DOMRect.t)
  (e : MouseEvent.t) (s : State) (t : TextElement.t) (v : string) :
  canvas env = Some rect ->
  find (fun el => isText el
                  && isPointInElement s (Point.x (worldOf env s e))
                                      (Point.y (worldOf env s e)) el)
       (elements s) = Some (EText t) ->
  TextElement.id t <> EmptyString ->
  v <> EmptyString ->
  let s1 := dispatch (handleCanvasContextMenu env e) s in
  let s2 := setTextInput (val v) s1 in
  let s3 := dispatch (addTextToCanvas env) s2 in
  textInput s1 = TextElement.content t
  /\ elements s3
     = map (fun el => if (element_id el =? TextElement.id t)%string
                      then withContent v el else el) (elements s)
  /\ map element_id (elements s3) = map element_id (elements s)
  /\ history s3 = history s
  /\ historyIndex s3 = historyIndex s
  /\ isAddingText s3 = false
  /\ editingTextId s3 = None.
Proof.
  intros Hcanvas Hfind Hid Hv s1 s2 s3.
  assert (Hs1 : s1 = setIsAddingText (val true)
                       (setTextPosition
                          (val (Point.mk (TextElement.x t) (TextElement.y t)))
                          (setTextInput (val (TextElement.content t))
                             (setEditingTextId (val (Some (TextElement.id t)))
                                               s)))).
  { subst s1. unfold dispatch, handleCanvasContextMenu. rewrite Hcanvas.
    unfold worldOf in Hfind. rewrite Hfind. reflexivity. }
  assert (Hs3 : s3 = setIsAddingText (val false)
                       (setTextInput (val EmptyString)
                          (setEditingTextId (val None)
                             (setElements
                                (map (fun el =>
                                        if (element_id el
                                            =? TextElement.id t)%string
                                        then withContent v el else el)) s2)))).
  { subst s3 s2. unfold dispatch, addTextToCanvas. rewrite Hs1.
    cbn [textInput editingTextId setTextInput setIsAddingText setTextPosition
      setEditingTextId val].
    destruct v as [ | ch v' ]; [ contradiction | ].
    unfold truthyId.
    destruct (TextElement.id t) as [ | ch' id' ] eqn:Hidt; [ contradiction | ].
    reflexivity. }
  split; [ rewrite Hs1; reflexivity | ].
  rewrite Hs3. subst s2. rewrite Hs1.
  cbn [elements history historyIndex isAddingText editingTextId setTextInput
    setIsAddingText setTextPosition setEditingTextId setElements val].
  repeat split.
  rewrite map_map. apply map_ext. intros el.
  destruct (element_id el =? TextElement.id t)%string;
    [ apply withContent_id | reflexivity ].
Qed.

Lemma someId_self (l : list DrawingElement) (el : DrawingElement) :
  In el l -> someId l el = true.
Proof.
  intros Hin. unfold someId. apply existsb_exists.
  exists el. split; [ exact Hin | apply String.eqb_refl ].
Qed.

(** X16.  Ctrl+A followed, from the next render, by Delete empties the
    canvas: after Ctrl+A the selection is the whole store, and after
    Delete both the store and the selection are empty, whatever ids the
    elements have. *)
Theorem select_all_then_delete {M : JSMath} (env : Env) (s : State) :
  exists s1 s2 : State,
    step env (KeyDown s ctrlA) s = Some s1
    /\ selectedElements s1 = elements s
    /\ step env (KeyDown s1 deleteKey) s1 = Some s2
    /\ elements s2 = []
    /\ selectedElements s2 = [].
Proof.
  exists (setSelectedElements (val (elements s)) s).
  exists (deleteSelectedElements (setSelectedElements (val (elements s)) s)
                                 (setSelectedElements (val (elements s)) s)).
  split; [ reflexivity | ].
  split; [ reflexivity | ].
  split; [ reflexivity | ].
  unfold deleteSelectedElements.
  cbn [selectedElements setSelectedElements val].
  destruct (elements s) as [ | el rest ] eqn:Hel.
  - cbn. rewrite Hel. split; reflexivity.
  - cbn [elements selectedElements setElements setSelectedElements
      saveToHistory setHistory setHistoryIndex andThen val].
    rewrite Hel. split; [ | reflexivity ].
    apply filter_none. intros a Ha. apply negb_false_iff.
    apply someId_self. exact Ha.
Qed.

(** X17.  Escape pressed while neither drawing nor panning removes the
    selection box, from whatever closure the keyboard handler runs in; the
    pointer-up that follows, from the next render, then leaves the
    selection empty and changes neither the elements nor the history nor
    the cursor. *)
Theorem escape_cancels_box_select {M : JSMath} (env : Env)
  (up : MouseEvent.t) (closure s : State) :
  isPanning s = false ->
  isDrawing s = false ->
  exists s1 : State,
    handleKeyDown env escapeKey closure s = Some s1
    /\ selectionBox s1 = None
    /\ selectedElements (dispatch (finishDrawing env up) s1) = []
    /\ elements (dispatch (finishDrawing env up) s1) = elements s
    /\ history (dispatch (finishDrawing env up) s1) = history s
    /\ historyIndex (dispatch (finishDrawing env up) s1) = historyIndex s.
Proof.
  intros Hpan Hdraw.
  set (s1 := setSelectionBox (val None) (setSelectedElements (val []) s)).
  exists s1. split; [ reflexivity | ]. split; [ reflexivity | ].
  assert (Hpan1 : isPanning s1 = false) by exact Hpan.
  assert (Hdraw1 : isDrawing s1 = false) by exact Hdraw.
  assert (Hbox1 : selectionBox s1 = None) by reflexivity.
  unfold dispatch, finishDrawing, finishBoxSelect, commitDrawing, andThen.
  rewrite Hpan1, Hdraw1, Hbox1.
  destruct (tool s1), (isSelecting s1); repeat split.
Qed.

(** ** Rotation and flips *)

Lemma someId_map (g : DrawingElement -> DrawingElement)
  (selection : list DrawingElement) (el : DrawingElement) :
  (forall a, element_id (g a) = element_id a) ->
  someId (map g selection) el = someId selection el.
Proof.
  intros Hg. unfold someId. induction selection as [ | a rest IH ];
    [ reflexivity | ].
  simpl. rewrite Hg, IH. reflexivity.
Qed.

Lemma iter_id (f : DrawingElement -> DrawingElement) (n : nat) :
  (forall a, element_id (f a) = element_id a) ->
  forall a, element_id (Nat.iter n f a) = element_id a.
Proof.
  intros Hf a. induction n as [ | n IH ]; [ reflexivity | ].
  simpl. rewrite Hf. exact IH.
Qed.

Lemma transformSelected_fields (f : DrawingElement -> DrawingElement)
  (c p : State) :
  selectedElements c <> [] ->
  elements (transformSelected f c p)
  = map (fun el => if someId (selectedElements c) el then f el else el)
        (elements p)
  /\ selectedElements (transformSelected f c p)
     = map f (selectedElements p).
Proof.
  intros Hsel. unfold transformSelected.
  destruct (selectedElements c) as [ | a rest ] eqn:E; [ contradiction | ].
  split; reflexivity.
Qed.

Lemma transformSelected_repeated (f : DrawingElement -> DrawingElement)
  (n : nat) (s : State) :
  (forall a, element_id (f a) = element_id a) ->
  selectedElements s <> [] ->
  elements (repeated (transformSelected f) n s)
  = map (fun el => if someId (selectedElements s) el
                   then Nat.iter n f el else el) (elements s)
  /\ selectedElements (repeated (transformSelected f) n s)
     = map (Nat.iter n f) (selectedElements s).
Proof.
  intros Hf Hsel. induction n as [ | n [IHel IHsel] ].
  - simpl. split.
    + rewrite <- (map_id (elements s)) at 1. apply map_ext.
      intros el. destruct (someId (selectedElements s) el); reflexivity.
    + symmetry. apply map_id.
  - unfold repeated in *. simpl Nat.iter.
    set (q := Nat.iter n (dispatch (transformSelected f)) s) in *.
    assert (Hq : selectedElements q <> []).
    { rewrite IHsel. destruct (selectedElements s);
        [ contradiction | discriminate ]. }
    unfold dispatch.
    destruct (transformSelected_fields f q q Hq) as [-> ->].
    rewrite IHel, IHsel. split.
    + rewrite map_map. apply map_ext. intros el.
      rewrite (someId_map _ _ _ (iter_id f n Hf)).
      destruct (someId (selectedElements s) el) eqn:Hel.
      * rewrite (someId_by_id _ _ el (iter_id f n Hf el)), Hel. reflexivity.
      * rewrite Hel. reflexivity.
    + rewrite map_map. reflexivity.
Qed.

Lemma rotated_id (el : DrawingElement) :
  element_id (rotated el) = element_id el.
Proof. destruct el; reflexivity. Qed.

Lemma quarter_turns_zero (r : Q) : r == r + 90 * inject_Z 0.
Proof. change (inject_Z 0) with 0. ring. Qed.

Lemma quarter_turns_succ (r r' n : Q) :
  r' == r + 90 * n -> r' + 90 == r + 90 * (n + inject_Z 1).
Proof. intros H. rewrite H. change (inject_Z 1) with 1. ring. Qed.

Lemma rotated_iter (n : nat) (el : DrawingElement) :
  rotationOf (Nat.iter n rotated el)
  == rotationOf el + 90 * inject_Z (Z.of_nat n)
  /\ geometry (Nat.iter n rotated el) = geometry el
  /\ element_flipX (Nat.iter n rotated el) = element_flipX el
  /\ element_flipY (Nat.iter n rotated el) = element_flipY el.
Proof.
  induction n as [ | n (IHr & IHg & IHx & IHy) ].
  - simpl. repeat split. apply quarter_turns_zero.
  - simpl Nat.iter. rewrite Nat2Z.inj_succ. unfold Z.succ.
    rewrite inject_Z_plus.
    assert (Hstep : forall a, rotationOf (rotated a) = rotationOf a + 90
                              /\ geometry (rotated a) = geometry a
                              /\ element_flipX (rotated a) = element_flipX a
                              /\ element_flipY (rotated a) = element_flipY a)
      by (intros [sh | t]; repeat split).
    destruct (Hstep (Nat.iter n rotated el)) as (-> & -> & -> & ->).
    repeat split; try assumption.
    apply quarter_turns_succ. exact IHr.
Qed.

(** X18.  n rotate commands, each from the render that follows the one
    before, on a non-empty selection apply the quarter turn n times to
    exactly the elements of the store whose id is selected; the stored
    rotation grows by 90 each time without being reduced modulo 360 (four
    turns store 360, not 0), and geometry, id, content and flips are
    unchanged. *)
Theorem rotation_accumulates (n : nat) (s : State) :
  selectedElements s <> [] ->
  elements (repeated rotateSelectedElements n s)
  = map (fun el => if someId (selectedElements s) el
                   then Nat.iter n rotated el else el) (elements s)
  /\ forall el : DrawingElement,
       rotationOf (Nat.iter n rotated el)
       == rotationOf el + 90 * inject_Z (Z.of_nat n)
       /\ geometry (Nat.iter n rotated el) = geometry el
       /\ element_flipX (Nat.iter n rotated el) = element_flipX el
       /\ element_flipY (Nat.iter n rotated el) = element_flipY el.
Proof.
  intros Hsel. split.
  - apply (transformSelected_repeated rotated n s rotated_id Hsel).
  - intros el. apply rotated_iter.
Qed.

Lemma flippedX_id (el : DrawingElement) :
  element_id (flippedX el) = element_id el.
Proof. destruct el; reflexivity. Qed.

Lemma flippedY_id (el : DrawingElement) :
  element_id (flippedY el) = element_id el.
Proof. destruct el; reflexivity. Qed.

(** X19.  Two horizontal, or two vertical, flip commands, the second from
    the render that follows the first, on a non-empty selection flip
    exactly the elements of the store whose id is selected twice, which
    gives back the truthiness of the flip flag (an absent flag becomes
    false) and leaves geometry, id, content and rotation unchanged. *)
Theorem flip_twice (s : State) :
  selectedElements s <> [] ->
  elements (repeated flipSelectedElementsHorizontal 2 s)
  = map (fun el => if someId (selectedElements s) el
                   then flippedX (flippedX el) else el) (elements s)
  /\ elements (repeated flipSelectedElementsVertical 2 s)
     = map (fun el => if someId (selectedElements s) el
                      then flippedY (flippedY el) else el) (elements s)
  /\ forall el : DrawingElement,
       truthy (element_flipX (flippedX (flippedX el)))
       = truthy (element_flipX el)
       /\ truthy (element_flipY (flippedY (flippedY el)))
          = truthy (element_flipY el)
       /\ geometry (flippedX (flippedX el)) = geometry el
       /\ geometry (flippedY (flippedY el)) = geometry el
       /\ element_rotation (flippedX (flippedX el)) = element_rotation el
       /\ element_rotation (flippedY (flippedY el)) = element_rotation el.
Proof.
  intros Hsel. split; [ | split ].
  - apply (transformSelected_repeated flippedX 2 s flippedX_id Hsel).
  - apply (transformSelected_repeated flippedY 2 s flippedY_id Hsel).
  - intros [sh | t]; cbn.
    + destruct (Shape.flipX sh) as [[ | ] | ],
               (Shape.flipY sh) as [[ | ] | ]; repeat split.
    + destruct (TextElement.flipX t) as [[ | ] | ],
               (TextElement.flipY t) as [[ | ] | ]; repeat split.
Qed.

(** ** Dragging the selection *)

Lemma worldOf_same_view (env : Env) (s q : State) (e : MouseEvent.t) :
  zoom q = zoom s -> panOffset q = panOffset s -> gridSnap q = gridSnap s ->
  worldOf env q e = worldOf env s e.
Proof.
  intros Hz Hp Hg. unfold worldOf, transformCoordinates, snapToGrid.
  rewrite Hz, Hp, Hg. reflexivity.
Qed.

Lemma drag_arithmetic (to from start : Q) :
  to - (from - start) - start == to - from.
Proof. ring. Qed.

(** X20.  With the move tool and grid snap off, pressing on a shape (not
    on a resize handle) selects it if it was not selected, and one pointer
    move then translates exactly the selected elements by the displacement
    of the pointer in world coordinates; the other elements are untouched. *)
Theorem drag_moves_selection {M : JSMath} (env : Env) (rect : DOMRect.t)
  (down move : MouseEvent.t) (s : State) (grabbed : Shape.t) :
  ctx env = true ->
  canvas env = Some rect ->
  (forall a b, sameObject env a b = true -> a = b) ->
  tool s = tool_move ->
  MouseEvent.button down <> 1%nat ->
  isPanning s = false ->
  isSelecting s = false ->
  resizeHandle s = None ->
  gridSnap s = false ->
  firstResizeHandle s (Point.x (worldOf env s down))
                    (Point.y (worldOf env s down)) (selectedElements s)
  = None ->
  find (isPointInElement s (Point.x (worldOf env s down))
                         (Point.y (worldOf env s down))) (elements s)
  = Some (EShape grabbed) ->
  exists (s1 s2 : State) (deltaX deltaY : number),
    startDrawing env down s s = Some s1
    /\ draw env move s1 s1 = Some s2
    /\ deltaX == Point.x (worldOf env s move) - Point.x (worldOf env s down)
    /\ deltaY == Point.y (worldOf env s move) - Point.y (worldOf env s down)
    /\ someId (selectedElements s1) (EShape grabbed) = true
    /\ elements s2
       = map (fun el => if someId (selectedElements s1) el
                        then translateElement deltaX deltaY el else el)
             (elements s).
Proof.
  intros Hctx Hcanvas Hsame Htool Hbutton Hpan Hselecting Hhandle Hsnap
         Hnohandle Hfind.
  set (w1 := worldOf env s down) in *.
  set (sel1 := if negb (includes env (selectedElements s) (EShape grabbed))
               then [EShape grabbed] else selectedElements s).
  set (s1 := setMoveOffset
               (val (Point.mk (Point.x w1 - Shape.startX grabbed)
                              (Point.y w1 - Shape.startY grabbed)))
               (setMovingElement (val (Some (EShape grabbed)))
                  (setSelectedElements (val sel1) s))).
  assert (Hstart : startDrawing env down s s = Some s1).
  { unfold startDrawing. rewrite Hctx, Hcanvas, Htool.
    apply Nat.eqb_neq in Hbutton. rewrite Hbutton.
    fold (worldOf env s down). fold w1. rewrite Hnohandle, Hfind.
    unfold grabElement. subst s1 sel1.
    destruct (includes env (selectedElements s) (EShape grabbed));
      destruct s; reflexivity. }
  assert (Hsel : someId sel1 (EShape grabbed) = true).
  { subst sel1.
    destruct (includes env (selectedElements s) (EShape grabbed)) eqn:Hinc;
      cbn [negb].
    - unfold includes in Hinc. apply existsb_exists in Hinc.
      destruct Hinc as (a & Ha & Hobj). apply Hsame in Hobj. subst a.
      apply someId_self. exact Ha.
    - apply someId_self. left. reflexivity. }
  assert (Hw : worldOf env s1 move = worldOf env s move)
    by (apply worldOf_same_view; reflexivity).
  exists s1. eexists. eexists. eexists.
  split; [ exact Hstart | ].
  assert (Hnonempty : selectedElements s1 <> []).
  { change (selectedElements s1) with sel1. intros Hnil.
    rewrite Hnil in Hsel. discriminate Hsel. }
  unfold draw. rewrite Hctx, Hcanvas.
  change (isPanning s1) with (isPanning s). rewrite Hpan.
  change (tool s1) with (tool s). rewrite Htool.
  change (resizeHandle s1) with (resizeHandle s). rewrite Hhandle.
  change (movingElement s1) with (Some (EShape grabbed)).
  fold (worldOf env s1 move). rewrite Hw.
  destruct (selectedElements s1) as [ | a rest ] eqn:Hsel1;
    [ contradiction | ].
  rewrite <- Hsel1.
  split; [ reflexivity | ].
  split; [ cbn [moveOffset setMoveOffset val Point.x Point.y];
           apply drag_arithmetic | ].
  split; [ cbn [moveOffset setMoveOffset val Point.x Point.y];
           apply drag_arithmetic | ].
  split; [ exact Hsel | ].
  cbn [elements setElements setSelectedElements setMovingElement setMoveOffset
    andThen val].
  apply map_ext. intros el. unfold moveElement.
  change (gridSnap s1) with (gridSnap s). rewrite Hsnap. reflexivity.
Qed.

(** ** Rendering: the state stack of the context *)

Lemma stackAfter_app (a b : list CanvasOp) (d : nat) :
  stackAfter (a ++ b) d
  = match stackAfter a d with
    | Some d' => stackAfter b d'
    | None => None
    end.
Proof.
  revert d. induction a as [ | op a IH]; intro d; [reflexivity | ].
  destruct op; simpl; try apply IH.
  destruct d; [reflexivity | apply IH].
Qed.

Lemma stackAfter_skip (a b : list CanvasOp) (d : nat) :
  (forall d', stackAfter a d' = Some d') ->
  stackAfter (a ++ b) d = stackAfter b d.
Proof. intro Ha. rewrite stackAfter_app, Ha. reflexivity. Qed.

Lemma stackAfter_flat_map {A : Type} (f : A -> list CanvasOp) (l : list A) :
  (forall a d, stackAfter (f a) d = Some d) ->
  forall d, stackAfter (flat_map f l) d = Some d.
Proof.
  intros Hf. induction l as [ | a l IH]; intro d; [reflexivity | ].
  simpl. rewrite stackAfter_skip; [apply IH | apply Hf].
Qed.

Lemma worldTransform_balanced (c : State) (d : nat) :
  stackAfter (worldTransform c) d = Some d.
Proof. reflexivity. Qed.

Lemma drawGrid_balanced (env : Env) (width height : number) (c : State)
  (d : nat) :
  stackAfter (drawGrid env width height c) d = Some d.
Proof.
  unfold drawGrid. destruct (ctx env); [ | reflexivity].
  destruct (canvas env); [ | reflexivity].
  cbv zeta. unfold worldTransform. cbn [app stackAfter].
  rewrite !stackAfter_skip; try reflexivity;
    apply stackAfter_flat_map; intros; reflexivity.
Qed.

Lemma drawSelectionBox_balanced (env : Env) (c : State) (d : nat) :
  stackAfter (drawSelectionBox env c) d = Some d.
Proof.
  unfold drawSelectionBox.
  destruct (ctx env); [ | reflexivity].
  destruct (selectionBox c); reflexivity.
Qed.

Lemma drawResizeHandles_balanced {M : JSMath} (env : Env)
  (selection : list DrawingElement) (c : State) (d : nat) :
  stackAfter (drawResizeHandles env selection c) d = Some d.
Proof.
  unfold drawResizeHandles.
  destruct (ctx env); [ | reflexivity].
  destruct selection as [ | el rest]; [reflexivity | ].
  cbv zeta. unfold worldTransform. cbn [app stackAfter].
  rewrite stackAfter_skip; [reflexivity | ].
  apply stackAfter_flat_map. intros [s | t] d'; [ | reflexivity].
  destruct (Shape.type s); try reflexivity;
    apply stackAfter_flat_map; intros; reflexivity.
Qed.

Lemma elementTransform_balanced {M : JSMath} (element : DrawingElement)
  (d : nat) :
  stackAfter (elementTransform element) d = Some d.
Proof.
  unfold elementTransform.
  destruct (truthyNumber (element_rotation element));
    destruct (truthy (element_flipX element));
    destruct (truthy (element_flipY element)); reflexivity.
Qed.

Lemma map_LineTo_balanced (l : list Point.t) (d : nat) :
  stackAfter (map (fun point => LineTo (Point.x point) (Point.y point)) l) d
  = Some d.
Proof. induction l; [reflexivity | exact IHl]. Qed.

Lemma drawElement_balanced {M : JSMath} (c : State)
  (element : DrawingElement) (ops : list CanvasOp) :
  drawElement c element = Some ops ->
  forall d, stackAfter ops d = Some d.
Proof.
  intros H d. destruct element as [s | t]; simpl in H.
  - destruct (Shape.type s); [ | inversion H; reflexivity ..].
    destruct (Shape.points s) as [[ | first rest] | ];
      inversion H; subst; clear H; [ | reflexivity].
    simpl. rewrite stackAfter_app, map_LineTo_balanced. reflexivity.
  - inversion H. reflexivity.
Qed.

Lemma renderElement_balanced {M : JSMath} (c : State)
  (element : DrawingElement) (ops : list CanvasOp) :
  renderElement c element = Some ops ->
  forall d, stackAfter ops d = Some d.
Proof.
  unfold renderElement. intro H.
  destruct (drawElement c element) as [drawn | ] eqn:Hdrawn; [ | discriminate].
  inversion H; subst; clear H.
  intro d. simpl.
  rewrite stackAfter_skip by (intro; apply elementTransform_balanced).
  simpl.
  rewrite stackAfter_skip by apply (drawElement_balanced _ _ _ Hdrawn).
  reflexivity.
Qed.

Lemma renderElements_balanced {M : JSMath} (c : State)
  (l : list DrawingElement) :
  forall ops, renderElements c l = Some ops ->
  forall d, stackAfter ops d = Some d.
Proof.
  induction l as [ | el l IH]; intros ops H.
  - inversion H. reflexivity.
  - simpl in H.
    destruct (renderElement c el) as [o | ] eqn:Ho; [ | discriminate].
    destruct (renderElements c l) as [more | ]; [ | discriminate].
    inversion H; subst; clear H.
    intro d. rewrite stackAfter_skip.
    + apply IH. reflexivity.
    + apply (renderElement_balanced _ _ _ Ho).
Qed.

(** X21.  Every redraw that returns leaves the state stack of the 2D
    context as it found it: over the calls made for the grid, every
    element, the selection box and the resize handles, no restore finds
    the stack empty and the depth at the end is the depth at the start,
    from every starting depth. *)
Theorem redrawCanvas_balanced {M : JSMath} (env : Env)
  (width height : number) (c : State) (ops : list CanvasOp) :
  redrawCanvas env width height c = Some ops ->
  forall d, stackAfter ops d = Some d.
Proof.
  unfold redrawCanvas. intro H.
  destruct (ctx env); [ | inversion H; reflexivity].
  destruct (canvas env); [ | inversion H; reflexivity].
  destruct (renderElements c (elements c)) as [drawn | ] eqn:Hdrawn;
    [ | discriminate].
  inversion H; subst; clear H.
  intro d. unfold worldTransform. cbn [app stackAfter].
  rewrite (stackAfter_skip (if showGrid c then _ else _))
    by (intro; destruct (showGrid c);
        [apply drawGrid_balanced | reflexivity]).
  cbn [app stackAfter].
  rewrite (stackAfter_skip drawn)
    by apply (renderElements_balanced _ _ _ Hdrawn).
  cbn [app stackAfter].
  rewrite (stackAfter_skip (drawSelectionBox env c))
    by (intro; apply drawSelectionBox_balanced).
  destruct (selectedElements c); [reflexivity | ].
  destruct (tool c); try reflexivity; apply drawResizeHandles_balanced.
Qed.

(** ** Rendering: resize handles *)

Lemma ltb_iff (a b : number) : ltb a b = true <-> a < b.
Proof.
  unfold ltb. rewrite negb_true_iff. split.
  - intro H. apply Qnot_le_lt. intro Hle.
    apply Qle_bool_iff in Hle. congruence.
  - intro H. destruct (Qle_bool b a) eqn:Hle; [ | reflexivity].
    apply Qle_bool_iff in Hle. lra.
Qed.

Lemma handle_radius_in_tolerance (z : Q) :
  0 < z -> 6 / z / 2 < Qmax (8 / z) 4.
Proof.
  intro Hz. apply Qlt_le_trans with (8 / z); [ | apply Q.le_max_l].
  assert (Hinv : 0 < / z) by (apply Qinv_lt_0_compat; exact Hz).
  unfold Qdiv. set (iz := / z) in *. clearbody iz.
  setoid_replace (6 * iz * / 2) with (3 * iz) by field. lra.
Qed.

Lemma within_square (z hx px : Q) :
  0 < z ->
  hx - 6 / z / 2 <= px <= hx - 6 / z / 2 + 6 / z ->
  Qabs (px - hx) <= 6 / z / 2.
Proof.
  intros Hz [Hlo Hhi]. apply Qabs_Qle_condition.
  assert (Hinv : 0 < / z) by (apply Qinv_lt_0_compat; exact Hz).
  unfold Qdiv in *. set (iz := / z) in *. clearbody iz.
  assert (Hhalf : 6 * iz * / 2 == 3 * iz) by field.
  rewrite Hhalf in *. split; lra.
Qed.

Lemma handleAt_near (z px py : Q) (p : Point.t) (h : Handle) :
  0 < z ->
  Qabs (px - Point.x p) <= 6 / z / 2 ->
  Qabs (py - Point.y p) <= 6 / z / 2 ->
  handleAt px py (Qmax (8 / z) 4) (p, h) = true.
Proof.
  intros Hz Hx Hy. unfold handleAt. cbn [fst].
  apply andb_true_iff. split; apply ltb_iff;
    (eapply Qle_lt_trans; [eassumption | ]);
    apply handle_radius_in_tolerance; exact Hz.
Qed.

Lemma find_handle (f : Point.t * Handle -> bool)
  (handles : list (Point.t * Handle)) (p : Point.t) :
  In p (map fst handles) ->
  (forall h, f (p, h) = true) ->
  option_map snd (find f handles) <> None.
Proof.
  intros Hin Hf.
  apply in_map_iff in Hin. destruct Hin as [[q h] [Hq Hin]].
  cbn in Hq. subst q.
  destruct (find f handles) eqn:Hfind; [discriminate | ].
  pose proof (find_none _ _ Hfind _ Hin) as Hno.
  rewrite Hf in Hno. discriminate.
Qed.

(** A point within the drawn size of a handle of a shape is on one of the
    shape's handles. *)
Lemma getResizeHandle_near {M : JSMath} (c : State) (s : Shape.t)
  (p : Point.t) (px py : number) :
  0 < zoom c ->
  In p (drawnHandles (EShape s)) ->
  Qabs (px - Point.x p) <= 6 / zoom c / 2 ->
  Qabs (py - Point.y p) <= 6 / zoom c / 2 ->
  getResizeHandle c px py (EShape s) <> None.
Proof.
  intros Hz Hin Hx Hy. unfold getResizeHandle.
  unfold drawnHandles in Hin.
  destruct (Shape.type s); cbv zeta.
  - destruct Hin.
  - apply (find_handle _ _ p); [exact Hin | ].
    intro h. apply handleAt_near; assumption.
  - apply (find_handle _ _ p); [exact Hin | ].
    intro h. apply handleAt_near; assumption.
  - apply (find_handle _ _ p); [exact Hin | ].
    intro h. apply handleAt_near; assumption.
Qed.

(** X22.  At a positive zoom every resize handle that is drawn can be
    grabbed anywhere on it: a pointer position inside a drawn handle
    square, or within the radius of a drawn handle circle along both axes,
    makes getResizeHandle return a handle for one of the elements the
    handles were drawn for. *)
Theorem drawn_handles_grabbable {M : JSMath} (env : Env)
  (selection : list DrawingElement) (c : State) (px py : number) :
  0 < zoom c ->
  (forall x y w h,
      In (FillRect x y w h) (drawResizeHandles env selection c) ->
      x <= px <= x + w -> y <= py <= y + h ->
      exists element,
        In element selection /\ getResizeHandle c px py element <> None)
  /\ (forall x y radius startAngle endAngle,
         In (Arc x y radius startAngle endAngle)
            (drawResizeHandles env selection c) ->
         Qabs (px - x) <= radius -> Qabs (py - y) <= radius ->
         exists element,
           In element selection /\ getResizeHandle c px py element <> None).
Proof.
  intro Hz.
  assert (Hops : forall op,
             In op (drawResizeHandles env selection c) ->
             (forall x y w h, op <> FillRect x y w h)
             /\ (forall x y r a b, op <> Arc x y r a b)
             \/ exists s p,
                 In (EShape s) selection
                 /\ In p (drawnHandles (EShape s))
                 /\ (op = FillRect (Point.x p - 6 / zoom c / 2)
                                   (Point.y p - 6 / zoom c / 2)
                                   (6 / zoom c) (6 / zoom c)
                     \/ op = Arc (Point.x p) (Point.y p) (6 / zoom c / 2)
                                 0 (2 * Math_PI))).
  { intros op Hin. unfold drawResizeHandles in Hin.
    destruct (ctx env); [ | destruct Hin].
    destruct selection as [ | el0 rest0] eqn:Hsel; [destruct Hin | ].
    rewrite <- Hsel in *. clear Hsel. cbv zeta in Hin.
    unfold worldTransform in Hin. cbn [app] in Hin.
    repeat (destruct Hin as [Hin | Hin];
            [left; subst op; split; intros; discriminate | ]).
    apply in_app_or in Hin. destruct Hin as [Hin | Hin].
    - apply in_flat_map in Hin. destruct Hin as [[s | t] [Hel Hin]];
        [ | destruct Hin].
      unfold drawnHandles.
      destruct (Shape.type s) eqn:Htype; [destruct Hin | | | ];
        apply in_flat_map in Hin; destruct Hin as [p [Hp Hin]];
        cbn [In] in Hin;
        repeat (destruct Hin as [Hin | Hin];
                [subst op | ]);
        try (destruct Hin);
        try (left; split; intros; discriminate);
        right; exists s, p; rewrite Htype; auto.
    - destruct Hin as [Hin | []]. left; subst op; split; intros; discriminate. }
  split.
  - intros x y w h Hin Hx Hy.
    destruct (Hops _ Hin) as [[Hno _] | [s [p [Hs [Hp [Hop | Hop]]]]]];
      [exfalso; apply (Hno x y w h); reflexivity | | discriminate].
    inversion Hop; subst; clear Hop.
    exists (EShape s). split; [exact Hs | ].
    apply (getResizeHandle_near c s p); try assumption;
      apply within_square; assumption.
  - intros x y r a b Hin Hx Hy.
    destruct (Hops _ Hin) as [[_ Hno] | [s [p [Hs [Hp [Hop | Hop]]]]]];
      [exfalso; apply (Hno x y r a b); reflexivity | discriminate | ].
    inversion Hop; subst; clear Hop.
    exists (EShape s). split; [exact Hs | ].
    apply (getResizeHandle_near c s p); assumption.
Qed.

(** ** Rendering: the grid *)

Lemma forSteps_In (fuel : nat) :
  forall v stop x : Q,
    In x (forSteps fuel v stop) ->
    (exists k : nat, x == v + inject_Z (Z.of_nat k) * gridSize)
    /\ x <= stop.
Proof.
  induction fuel as [ | fuel IH]; intros v stop x Hin; [destruct Hin | ].
  cbn [forSteps] in Hin.
  destruct (leb v stop) eqn:Hle; [ | destruct Hin].
  destruct Hin as [Hx | Hin].
  - subst x. split; [ | apply leb_iff; exact Hle].
    exists 0%nat. change (inject_Z (Z.of_nat 0)) with 0. ring.
  - destruct (IH _ _ _ Hin) as [[k Hk] Hstop]. split; [ | exact Hstop].
    exists (S k). rewrite Hk, Nat2Z.inj_succ. unfold Z.succ.
    rewrite inject_Z_plus. change (inject_Z 1) with 1. ring.
Qed.

Lemma forSteps_reach (k : nat) :
  forall (fuel : nat) (v stop : Q),
    (k < fuel)%nat ->
    v + inject_Z (Z.of_nat k) * gridSize <= stop ->
    exists x : Q, In x (forSteps fuel v stop)
              /\ x == v + inject_Z (Z.of_nat k) * gridSize.
Proof.
  induction k as [ | k IH]; intros fuel v stop Hfuel Hstop;
    (destruct fuel as [ | fuel]; [lia | ]); cbn [forSteps].
  - assert (Hle : leb v stop = true).
    { apply leb_iff. change (inject_Z (Z.of_nat 0)) with 0 in Hstop.
      unfold gridSize in Hstop. lra. }
    rewrite Hle. exists v. split; [left; reflexivity | ].
    change (inject_Z (Z.of_nat 0)) with 0. ring.
  - rewrite Nat2Z.inj_succ in *. unfold Z.succ in *.
    rewrite inject_Z_plus in *. change (inject_Z 1) with 1 in *.
    assert (Hk : 0 <= inject_Z (Z.of_nat k)).
    { change 0 with (inject_Z 0). rewrite <- Zle_Qle. lia. }
    unfold gridSize in *.
    assert (Hle : leb v stop = true).
    { apply leb_iff. set (q := inject_Z (Z.of_nat k)) in *. clearbody q. lra. }
    rewrite Hle.
    destruct (IH fuel (v + 20) stop) as [x [Hin Hx]]; [lia | | ].
    + set (q := inject_Z (Z.of_nat k)) in *. clearbody q. lra.
    + exists x. split; [right; exact Hin | ]. rewrite Hx. ring.
Qed.

(** The loop of [drawGrid] stops by its condition: the fuel is enough for
    every step up to [stop]. *)
Lemma stepFuel_enough (start stop : Q) (k : nat) :
  start + inject_Z (Z.of_nat k) * gridSize <= stop ->
  (k < stepFuel start stop)%nat.
Proof.
  intro H. unfold stepFuel.
  assert (Hk : inject_Z (Z.of_nat k) <= (stop - start) / gridSize).
  { unfold gridSize in *. apply Qle_shift_div_l; [reflexivity | ]. lra. }
  assert (Hfloor : (Z.of_nat k <= Qfloor ((stop - start) / gridSize))%Z).
  { apply Qfloor_resp_le in Hk. rewrite Qfloor_Z in Hk. exact Hk. }
  lia.
Qed.

Lemma strokedSegments_lines (mx my lx ly : number -> number)
  (l : list number) (rest : list CanvasOp) :
  strokedSegments
    (flat_map (fun v => [BeginPath; MoveTo (mx v) (my v);
                         LineTo (lx v) (ly v); Stroke]) l ++ rest)
  = map (fun v => (Point.mk (mx v) (my v), Point.mk (lx v) (ly v))) l
    ++ strokedSegments rest.
Proof.
  induction l as [ | v l IH]; [reflexivity | ].
  cbn [flat_map app map strokedSegments]. rewrite IH. reflexivity.
Qed.

Lemma drawGrid_segments (env : Env) (width height : number) (c : State)
  (rect : DOMRect.t) :
  ctx env = true -> canvas env = Some rect ->
  let startX := gridStart c (Point.x (panOffset c)) in
  let endX := gridEnd c width (Point.x (panOffset c)) in
  let startY := gridStart c (Point.y (panOffset c)) in
  let endY := gridEnd c height (Point.y (panOffset c)) in
  strokedSegments (drawGrid env width height c)
  = map (fun x => (Point.mk x startY, Point.mk x endY))
        (forSteps (stepFuel startX endX) startX endX)
    ++ map (fun y => (Point.mk startX y, Point.mk endX y))
           (forSteps (stepFuel startY endY) startY endY).
Proof.
  intros Hctx Hcanvas. cbv zeta. unfold drawGrid.
  rewrite Hctx, Hcanvas. cbv zeta. unfold worldTransform.
  cbn [app strokedSegments].
  rewrite (strokedSegments_lines (fun x => x) _ (fun x => x)).
  rewrite (strokedSegments_lines _ (fun y => y) _ (fun y => y)).
  cbn [strokedSegments]. rewrite app_nil_r. reflexivity.
Qed.

Lemma gridStart_line (c : State) (pan : number) (k : nat) :
  exists n : Z,
    gridStart c pan + inject_Z (Z.of_nat k) * gridSize
    == inject_Z n * gridSize.
Proof.
  unfold gridStart. cbv zeta.
  set (f := Qfloor _). exists (f + Z.of_nat k)%Z.
  rewrite inject_Z_plus. ring.
Qed.

Lemma snapCoordinate_gridLine (v : number) (n : Z) :
  v == inject_Z n * gridSize -> snapCoordinate gridSize v == v.
Proof.
  intro H.
  rewrite (snapCoordinate_compat gridSize v (inject_Z n * gridSize) H).
  unfold snapCoordinate.
  rewrite (Math_round_compat (inject_Z n * gridSize / gridSize) (inject_Z n)).
  - rewrite Math_round_integer, H. reflexivity.
  - unfold gridSize. field.
Qed.

Lemma floor_cell_below (X : Q) :
  inject_Z (Qfloor (X / 20)) * 20 <= X.
Proof.
  assert (Hfloor := Qfloor_le (X / 20)).
  set (f := inject_Z (Qfloor (X / 20))) in *. clearbody f.
  assert (H : f * 20 <= X / 20 * 20) by (apply Qmult_le_compat_r; lra).
  assert (Hx : X / 20 * 20 == X) by field.
  rewrite Hx in H. exact H.
Qed.

Lemma ceiling_cell_above (X : Q) :
  X <= inject_Z (Qceiling X) / 20 * 20.
Proof.
  assert (Hceil := Qle_ceiling X).
  set (f := inject_Z (Qceiling X)) in *. clearbody f.
  assert (Hx : f / 20 * 20 == f) by field.
  rewrite Hx. exact Hceil.
Qed.

Lemma above_screen (z pan size g : Q) :
  0 < z -> (size - pan) / z + 1000 <= g -> size <= g * z + pan.
Proof.
  intros Hz H.
  assert (Hmul : ((size - pan) / z + 1000) * z <= g * z)
    by (apply Qmult_le_compat_r; lra).
  assert (Hq : ((size - pan) / z + 1000) * z == size - pan + 1000 * z).
  { field. intro H0. rewrite H0 in Hz. discriminate Hz. }
  rewrite Hq in Hmul. lra.
Qed.

Lemma below_screen (z pan g : Q) :
  0 < z -> g <= (- pan) / z - 1000 -> g * z + pan <= 0.
Proof.
  intros Hz H.
  assert (Hmul : g * z <= ((- pan) / z - 1000) * z)
    by (apply Qmult_le_compat_r; lra).
  assert (Hq : ((- pan) / z - 1000) * z == - pan - 1000 * z).
  { field. intro H0. rewrite H0 in Hz. discriminate Hz. }
  rewrite Hq in Hmul. lra.
Qed.

Lemma on_screen (z pan size g : Q) :
  0 < z -> 0 <= g * z + pan <= size ->
  (- pan) / z - 1000 <= g /\ g <= (size - pan) / z + 1000.
Proof.
  intros Hz [Hlo Hhi].
  assert (Hnz : ~ z == 0) by (intro H0; rewrite H0 in Hz; discriminate Hz).
  assert (H1 : (- pan) / z <= g).
  { apply Qle_shift_div_r; [exact Hz | lra]. }
  assert (H2 : g <= (size - pan) / z).
  { apply Qle_shift_div_l; [exact Hz | lra]. }
  split; lra.
Qed.

Lemma gridStart_below (c : State) (pan : number) :
  0 < zoom c -> gridStart c pan * zoom c + pan <= 0.
Proof.
  intro Hz. apply below_screen; [exact Hz | ].
  apply floor_cell_below.
Qed.

Lemma gridEnd_above (c : State) (size pan : number) :
  0 < zoom c -> size <= gridEnd c size pan * zoom c + pan.
Proof.
  intro Hz. apply above_screen; [exact Hz | ].
  apply ceiling_cell_above.
Qed.

Lemma cell_arithmetic (m n k : Q) :
  k == n - m -> m * 20 + k * 20 == n * 20.
Proof. intro H. rewrite H. ring. Qed.

(** A snapped coordinate that is on the screen is one of the steps of the
    loop of [drawGrid]. *)
Lemma grid_step_drawn (c : State) (size pan v : number) :
  0 < zoom c ->
  0 <= snapCoordinate gridSize v * zoom c + pan <= size ->
  exists x : number,
    In x (forSteps (stepFuel (gridStart c pan) (gridEnd c size pan))
                   (gridStart c pan) (gridEnd c size pan))
    /\ x == snapCoordinate gridSize v.
Proof.
  intros Hz Hscreen.
  destruct (on_screen _ _ _ _ Hz Hscreen) as [Hlo Hhi].
  pose proof (floor_cell_below ((- pan) / zoom c - 1000)) as Hstart.
  pose proof (ceiling_cell_above ((size - pan) / zoom c + 1000)) as Hend.
  unfold snapCoordinate, Math_round in *.
  set (n := Qfloor (v / gridSize + (1 # 2))) in *.
  set (m := Qfloor (((- pan) / zoom c - 1000) / 20)) in *.
  assert (Hmn : (m <= n)%Z).
  { assert (Hq : inject_Z m * 20 <= inject_Z n * 20)
      by (unfold gridSize in *; lra).
    rewrite Zle_Qle. lra. }
  assert (Hk : inject_Z (Z.of_nat (Z.to_nat (n - m)))
               == inject_Z n - inject_Z m).
  { rewrite Z2Nat.id by lia. unfold Zminus.
    rewrite inject_Z_plus, inject_Z_opp. ring. }
  assert (Hstep : gridStart c pan
                  + inject_Z (Z.of_nat (Z.to_nat (n - m))) * gridSize
                  == inject_Z n * gridSize).
  { change (inject_Z m * 20
            + inject_Z (Z.of_nat (Z.to_nat (n - m))) * 20
            == inject_Z n * 20).
    apply cell_arithmetic. exact Hk. }
  assert (Hstop : gridStart c pan
                  + inject_Z (Z.of_nat (Z.to_nat (n - m))) * gridSize
                  <= gridEnd c size pan).
  { rewrite Hstep. unfold gridEnd. cbv zeta. unfold gridSize in *. lra. }
  destruct (forSteps_reach _ _ _ _ (stepFuel_enough _ _ _ Hstop) Hstop)
    as [x [Hin Hx]].
  exists x. split; [exact Hin | ]. rewrite Hx. exact Hstep.
Qed.

(** X23.  On a mounted canvas at a positive zoom the grid that is drawn is
    the grid that snapping uses: every grid segment is vertical or
    horizontal at a coordinate that snapping leaves fixed, and every
    snapped coordinate that falls on the canvas has its line drawn, from
    above the top to below the bottom of the canvas, resp. from left of it
    to right of it. *)
Theorem grid_matches_snapping (env : Env) (width height : number)
  (c : State) (rect : DOMRect.t) :
  ctx env = true -> canvas env = Some rect -> 0 < zoom c ->
  (forall a b,
      In (a, b) (strokedSegments (drawGrid env width height c)) ->
      (Point.x a = Point.x b
       /\ snapCoordinate gridSize (Point.x a) == Point.x a)
      \/ (Point.y a = Point.y b
          /\ snapCoordinate gridSize (Point.y a) == Point.y a))
  /\ (forall v,
         0 <= snapCoordinate gridSize v * zoom c + Point.x (panOffset c)
           <= width ->
         exists a b,
           In (a, b) (strokedSegments (drawGrid env width height c))
           /\ Point.x a == snapCoordinate gridSize v
           /\ Point.x b == snapCoordinate gridSize v
           /\ Point.y a * zoom c + Point.y (panOffset c) <= 0
           /\ height <= Point.y b * zoom c + Point.y (panOffset c))
  /\ (forall v,
         0 <= snapCoordinate gridSize v * zoom c + Point.y (panOffset c)
           <= height ->
         exists a b,
           In (a, b) (strokedSegments (drawGrid env width height c))
           /\ Point.y a == snapCoordinate gridSize v
           /\ Point.y b == snapCoordinate gridSize v
           /\ Point.x a * zoom c + Point.x (panOffset c) <= 0
           /\ width <= Point.x b * zoom c + Point.x (panOffset c)).
Proof.
  intros Hctx Hcanvas Hz.
  rewrite (drawGrid_segments env width height c rect Hctx Hcanvas).
  split; [ | split].
  - intros a b Hin. apply in_app_or in Hin.
    destruct Hin as [Hin | Hin]; apply in_map_iff in Hin;
      destruct Hin as [x [Hab Hin]]; inversion Hab; subst; clear Hab;
      cbn [Point.x Point.y];
      destruct (forSteps_In _ _ _ _ Hin) as [[k Hk] _];
      [left | right]; (split; [reflexivity | ]);
      destruct (gridStart_line c (Point.x (panOffset c)) k) as [n Hn];
      destruct (gridStart_line c (Point.y (panOffset c)) k) as [n' Hn'].
    + apply (snapCoordinate_gridLine x n). rewrite Hk. exact Hn.
    + apply (snapCoordinate_gridLine x n'). rewrite Hk. exact Hn'.
  - intros v Hscreen.
    destruct (grid_step_drawn c width _ v Hz Hscreen) as [x [Hin Hx]].
    eexists; eexists. split.
    + apply in_or_app. left. apply in_map_iff. exists x.
      split; [reflexivity | exact Hin].
    + cbn [Point.x Point.y]. repeat split; try exact Hx.
      * apply gridStart_below. exact Hz.
      * apply gridEnd_above. exact Hz.
  - intros v Hscreen.
    destruct (grid_step_drawn c height _ v Hz Hscreen) as [y [Hin Hy]].
    eexists; eexists. split.
    + apply in_or_app. right. apply in_map_iff. exists y.
      split; [reflexivity | exact Hin].
    + cbn [Point.x Point.y]. repeat split; try exact Hy.
      * apply gridStart_below. exact Hz.
      * apply gridEnd_above. exact Hz.
Qed.

(** ** Rendering: outlines and hit boxes *)

Lemma span_arithmetic (a b : Q) : Qmin a b + Qabs (b - a) == Qmax a b.
Proof.
  destruct (Q.min_spec a b) as [[Hlt Hmin] | [Hle Hmin]];
    destruct (Q.max_spec a b) as [[Hlt' Hmax] | [Hle' Hmax]];
    rewrite Hmin, Hmax.
  - rewrite Qabs_pos by lra. ring.
  - lra.
  - assert (Hab : a == b) by lra. rewrite Qabs_pos by lra. lra.
  - rewrite Qabs_neg by lra. ring.
Qed.

Lemma outline_coordinate (a b r pad v : Q) :
  0 <= pad -> 0 <= r -> r <= Qabs (b - a) / 4 ->
  v = Qmin a b + r \/ v = Qmin a b + Qabs (b - a) - r
  \/ v = Qmin a b + Qabs (b - a) \/ v = Qmin a b ->
  Qmin a b - pad <= v <= Qmax a b + pad.
Proof.
  intros Hpad Hr Hquarter Hv.
  pose proof (span_arithmetic a b) as Hspan.
  pose proof (Qabs_nonneg (b - a)) as Hw.
  set (w := Qabs (b - a)) in *. clearbody w.
  set (lo := Qmin a b) in *. clearbody lo.
  set (hi := Qmax a b) in *. clearbody hi.
  assert (Hq : r <= w).
  { apply Qle_trans with (w / 4); [exact Hquarter | ].
    apply Qle_shift_div_r; [reflexivity | lra]. }
  destruct Hv as [Hv | [Hv | [Hv | Hv]]]; subst v; split; lra.
Qed.

Lemma endpoint_coordinate (a b pad v : Q) :
  0 <= pad -> v = a \/ v = b ->
  Qmin a b - pad <= v <= Qmax a b + pad.
Proof.
  intros Hpad Hv.
  pose proof (Q.le_min_l a b). pose proof (Q.le_min_r a b).
  pose proof (Q.le_max_l a b). pose proof (Q.le_max_r a b).
  destruct Hv; subst v; split; lra.
Qed.

Lemma inPaddedBox_intro (c : State) (x y : number) (s : Shape.t) :
  Qmin (Shape.startX s) (Shape.endX s) - 5 / zoom c <= x
    <= Qmax (Shape.startX s) (Shape.endX s) + 5 / zoom c ->
  Qmin (Shape.startY s) (Shape.endY s) - 5 / zoom c <= y
    <= Qmax (Shape.startY s) (Shape.endY s) + 5 / zoom c ->
  inPaddedBox c x y s = true.
Proof.
  intros [Hx1 Hx2] [Hy1 Hy2]. unfold inPaddedBox. cbv zeta.
  rewrite !andb_true_iff. repeat split;
    first [apply geb_iff | apply leb_iff]; assumption.
Qed.

Lemma padding_nonneg (z : Q) : 0 < z -> 0 <= 5 / z.
Proof.
  intro Hz. apply Qle_shift_div_l; [exact Hz | lra].
Qed.

Lemma cornerRadius_bounds (c : State) (s : Shape.t) :
  0 < zoom c ->
  0 <= cornerRadius c s
  /\ cornerRadius c s <= Qabs (Shape.endX s - Shape.startX s) / 4
  /\ cornerRadius c s <= Qabs (Shape.endY s - Shape.startY s) / 4.
Proof.
  intro Hz. unfold cornerRadius. cbv zeta.
  pose proof (Qabs_nonneg (Shape.endX s - Shape.startX s)) as Hw.
  pose proof (Qabs_nonneg (Shape.endY s - Shape.startY s)) as Hh.
  set (w := Qabs (Shape.endX s - Shape.startX s)) in *. clearbody w.
  set (h := Qabs (Shape.endY s - Shape.startY s)) in *. clearbody h.
  repeat split.
  - repeat apply Q.min_glb.
    + apply Qle_shift_div_l; [exact Hz | lra].
    + apply Qle_shift_div_l; [reflexivity | lra].
    + apply Qle_shift_div_l; [reflexivity | lra].
  - eapply Qle_trans; [apply Q.le_min_l | apply Q.le_min_r].
  - apply Q.le_min_r.
Qed.


(** ** Rendering: pen strokes always have a path *)

Section Paths.
Context {M : JSMath}.

Lemma paths_map (f : DrawingElement -> DrawingElement)
  (l : list DrawingElement) :
  (forall el, emptyPath el = false -> emptyPath (f el) = false) ->
  paths l -> paths (map f l).
Proof.
  intros Hf Hl. unfold paths in *. rewrite Forall_forall in *.
  intros el Hin. apply in_map_iff in Hin. destruct Hin as [x [<- Hx]].
  apply Hf, Hl, Hx.
Qed.

Lemma paths_mapi_from (f : DrawingElement -> nat -> DrawingElement)
  (l : list DrawingElement) :
  (forall el i, emptyPath el = false -> emptyPath (f el i) = false) ->
  paths l -> forall index, paths (mapi_from f index l).
Proof.
  intros Hf Hl. induction Hl as [ | el l Hel Hl IH]; intro index; cbn.
  - constructor.
  - constructor; [apply Hf, Hel | apply IH].
Qed.

Lemma paths_filter (f : DrawingElement -> bool) (l : list DrawingElement) :
  paths l -> paths (filter f l).
Proof.
  unfold paths. rewrite !Forall_forall. intros Hl el Hin.
  apply filter_In in Hin. apply Hl, Hin.
Qed.

Lemma paths_app (a b : list DrawingElement) :
  paths a -> paths b -> paths (a ++ b).
Proof. intros Ha Hb. apply Forall_app. split; assumption. Qed.

Lemma paths_removelast (l : list DrawingElement) :
  paths l -> paths (removelast l).
Proof.
  unfold paths. rewrite !Forall_forall. intros Hl el Hin.
  apply Hl. induction l as [ | a [ | b l] IH]; cbn in Hin.
  - destruct Hin.
  - destruct Hin.
  - destruct Hin as [-> | Hin]; [left; reflexivity | right].
    apply IH; [ | exact Hin]. intros x Hx. apply Hl. right. exact Hx.
Qed.

Lemma paths_find (f : DrawingElement -> bool) (l : list DrawingElement)
  (el : DrawingElement) :
  paths l -> find f l = Some el -> emptyPath el = false.
Proof.
  unfold paths. rewrite Forall_forall. intros Hl Hfind.
  apply find_some in Hfind. apply Hl, Hfind.
Qed.

Lemma paths_lastOf (l : list DrawingElement) (el : DrawingElement) :
  paths l -> lastOf l = Some el -> emptyPath el = false.
Proof.
  unfold paths, lastOf. rewrite Forall_forall. intros Hl Hlast.
  apply nth_error_In in Hlast. apply Hl, Hlast.
Qed.

Lemma snapElementToGrid_path (c : State) (el : DrawingElement) :
  emptyPath el = false -> emptyPath (snapElementToGrid c el) = false.
Proof.
  unfold snapElementToGrid. destruct (negb (gridSnap c)); [auto | ].
  destruct el as [s | t]; [ | reflexivity].
  shape_cases s; cbn; congruence.
Qed.

Lemma translateElement_path (deltaX deltaY : number) (el : DrawingElement) :
  emptyPath el = false ->
  emptyPath (translateElement deltaX deltaY el) = false.
Proof.
  destruct el as [s | t]; [ | reflexivity].
  shape_cases s; cbn; congruence.
Qed.

Lemma moveElement_path (c : State) (deltaX deltaY : number)
  (el : DrawingElement) :
  emptyPath el = false -> emptyPath (moveElement c deltaX deltaY el) = false.
Proof.
  intro H. unfold moveElement.
  destruct (someId (selectedElements c) el); [ | exact H].
  destruct (gridSnap c);
    [apply snapElementToGrid_path | ]; apply translateElement_path, H.
Qed.

Lemma moveSelected_path (c : State) (deltaX deltaY : number)
  (el : DrawingElement) :
  paths (elements c) ->
  emptyPath el = false -> emptyPath (moveSelected c deltaX deltaY el) = false.
Proof.
  intros Hc H. unfold moveSelected.
  destruct (find _ (elements c)) as [updated | ] eqn:Hfind; [ | exact H].
  pose proof (paths_find _ _ _ Hc Hfind) as Hupdated.
  destruct (gridSnap c);
    [apply snapElementToGrid_path | ]; apply translateElement_path, Hupdated.
Qed.

Lemma resizeElement_path (c : State) (x y : number) (handle : Handle)
  (el : DrawingElement) :
  emptyPath el = false -> emptyPath (resizeElement c x y handle el) = false.
Proof.
  intro H. unfold resizeElement.
  destruct el as [s | t]; [ | reflexivity].
  destruct (someId (selectedElements c) (EShape s)); [ | exact H].
  destruct (Shape.type s) eqn:Htype; [exact H | | | ];
    unfold resizeBox, resizeCircle; cbv zeta;
    try destruct (gridSnap c); try destruct handle;
    cbn; rewrite Htype; reflexivity.
Qed.

Lemma set_element_id_path (id : string) (el : DrawingElement) :
  emptyPath (set_element_id id el) = emptyPath el.
Proof. destruct el as [s | t]; reflexivity. Qed.

Lemma pastedElement_path (env : Env) (c : State) (pasteX pasteY : number)
  (el : DrawingElement) (index : nat) :
  emptyPath el = false ->
  emptyPath (pastedElement env c pasteX pasteY el index) = false.
Proof.
  intro H. unfold pastedElement. cbv zeta.
  assert (Hnew : forall e', emptyPath e' = false ->
                   emptyPath (if gridSnap c then snapElementToGrid c e'
                              else e') = false).
  { intros e' He'. destruct (gridSnap c);
      [apply snapElementToGrid_path | ]; exact He'. }
  apply Hnew. destruct el as [s | t]; [ | reflexivity].
  shape_cases s; cbn in *; congruence.
Qed.

Lemma duplicatedElement_path (env : Env) (el : DrawingElement) (k : nat) :
  emptyPath el = false -> emptyPath (duplicatedElement env el k) = false.
Proof.
  intro H. unfold duplicatedElement. apply translateElement_path.
  rewrite set_element_id_path. exact H.
Qed.

Lemma rotated_path (el : DrawingElement) :
  emptyPath el = false -> emptyPath (rotated el) = false.
Proof. destruct el as [s | t]; intro H; exact H. Qed.

Lemma flippedX_path (el : DrawingElement) :
  emptyPath el = false -> emptyPath (flippedX el) = false.
Proof. destruct el as [s | t]; intro H; exact H. Qed.

Lemma flippedY_path (el : DrawingElement) :
  emptyPath el = false -> emptyPath (flippedY el) = false.
Proof. destruct el as [s | t]; intro H; exact H. Qed.

Lemma withContent_path (content : string) (el : DrawingElement) :
  emptyPath el = false -> emptyPath (withContent content el) = false.
Proof. destruct el as [s | t]; intro H; exact H. Qed.

Lemma paths_nil : paths [].
Proof. constructor. Qed.

Lemma paths_cons (el : DrawingElement) (l : list DrawingElement) :
  emptyPath el = false -> paths l -> paths (el :: l).
Proof. intros Hel Hl. constructor; assumption. Qed.

Lemma paths_mapi (f : DrawingElement -> nat -> DrawingElement)
  (l : list DrawingElement) :
  (forall el i, emptyPath el = false -> emptyPath (f el i) = false) ->
  paths l -> paths (mapi f l).
Proof. intros Hf Hl. apply paths_mapi_from; assumption. Qed.

Lemma paths_map_some (b : DrawingElement -> bool)
  (f : DrawingElement -> DrawingElement) (l : list DrawingElement) :
  (forall el, emptyPath el = false -> emptyPath (f el) = false) ->
  paths l -> paths (map (fun el => if b el then f el else el) l).
Proof.
  intros Hf Hl. apply paths_map; [ | exact Hl].
  intros el Hel. destruct (b el); [apply Hf | ]; exact Hel.
Qed.

Lemma paths_withoutId (id : string) (l : list DrawingElement) :
  paths l -> paths (withoutId id l).
Proof. apply paths_filter. Qed.

Lemma newShape_path (env : Env) (c : State) (type : ShapeType)
  (x y : number) :
  emptyPath (EShape (newShape env c type x y)) = false.
Proof. destruct type; reflexivity. Qed.

Lemma firstn_In {A : Type} (n : nat) (l : list A) (x : A) :
  In x (firstn n l) -> In x l.
Proof.
  revert l. induction n as [ | n IH]; intros [ | a l] Hin;
    cbn in Hin; try contradiction; destruct Hin as [Hin | Hin].
  - left. exact Hin.
  - right. apply IH, Hin.
Qed.

Lemma snapshots_commit (c p : State) :
  pathsOk c -> pathsOk p ->
  Forall snapshotPaths
    (firstn (historyIndex c + 1) (history c)
     ++ [HistoryState.mk (elements c) (selectedElements c)]).
Proof.
  intros [Hce [Hcs [_ Hch]]] _. apply Forall_app. split.
  - rewrite Forall_forall in *. intros h Hin. apply Hch.
    apply (firstn_In _ _ _ Hin).
  - constructor; [split; assumption | constructor].
Qed.

#[local] Hint Resolve paths_nil paths_cons paths_app paths_filter
  paths_withoutId paths_removelast paths_map paths_mapi paths_map_some
  snapElementToGrid_path translateElement_path moveElement_path
  moveSelected_path resizeElement_path pastedElement_path
  duplicatedElement_path rotated_path flippedX_path flippedY_path
  withContent_path newShape_path snapshots_commit : paths.

Lemma saveToHistory_paths (c p : State) :
  pathsOk c -> pathsOk p -> pathsOk (saveToHistory c p).
Proof.
  intros Hc Hp. pose proof (snapshots_commit c p Hc Hp) as Hcommit.
  destruct Hp as (Hpe & Hps & Hpc & Hph).
  unfold saveToHistory. cbv zeta. paths_done.
Qed.

Lemma snapshot_paths (l : list HistoryState.t) (n : nat)
  (snapshot : HistoryState.t) :
  Forall snapshotPaths l -> nth_error l n = Some snapshot ->
  paths (HistoryState.elements snapshot)
  /\ paths (HistoryState.selectedElements snapshot).
Proof.
  intros Hl Hn. rewrite Forall_forall in Hl.
  apply (Hl snapshot). apply (nth_error_In _ _ Hn).
Qed.

Lemma undo_paths (c p q : State) :
  pathsOk c -> pathsOk p -> undo c p = Some q -> pathsOk q.
Proof.
  intros Hc Hp H. unfold undo in H.
  destruct (0 <? historyIndex c)%nat; [ | inversion H; subst; exact Hp].
  destruct (nth_error (history c) (historyIndex c - 1)) as [snapshot | ] eqn:Hn;
    inversion H; subst; clear H.
  destruct Hc as (Hce & Hcs & Hcc & Hch).
  destruct (snapshot_paths _ _ _ Hch Hn) as [He Hs].
  destruct Hp as (Hpe & Hps & Hpc & Hph). paths_done.
Qed.

Lemma redo_paths (c p q : State) :
  pathsOk c -> pathsOk p -> redo c p = Some q -> pathsOk q.
Proof.
  intros Hc Hp H. unfold redo in H.
  destruct (historyIndex c <? List.length (history c) - 1)%nat;
    [ | inversion H; subst; exact Hp].
  destruct (nth_error (history c) (historyIndex c + 1)) as [snapshot | ] eqn:Hn;
    inversion H; subst; clear H.
  destruct Hc as (Hce & Hcs & Hcc & Hch).
  destruct (snapshot_paths _ _ _ Hch Hn) as [He Hs].
  destruct Hp as (Hpe & Hps & Hpc & Hph). paths_done.
Qed.

(** A handler that sets the elements and the selection and then commits. *)
Lemma commit_paths (f g : list DrawingElement -> list DrawingElement)
  (c p : State) :
  pathsOk c -> pathsOk p ->
  paths (f (elements p)) -> paths (g (selectedElements p)) ->
  pathsOk ((setElements f ;; setSelectedElements g ;; saveToHistory c) p).
Proof.
  intros Hc Hp Hf Hg. pose proof (snapshots_commit c p Hc Hp) as Hcommit.
  destruct Hp as (Hpe & Hps & Hpc & Hph).
  unfold saveToHistory. cbv zeta. paths_done.
Qed.

Lemma eraseElements_paths (x y : number) (c p : State) :
  pathsOk c -> pathsOk p -> pathsOk (eraseElements x y c p).
Proof.
  intros Hc Hp. unfold eraseElements. cbv zeta.
  destruct (filter _ (rev (elements c))) as [ | el rest]; [exact Hp | ].
  destruct Hp as (Hpe & Hps & Hpc & Hph).
  apply commit_paths; auto with paths; repeat split; assumption.
Qed.

Ltac paths_split Hc Hp :=
  destruct Hc as (Hce & Hcs & Hcc & Hch);
  destruct Hp as (Hpe & Hps & Hpc & Hph).

Lemma startDrawing_paths (env : Env) (e : MouseEvent.t) (c p q : State) :
  pathsOk c -> pathsOk p -> startDrawing env e c p = Some q -> pathsOk q.
Proof.
  intros Hc Hp H. unfold startDrawing in H.
  destruct (ctx env); [ | inversion H; subst; exact Hp].
  destruct (canvas env) as [rect | ]; [ | inversion H; subst; exact Hp].
  cbv zeta in H.
  destruct (MouseEvent.button e =? 1)%nat;
    [inversion H; subst; paths_split Hc Hp; paths_done | ].
  set (x := Point.x _) in H. set (y := Point.y _) in H.
  destruct (tool c).
  - inversion H. unfold beginShape. paths_split Hc Hp. paths_done.
  - inversion H. unfold beginShape. paths_split Hc Hp. paths_done.
  - inversion H. unfold beginShape. paths_split Hc Hp. paths_done.
  - inversion H. unfold beginShape. paths_split Hc Hp. paths_done.
  - inversion H. paths_split Hc Hp. paths_done.
  - destruct (firstResizeHandle c x y (selectedElements c));
      [inversion H; paths_split Hc Hp; paths_done | ].
    destruct (find _ (elements c)) as [clicked | ] eqn:Hfind;
      [ | inversion H; paths_split Hc Hp; paths_done].
    assert (Hclicked : emptyPath clicked = false).
    { destruct Hc as [Hce _]. exact (paths_find _ _ _ Hce Hfind). }
    unfold grabElement in H. destruct clicked as [s | txt]; [ | discriminate].
    inversion H. paths_split Hc Hp.
    destruct (negb (includes env (selectedElements c) (EShape s)));
      paths_done.
  - inversion H. apply eraseElements_paths; assumption.
  - destruct (firstResizeHandle c x y (selectedElements c));
      [inversion H; paths_split Hc Hp; paths_done | ].
    destruct (find _ (elements c)) as [clicked | ] eqn:Hfind.
    + assert (Hclicked : emptyPath clicked = false).
      { destruct Hc as [Hce _]. exact (paths_find _ _ _ Hce Hfind). }
      unfold grabElement in H. destruct clicked as [s | txt]; [ | discriminate].
      inversion H. paths_split Hc Hp.
      destruct (MouseEvent.ctrlKey e || MouseEvent.metaKey e);
        [destruct (includes env (selectedElements c) (EShape s))
        | destruct (negb (includes env (selectedElements c) (EShape s)))];
        paths_done.
    + inversion H. paths_split Hc Hp.
      destruct (negb (MouseEvent.ctrlKey e) && negb (MouseEvent.metaKey e));
        paths_done.
Qed.

Lemma updated_path (c : State) (sel : DrawingElement) :
  paths (elements c) -> emptyPath sel = false ->
  emptyPath
    (match find (fun el => (element_id el =? element_id sel)%string)
                (elements c) with
     | Some updated => updated
     | None => sel
     end) = false.
Proof.
  intros Hc Hsel.
  destruct (find _ (elements c)) as [updated | ] eqn:Hfind; [ | exact Hsel].
  exact (paths_find _ _ _ Hc Hfind).
Qed.

Lemma extended_paths (x y : number) (prev : list DrawingElement) :
  paths prev ->
  paths
    (match lastOf prev with
     | Some (EShape lastElement) =>
         match Shape.type lastElement, Shape.points lastElement with
         | pen, Some pts =>
             removelast prev ++
             [EShape (Shape.with_points (Some (pts ++ [Point.mk x y]))
                                        lastElement)]
         | _, _ =>
             removelast prev ++ [EShape (Shape.with_end x y lastElement)]
         end
     | _ => prev
     end).
Proof.
  intro Hprev.
  destruct (lastOf prev) as [[lastElement | txt] | ] eqn:Hlast; try exact Hprev.
  pose proof (paths_lastOf _ _ Hprev Hlast) as Hok.
  pose proof (paths_removelast _ Hprev) as Hinit.
  shape_cases lastElement; cbn in *; try discriminate;
    apply paths_app; try assumption;
    (apply paths_cons; [ | apply paths_nil]); reflexivity.
Qed.

#[local] Hint Resolve updated_path extended_paths : paths.

Lemma draw_paths (env : Env) (e : MouseEvent.t) (c p q : State) :
  pathsOk c -> pathsOk p -> draw env e c p = Some q -> pathsOk q.
Proof.
  intros Hc Hp H. unfold draw in H.
  destruct (ctx env); [ | inversion H; subst; exact Hp].
  destruct (canvas env) as [rect | ]; [ | inversion H; subst; exact Hp].
  cbv zeta in H.
  set (x := Point.x _) in H. set (y := Point.y _) in H.
  paths_split Hc Hp.
  assert (Hdrawing :
            pathsOk
              (setElements
                 (fun prev =>
                    match lastOf prev with
                    | Some (EShape lastElement) =>
                        match Shape.type lastElement,
                              Shape.points lastElement with
                        | pen, Some pts =>
                            removelast prev ++
                            [EShape (Shape.with_points
                                       (Some (pts ++ [Point.mk x y]))
                                       lastElement)]
                        | _, _ =>
                            removelast prev ++
                            [EShape (Shape.with_end x y lastElement)]
                        end
                    | _ => prev
                    end) p)).
  { paths_done. }
  assert (Hp : pathsOk p) by (repeat split; assumption).
  assert (Hresize : forall handle,
            pathsOk
              ((setElements (map (resizeElement c x y handle)) ;;
                setSelectedElements
                  (map (fun sel =>
                          match find (fun el =>
                                        (element_id el
                                         =? element_id sel)%string)
                                     (elements c) with
                          | Some updated => updated
                          | None => sel
                          end))) p)).
  { intro handle. paths_fields. repeat split; try assumption.
    - apply paths_map; [ | assumption].
      intros el Hel. apply resizeElement_path. exact Hel.
    - apply paths_map; [ | assumption].
      intros sel Hsel. apply updated_path; assumption. }
  assert (Hmove : forall deltaX deltaY moving,
            pathsOk
              ((setElements (map (moveElement c deltaX deltaY)) ;;
                setSelectedElements (map (moveSelected c deltaX deltaY)) ;;
                setMovingElement (val moving)) p)).
  { intros deltaX deltaY moving. paths_fields. repeat split; try assumption.
    - apply paths_map; [ | assumption].
      intros el Hel. apply moveElement_path. exact Hel.
    - apply paths_map; [ | assumption].
      intros sel Hsel. apply moveSelected_path; assumption. }
  destruct (isPanning c); [inversion H; paths_done | ].
  break_hyp H; inversion H; subst; clear H;
    first [exact Hp | exact Hdrawing | apply Hresize | apply Hmove
          | paths_done].
Qed.

Lemma finishDrawing_paths (env : Env) (e : MouseEvent.t) (c p : State) :
  pathsOk c -> pathsOk p -> pathsOk (finishDrawing env e c p).
Proof.
  intros Hc Hp. unfold finishDrawing.
  destruct (isPanning c); [paths_split Hc Hp; paths_done | ].
  unfold andThen at 1 2 3 4.
  assert (Hselect : pathsOk (finishBoxSelect env e c p)).
  { unfold finishBoxSelect. paths_split Hc Hp.
    destruct (tool c); try (repeat split; assumption).
    destruct (isSelecting c); [ | repeat split; assumption].
    destruct (selectionBox c); [ | repeat split; assumption].
    cbv zeta.
    destruct (MouseEvent.ctrlKey e || MouseEvent.metaKey e); paths_done. }
  set (p1 := finishBoxSelect env e c p) in *. clearbody p1.
  assert (Hcommit : pathsOk (commitDrawing c p1)).
  { unfold commitDrawing. destruct (isDrawing c); [ | exact Hselect].
    pose proof (saveToHistory_paths c) as Hsave.
    destruct (gridSnap c); [ | apply Hsave; assumption].
    destruct (lastOf (elements c)) as [lastElement | ] eqn:Hlast;
      [ | apply Hsave; assumption].
    unfold andThen. apply Hsave; [exact Hc | ].
    assert (Hok : emptyPath lastElement = false).
    { destruct Hc as [Hce _]. exact (paths_lastOf _ _ Hce Hlast). }
    destruct Hselect as (He & Hs & Hcp & Hh). paths_done. }
  set (p2 := commitDrawing c p1) in *. clearbody p2.
  destruct Hcommit as (He & Hs & Hcp & Hh). paths_done.
Qed.

Lemma addTextToCanvas_paths (env : Env) (c p : State) :
  pathsOk c -> pathsOk p -> pathsOk (addTextToCanvas env c p).
Proof.
  intros Hc Hp. unfold addTextToCanvas.
  destruct (textInput c) as [ | a rest] eqn:Hinput; [exact Hp | ].
  destruct (truthyId (editingTextId c)) as [editing | ].
  - paths_split Hc Hp. paths_done.
  - cbv zeta. pose proof (snapshots_commit c p Hc Hp) as Hcommit.
    paths_split Hc Hp. unfold saveToHistory. cbv zeta. paths_done.
Qed.

Lemma clearCanvas_paths (c p : State) :
  pathsOk c -> pathsOk p -> pathsOk (clearCanvas c p).
Proof.
  intros Hc Hp. unfold clearCanvas.
  apply commit_paths; auto with paths.
Qed.

Lemma handleToolChange_paths (newTool : Tool) (c p : State) :
  pathsOk p -> pathsOk (handleToolChange newTool c p).
Proof.
  intros Hp. unfold handleToolChange.
  destruct Hp as (Hpe & Hps & Hpc & Hph).
  destruct (tool c); destruct (isAddingText c); destruct newTool; paths_done.
Qed.

Lemma copyElements_paths (c p : State) :
  pathsOk c -> pathsOk p -> pathsOk (copyElements c p).
Proof.
  intros Hc Hp. unfold copyElements.
  destruct (selectedElements c) eqn:Hsel; [exact Hp | ].
  rewrite <- Hsel. paths_split Hc Hp. paths_done.
Qed.

Lemma pasteElements_paths (env : Env) (x y : option number) (c p : State) :
  pathsOk c -> pathsOk p -> pathsOk (pasteElements env x y c p).
Proof.
  intros Hc Hp. unfold pasteElements.
  destruct (copiedElements c) eqn:Hcopied; [exact Hp | ].
  rewrite <- Hcopied. cbv zeta.
  assert (Hnew : paths (mapi (pastedElement env c
                                (match x with Some v => v | None => 50 end)
                                (match y with Some v => v | None => 50 end))
                             (copiedElements c))).
  { destruct Hc as (Hce & Hcs & Hcc & Hch). auto with paths. }
  apply commit_paths; try assumption.
  - destruct Hp as [Hpe _]. auto with paths.
Qed.

Lemma duplicateElements_paths (env : Env) (c p : State) :
  pathsOk c -> pathsOk p -> pathsOk (duplicateElements env c p).
Proof.
  intros Hc Hp. unfold duplicateElements.
  destruct (selectedElements c) eqn:Hsel; [exact Hp | ].
  rewrite <- Hsel. cbv zeta.
  assert (Hnew : paths (mapi (duplicatedElement env) (selectedElements c))).
  { destruct Hc as (Hce & Hcs & Hcc & Hch). auto with paths. }
  apply commit_paths; try assumption.
  - destruct Hp as [Hpe _]. auto with paths.
Qed.

Lemma deleteSelectedElements_paths (c p : State) :
  pathsOk c -> pathsOk p -> pathsOk (deleteSelectedElements c p).
Proof.
  intros Hc Hp. unfold deleteSelectedElements.
  destruct (selectedElements c) eqn:Hsel; [exact Hp | ].
  rewrite <- Hsel.
  apply commit_paths; try assumption.
  - destruct Hp as [Hpe _]. auto with paths.
  - apply paths_nil.
Qed.

Lemma transformSelected_paths (f : DrawingElement -> DrawingElement)
  (c p : State) :
  (forall el, emptyPath el = false -> emptyPath (f el) = false) ->
  pathsOk c -> pathsOk p -> pathsOk (transformSelected f c p).
Proof.
  intros Hf Hc Hp. unfold transformSelected.
  destruct (selectedElements c) eqn:Hsel; [exact Hp | ].
  rewrite <- Hsel.
  apply commit_paths; try assumption.
  - destruct Hp as [Hpe _]. auto with paths.
  - destruct Hp as (_ & Hps & _). auto with paths.
Qed.

Lemma handleCanvasContextMenu_paths (env : Env) (e : MouseEvent.t)
  (c p : State) :
  pathsOk c -> pathsOk p -> pathsOk (handleCanvasContextMenu env e c p).
Proof.
  intros Hc Hp. unfold handleCanvasContextMenu.
  destruct (canvas env) as [rect | ]; [ | exact Hp].
  cbv zeta.
  pose proof (pasteElements_paths env) as Hpaste.
  destruct (find _ (elements c)) as [[s | txt] | ];
    try (destruct (copiedElements c);
         [exact Hp | apply Hpaste; assumption]).
  destruct Hp as (Hpe & Hps & Hpc & Hph). paths_done.
Qed.

Lemma handleZoom_paths (env : Env) (delta : number)
  (clientX clientY : option number) (c p : State) :
  pathsOk p -> pathsOk (handleZoom env delta clientX clientY c p).
Proof.
  intro Hp. unfold handleZoom.
  destruct (canvas env) as [rect | ]; [ | exact Hp].
  destruct Hp as (Hpe & Hps & Hpc & Hph). paths_done.
Qed.

Lemma handleKeyDown_paths (env : Env) (e : KeyboardEvent.t) (c p q : State) :
  pathsOk c -> pathsOk p -> handleKeyDown env e c p = Some q -> pathsOk q.
Proof.
  intros Hc Hp H.
  unfold handleKeyDown, andThenP in H. cbv zeta in H.
  match type of H with
  | match ?shortcut with _ => _ end = _ =>
      destruct shortcut as [r | ] eqn:Hshortcut; [ | discriminate H ]
  end.
  assert (Hr : pathsOk r).
  { destruct (KeyboardEvent.ctrlKey e || KeyboardEvent.metaKey e);
      [ | inversion Hshortcut; subst; exact Hp ].
    destruct (keyIs e "c");
      [ inversion Hshortcut; apply copyElements_paths; assumption | ].
    destruct (keyIs e "v");
      [ inversion Hshortcut; apply pasteElements_paths; assumption | ].
    destruct (keyIs e "z").
    { destruct (KeyboardEvent.shiftKey e).
      - exact (redo_paths c p r Hc Hp Hshortcut).
      - exact (undo_paths c p r Hc Hp Hshortcut). }
    destruct (keyIs e "a").
    { inversion Hshortcut. unfold selectAll.
      paths_split Hc Hp. paths_done. }
    destruct (keyIs e "d");
      [ inversion Hshortcut; apply duplicateElements_paths; assumption | ].
    destruct (keyIs e "0").
    { inversion Hshortcut. unfold resetView.
      destruct Hp as (Hpe & Hps & Hpc & Hph). paths_done. }
    destruct (keyIs e "=" || keyIs e "+");
      [ inversion Hshortcut; apply handleZoom_paths; exact Hp | ].
    destruct (keyIs e "-");
      [ inversion Hshortcut; apply handleZoom_paths; exact Hp | ].
    inversion Hshortcut; subst; exact Hp. }
  inversion H. subst q. clear H Hshortcut.
  unfold andThen at 1 2.
  assert (Hdeleted :
            pathsOk ((if keyIs e "Delete" || keyIs e "Backspace"
                      then deleteSelectedElements c else skip) r)).
  { destruct (keyIs e "Delete" || keyIs e "Backspace");
      [apply deleteSelectedElements_paths; assumption | exact Hr]. }
  set (r1 := (if keyIs e "Delete" || keyIs e "Backspace"
              then deleteSelectedElements c else skip) r) in *.
  clearbody r1.
  destruct Hdeleted as (He & Hs & Hcp & Hh).
  break_goal; paths_done.
Qed.

Lemma step_paths (env : Env) (ev : Event) (s s' : State) :
  pathsOk s ->
  (forall closure e, ev = KeyDown closure e -> pathsOk closure) ->
  step env ev s = Some s' -> pathsOk s'.
Proof.
  intros Hs Hclosure H. destruct ev; simpl in H.
  - exact (startDrawing_paths _ _ _ _ _ Hs Hs H).
  - exact (draw_paths _ _ _ _ _ Hs Hs H).
  - inversion H. apply finishDrawing_paths; assumption.
  - inversion H. apply finishDrawing_paths; assumption.
  - inversion H. apply handleCanvasContextMenu_paths; assumption.
  - inversion H. unfold handleWheel.
    destruct (WheelEvent.ctrlKey e); [apply handleZoom_paths; exact Hs | ].
    destruct Hs as (He & Hsel & Hcp & Hh). paths_done.
  - apply (handleKeyDown_paths _ _ _ _ _ (Hclosure _ _ eq_refl) Hs H).
  - inversion H. apply handleToolChange_paths. exact Hs.
  - inversion H. destruct (noSelection s); [exact Hs | ].
    apply copyElements_paths; assumption.
  - inversion H. destruct (noSelection s); [exact Hs | ].
    apply transformSelected_paths; auto with paths.
  - inversion H. destruct (noSelection s); [exact Hs | ].
    apply transformSelected_paths; auto with paths.
  - inversion H. destruct (noSelection s); [exact Hs | ].
    apply transformSelected_paths; auto with paths.
  - inversion H. destruct Hs as (He & Hsel & Hcp & Hh). paths_done.
  - destruct (historyIndex s <=? 0)%nat.
    + inversion H. subst. exact Hs.
    + exact (undo_paths s s s' Hs Hs H).
  - destruct (List.length (history s) - 1 <=? historyIndex s)%nat.
    + inversion H. subst. exact Hs.
    + exact (redo_paths s s s' Hs Hs H).
  - inversion H. apply handleZoom_paths. exact Hs.
  - inversion H. apply handleZoom_paths. exact Hs.
  - inversion H. unfold resetView.
    destruct Hs as (He & Hsel & Hcp & Hh). paths_done.
  - inversion H. destruct Hs as (He & Hsel & Hcp & Hh). paths_done.
  - inversion H. destruct Hs as (He & Hsel & Hcp & Hh). paths_done.
  - inversion H. apply clearCanvas_paths; assumption.
  - inversion H. subst. exact Hs.
  - inversion H. destruct Hs as (He & Hsel & Hcp & Hh). paths_done.
  - break_hyp H; inversion H; subst; try exact Hs.
    apply addTextToCanvas_paths; assumption.
  - inversion H. apply addTextToCanvas_paths; assumption.
Qed.
End Paths.

Lemma drawElement_throws {M : JSMath} (c : State) (el : DrawingElement) :
  drawElement c el = None <-> emptyPath el = true.
Proof.
  destruct el as [s | t]; [ | split; discriminate].
  shape_cases s; cbn; split; intro H; try discriminate; reflexivity.
Qed.

Lemma renderElement_throws {M : JSMath} (c : State) (el : DrawingElement) :
  renderElement c el = None <-> emptyPath el = true.
Proof.
  rewrite <- (drawElement_throws c el). unfold renderElement.
  destruct (drawElement c el); split; intro H; try discriminate; reflexivity.
Qed.

Lemma renderElements_throws {M : JSMath} (c : State)
  (l : list DrawingElement) :
  renderElements c l = None <-> existsb emptyPath l = true.
Proof.
  induction l as [ | el l IH]; [split; discriminate | ].
  cbn [renderElements existsb]. rewrite orb_true_iff, <- IH.
  rewrite <- (renderElement_throws c el).
  destruct (renderElement c el); destruct (renderElements c l);
    split; intro H; try discriminate; auto;
    destruct H; discriminate.
Qed.


Lemma initialState_paths : pathsOk initialState.
Proof.
  repeat split; try apply Forall_nil.
  constructor; [split; apply Forall_nil | constructor].
Qed.

Lemma rendered_paths {M : JSMath} (s : State) : rendered s -> pathsOk s.
Proof.
  induction 1 as [ | env ev s s' Hs IH Hev Hstep
                   | env closure e s s' Hs IH Hc IHc Hstep].
  - exact initialState_paths.
  - apply (step_paths env ev s s' IH); [ | exact Hstep].
    intros closure e Heq. exfalso. exact (Hev _ _ Heq).
  - apply (step_paths env (KeyDown closure e) s s' IH); [ | exact Hstep].
    intros closure' e' Heq. inversion Heq; subst. exact IHc.
Qed.


(** ** The further properties on sample runs *)

Lemma run_rendered {M : JSMath} (trace : list (Env * Event)) :
  noKeyDown trace = true ->
  forall s s', rendered s -> run trace s = Some s' -> rendered s'.
Proof.
  induction trace as [ | [env ev] rest IH]; intros Hkeys s s' Hs Hrun.
  - inversion Hrun. subst. exact Hs.
  - simpl in Hkeys, Hrun. apply andb_true_iff in Hkeys.
    destruct Hkeys as [Hev Hrest].
    destruct (step env ev s) as [s1 | ] eqn:Hstep; [ | discriminate Hrun].
    apply (IH Hrest s1 s'); [ | exact Hrun].
    apply (rendered_step env ev s s1 Hs); [ | exact Hstep].
    intros closure e Heq. subst ev. discriminate Hev.
Qed.


Lemma undo_then_redo_witness :
  exists s1 : State,
    undo sketched sketched = Some s1
    /\ historyIndex s1 = (historyIndex sketched - 1)%nat
    /\ redo s1 s1
       = Some (restored
                 (HistoryState.mk
                    [EShape sketchedRectangle; EShape sketchedStroke] [])
                 sketched).
Proof.
  apply undo_then_redo.
  - vm_compute. lia.
  - vm_compute. reflexivity.
Defined.

Lemma redo_then_undo_witness :
  exists s1 : State,
    redo sketchUndone sketchUndone = Some s1
    /\ historyIndex s1 = (historyIndex sketchUndone + 1)%nat
    /\ undo s1 s1
       = Some (restored (HistoryState.mk [EShape sketchedRectangle] [])
                        sketchUndone).
Proof.
  apply redo_then_undo.
  - vm_compute. lia.
  - vm_compute. reflexivity.
Defined.

Lemma undo_after_command_witness :
  clearCanvas sketched sketched = sketched
  \/ exists s2 : State,
       undo (clearCanvas sketched sketched) (clearCanvas sketched sketched)
       = Some s2
       /\ elements s2 = elements sketched
       /\ selectedElements s2 = selectedElements sketched
       /\ historyIndex s2 = historyIndex sketched.
Proof.
  apply (undo_after_command mountedEnv 0 0 None None clearCanvas sketched).
  - vm_compute. reflexivity.
  - left. reflexivity.
Defined.


Lemma pan_gesture_witness :
  exists s1 s2 : State,
    startDrawing mountedEnv (middleButtonAt 100 100) sketched sketched
    = Some s1
    /\ draw mountedEnv (middleButtonAt 130 90) s1 s1 = Some s2
    /\ Point.x (panOffset (finishDrawing mountedEnv (middleButtonAt 130 90)
                                         s2 s2))
       == Point.x (panOffset sketched) + (130 - 100)
    /\ Point.y (panOffset (finishDrawing mountedEnv (middleButtonAt 130 90)
                                         s2 s2))
       == Point.y (panOffset sketched) + (90 - 100)
    /\ isPanning (finishDrawing mountedEnv (middleButtonAt 130 90) s2 s2)
       = false
    /\ elements (finishDrawing mountedEnv (middleButtonAt 130 90) s2 s2)
       = elements sketched
    /\ selectedElements
         (finishDrawing mountedEnv (middleButtonAt 130 90) s2 s2)
       = selectedElements sketched
    /\ zoom (finishDrawing mountedEnv (middleButtonAt 130 90) s2 s2)
       = zoom sketched
    /\ history (finishDrawing mountedEnv (middleButtonAt 130 90) s2 s2)
       = history sketched
    /\ historyIndex (finishDrawing mountedEnv (middleButtonAt 130 90) s2 s2)
       = historyIndex sketched.
Proof.
  apply (pan_gesture mountedEnv (DOMRect.mk 0 0 800 600)
                     (middleButtonAt 100 100) (middleButtonAt 130 90)
                     (middleButtonAt 130 90) sketched);
    reflexivity.
Defined.

Lemma text_input_under_pointer_witness :
  exists s1 : State,
    startDrawing mountedEnv (mouseAt 200 150)
                 (setTool (val tool_text) zoomedIn)
                 (setTool (val tool_text) zoomedIn) = Some s1
    /\ isAddingText s1 = true
    /\ Point.x (textInputPosition s1) == 200 - 0
    /\ Point.y (textInputPosition s1) == 150 - 0
    /\ elements s1 = elements (setTool (val tool_text) zoomedIn).
Proof.
  apply (text_input_under_pointer mountedEnv (DOMRect.mk 0 0 800 600)
                                  (mouseAt 200 150)
                                  (setTool (val tool_text) zoomedIn)).
  - reflexivity.
  - reflexivity.
  - reflexivity.
  - simpl. lia.
  - reflexivity.
  - vm_compute. discriminate.
Defined.

Lemma zoom_saturates_witness :
  let s' := dispatch (handleZoom mountedEnv (1 # 5) (Some 100) (Some 50))
                     zoomedIn in
  zoom s' == zoom zoomedIn
  /\ Point.x (panOffset s') == Point.x (panOffset zoomedIn)
  /\ Point.y (panOffset s') == Point.y (panOffset zoomedIn).
Proof.
  apply (zoom_saturates mountedEnv zoomedIn (1 # 5) (Some 100) (Some 50)).
  left. split.
  - vm_compute. reflexivity.
  - vm_compute. discriminate.
Defined.

Lemma shape_gesture_witness :
  exists s' : State,
    run (gesture mountedEnv (mouseAt 10 10) [mouseAt 30 30; mouseAt 50 40])
        (setTool (val tool_rectangle) initialState) = Some s'
    /\ elements s'
       = elements (setTool (val tool_rectangle) initialState)
         ++ [EShape
               (Shape.mk (dateNow mountedEnv 0%nat) rectangle
                  (Point.x (worldOf mountedEnv
                              (setTool (val tool_rectangle) initialState)
                              (mouseAt 10 10)))
                  (Point.y (worldOf mountedEnv
                              (setTool (val tool_rectangle) initialState)
                              (mouseAt 10 10)))
                  (Point.x (worldOf mountedEnv
                              (setTool (val tool_rectangle) initialState)
                              (last [mouseAt 30 30; mouseAt 50 40]
                                    (mouseAt 10 10))))
                  (Point.y (worldOf mountedEnv
                              (setTool (val tool_rectangle) initialState)
                              (last [mouseAt 30 30; mouseAt 50 40]
                                    (mouseAt 10 10))))
                  (lineWidth (setTool (val tool_rectangle) initialState))
                  None (Some 0) (Some false) (Some false))]
    /\ isDrawing s' = true
    /\ selectedElements s' = []
    /\ history s' = history (setTool (val tool_rectangle) initialState)
    /\ historyIndex s'
       = historyIndex (setTool (val tool_rectangle) initialState).
Proof.
  apply (shape_gesture mountedEnv (DOMRect.mk 0 0 800 600) eq_refl eq_refl
                       (setTool (val tool_rectangle) initialState) rectangle
                       (mouseAt 10 10) [mouseAt 30 30; mouseAt 50 40]).
  - discriminate.
  - reflexivity.
  - simpl. lia.
  - reflexivity.
Defined.

Lemma pen_gesture_witness :
  exists s' : State,
    run (gesture mountedEnv (mouseAt 60 60) [mouseAt 70 65; mouseAt 80 60])
        initialState = Some s'
    /\ elements s'
       = elements initialState
         ++ [EShape
               (Shape.mk (dateNow mountedEnv 0%nat) pen
                  (Point.x (worldOf mountedEnv initialState (mouseAt 60 60)))
                  (Point.y (worldOf mountedEnv initialState (mouseAt 60 60)))
                  (Point.x (worldOf mountedEnv initialState (mouseAt 60 60)))
                  (Point.y (worldOf mountedEnv initialState (mouseAt 60 60)))
                  (lineWidth initialState)
                  (Some (map (worldOf mountedEnv initialState)
                             (mouseAt 60 60
                              :: [mouseAt 70 65; mouseAt 80 60])))
                  (Some 0) (Some false) (Some false))]
    /\ isDrawing s' = true
    /\ history s' = history initialState
    /\ historyIndex s' = historyIndex initialState.
Proof.
  apply (pen_gesture mountedEnv (DOMRect.mk 0 0 800 600) eq_refl eq_refl
                     initialState (mouseAt 60 60)
                     [mouseAt 70 65; mouseAt 80 60]).
  - reflexivity.
  - simpl. lia.
  - reflexivity.
Defined.

Lemma orientation_independent_witness :
  isPointInElement initialState 30 25 (EShape (swapEnds sketchedRectangle))
  = isPointInElement initialState 30 25 (EShape sketchedRectangle)
  /\ inSelectionBox (Box.mk 0 0 100 100) (EShape (swapEnds sketchedRectangle))
     = inSelectionBox (Box.mk 0 0 100 100) (EShape sketchedRectangle)
  /\ inSelectionBox (swapCorners (Box.mk 0 0 100 100))
                    (EShape sketchedRectangle)
     = inSelectionBox (Box.mk 0 0 100 100) (EShape sketchedRectangle).
Proof.
  apply (orientation_independent initialState 30 25 (Box.mk 0 0 100 100)
                                 sketchedRectangle).
  right. reflexivity.
Defined.

Lemma handle_priority_witness :
  getResizeHandle initialState 10 10 (EShape sampleDot) = Some h_nw
  /\ (10 == 10 -> 10 == 10 ->
      getResizeHandle initialState 12 12 (EShape sampleDot) = None
      \/ getResizeHandle initialState 12 12 (EShape sampleDot) = Some h_nw).
Proof.
  apply (handle_priority initialState 12 12 sampleDot).
  left. reflexivity.
Defined.

Lemma paste_placement_witness :
  let s' := dispatch (pasteElements mountedEnv (Some 300) None)
                     clipboardFilled in
  elements s' = elements clipboardFilled ++ selectedElements s'
  /\ List.length (selectedElements s')
     = List.length (copiedElements clipboardFilled)
  /\ exists pasted : DrawingElement,
       nth_error (selectedElements s') 1 = Some pasted
       /\ placedAt (pasteAnchor (Some 300) + inject_Z (Z.of_nat 1) * 10)
                   (pasteAnchor None + inject_Z (Z.of_nat 1) * 10)
                   (EText sampleText) pasted.
Proof.
  apply (paste_placement mountedEnv clipboardFilled (Some 300) None 1%nat
                         (EText sampleText)).
  - reflexivity.
  - reflexivity.
Defined.

Lemma text_edit_witness :
  let s1 := dispatch (handleCanvasContextMenu mountedEnv (mouseAt 210 95))
                     labelled in
  let s2 := setTextInput (val "hello"%string) s1 in
  let s3 := dispatch (addTextToCanvas mountedEnv) s2 in
  textInput s1 = TextElement.content sampleText
  /\ elements s3
     = map (fun el => if (element_id el =? TextElement.id sampleText)%string
                      then withContent "hello" el else el)
           (elements labelled)
  /\ map element_id (elements s3) = map element_id (elements labelled)
  /\ history s3 = history labelled
  /\ historyIndex s3 = historyIndex labelled
  /\ isAddingText s3 = false
  /\ editingTextId s3 = None.
Proof.
  apply (text_edit mountedEnv (DOMRect.mk 0 0 800 600) (mouseAt 210 95)
                   labelled sampleText "hello"%string).
  - reflexivity.
  - vm_compute. reflexivity.
  - discriminate.
  - discriminate.
Defined.

Lemma escape_cancels_box_select_witness :
  exists s1 : State,
    handleKeyDown mountedEnv escapeKey boxSelecting boxSelecting = Some s1
    /\ selectionBox s1 = None
    /\ selectedElements (dispatch (finishDrawing mountedEnv (mouseAt 200 200))
                                  s1) = []
    /\ elements (dispatch (finishDrawing mountedEnv (mouseAt 200 200)) s1)
       = elements boxSelecting
    /\ history (dispatch (finishDrawing mountedEnv (mouseAt 200 200)) s1)
       = history boxSelecting
    /\ historyIndex (dispatch (finishDrawing mountedEnv (mouseAt 200 200)) s1)
       = historyIndex boxSelecting.
Proof.
  apply (escape_cancels_box_select mountedEnv (mouseAt 200 200)
                                   boxSelecting boxSelecting).
  - reflexivity.
  - reflexivity.
Defined.

Lemma rotation_accumulates_witness :
  elements (repeated rotateSelectedElements 4 sketchSelected)
  = map (fun el => if someId (selectedElements sketchSelected) el
                   then Nat.iter 4 rotated el else el)
        (elements sketchSelected)
  /\ forall el : DrawingElement,
       rotationOf (Nat.iter 4 rotated el)
       == rotationOf el + 90 * inject_Z (Z.of_nat 4)
       /\ geometry (Nat.iter 4 rotated el) = geometry el
       /\ element_flipX (Nat.iter 4 rotated el) = element_flipX el
       /\ element_flipY (Nat.iter 4 rotated el) = element_flipY el.
Proof.
  apply (rotation_accumulates 4 sketchSelected). discriminate.
Defined.

Lemma flip_twice_witness :
  elements (repeated flipSelectedElementsHorizontal 2 sketchSelected)
  = map (fun el => if someId (selectedElements sketchSelected) el
                   then flippedX (flippedX el) else el)
        (elements sketchSelected)
  /\ elements (repeated flipSelectedElementsVertical 2 sketchSelected)
     = map (fun el => if someId (selectedElements sketchSelected) el
                      then flippedY (flippedY el) else el)
           (elements sketchSelected)
  /\ forall el : DrawingElement,
       truthy (element_flipX (flippedX (flippedX el)))
       = truthy (element_flipX el)
       /\ truthy (element_flipY (flippedY (flippedY el)))
          = truthy (element_flipY el)
       /\ geometry (flippedX (flippedX el)) = geometry el
       /\ geometry (flippedY (flippedY el)) = geometry el
       /\ element_rotation (flippedX (flippedX el)) = element_rotation el
       /\ element_rotation (flippedY (flippedY el)) = element_rotation el.
Proof.
  apply (flip_twice sketchSelected). discriminate.
Defined.

Lemma drag_moves_selection_witness :
  exists (s1 s2 : State) (deltaX deltaY : number),
    startDrawing mountedEnv (mouseAt 30 25) readyToMove readyToMove = Some s1
    /\ draw mountedEnv (mouseAt 45 30) s1 s1 = Some s2
    /\ deltaX == Point.x (worldOf mountedEnv readyToMove (mouseAt 45 30))
                 - Point.x (worldOf mountedEnv readyToMove (mouseAt 30 25))
    /\ deltaY == Point.y (worldOf mountedEnv readyToMove (mouseAt 45 30))
                 - Point.y (worldOf mountedEnv readyToMove (mouseAt 30 25))
    /\ someId (selectedElements s1) (EShape sketchedRectangle) = true
    /\ elements s2
       = map (fun el => if someId (selectedElements s1) el
                        then translateElement deltaX deltaY el else el)
             (elements readyToMove).
Proof.
  apply (drag_moves_selection mountedEnv (DOMRect.mk 0 0 800 600)
                              (mouseAt 30 25) (mouseAt 45 30) readyToMove
                              sketchedRectangle).
  - reflexivity.
  - reflexivity.
  - intros a b H. discriminate H.
  - reflexivity.
  - simpl. lia.
  - reflexivity.
  - reflexivity.
  - reflexivity.
  - reflexivity.
  - reflexivity.
  - vm_compute. reflexivity.
Defined.

Lemma redrawCanvas_balanced_witness :
  stackAfter
    (match redrawCanvas mountedEnv 800 600 sketchOnGrid with
     | Some ops => ops
     | None => []
     end) 0 = Some 0%nat.
Proof.
  apply (redrawCanvas_balanced mountedEnv 800 600 sketchOnGrid).
  destruct (redrawCanvas mountedEnv 800 600 sketchOnGrid) as [ops | ] eqn:H;
    [reflexivity | ].
  vm_compute in H. discriminate H.
Defined.

Lemma drawn_handles_grabbable_witness :
  (forall x y w h,
      In (FillRect x y w h)
         (drawResizeHandles mountedEnv (selectedElements sketchOnGrid)
                            sketchOnGrid) ->
      x <= 12 <= x + w -> y <= 9 <= y + h ->
      exists element,
        In element (selectedElements sketchOnGrid)
        /\ getResizeHandle sketchOnGrid 12 9 element <> None)
  /\ (forall x y radius startAngle endAngle,
         In (Arc x y radius startAngle endAngle)
            (drawResizeHandles mountedEnv (selectedElements sketchOnGrid)
                               sketchOnGrid) ->
         Qabs (12 - x) <= radius -> Qabs (9 - y) <= radius ->
         exists element,
           In element (selectedElements sketchOnGrid)
           /\ getResizeHandle sketchOnGrid 12 9 element <> None).
Proof.
  apply (drawn_handles_grabbable mountedEnv (selectedElements sketchOnGrid)
                                 sketchOnGrid 12 9).
  reflexivity.
Defined.

Lemma grid_matches_snapping_witness :
  (forall a b,
      In (a, b) (strokedSegments (drawGrid mountedEnv 800 600 sketchOnGrid)) ->
      (Point.x a = Point.x b
       /\ snapCoordinate gridSize (Point.x a) == Point.x a)
      \/ (Point.y a = Point.y b
          /\ snapCoordinate gridSize (Point.y a) == Point.y a))
  /\ (forall v,
         0 <= snapCoordinate gridSize v * zoom sketchOnGrid
              + Point.x (panOffset sketchOnGrid) <= 800 ->
         exists a b,
           In (a, b)
              (strokedSegments (drawGrid mountedEnv 800 600 sketchOnGrid))
           /\ Point.x a == snapCoordinate gridSize v
           /\ Point.x b == snapCoordinate gridSize v
           /\ Point.y a * zoom sketchOnGrid
              + Point.y (panOffset sketchOnGrid) <= 0
           /\ 600 <= Point.y b * zoom sketchOnGrid
                     + Point.y (panOffset sketchOnGrid))
  /\ (forall v,
         0 <= snapCoordinate gridSize v * zoom sketchOnGrid
              + Point.y (panOffset sketchOnGrid) <= 600 ->
         exists a b,
           In (a, b)
              (strokedSegments (drawGrid mountedEnv 800 600 sketchOnGrid))
           /\ Point.y a == snapCoordinate gridSize v
           /\ Point.y b == snapCoordinate gridSize v
           /\ Point.x a * zoom sketchOnGrid
              + Point.x (panOffset sketchOnGrid) <= 0
           /\ 800 <= Point.x b * zoom sketchOnGrid
                     + Point.x (panOffset sketchOnGrid)).
Proof.
  apply (grid_matches_snapping mountedEnv 800 600 sketchOnGrid
                               (DOMRect.mk 0 0 800 600));
    reflexivity.
Defined.


